(** * The Kineto profiler bridge: torch/csrc/autograd/profiler_kineto.cpp

    A shallow embedding of the profiler bridge and the properties its
    specification states about it.  The embedding is of the build in which
    [USE_KINETO] is defined and [C10_MOBILE] and [_WIN32] are not, and of
    one thread of execution: the thread-local debug-info slot and the
    thread-local callback list are those of that thread, the correlation
    counter is the process-wide one.

    Stateful code is written in a state monad over [World] whose results
    tell a normal return from a failed [TORCH_CHECK] (a thrown [c10::Error],
    with the world as it is at the throw) and from undefined behaviour. *)

From Stdlib Require Import ZArith Ascii DecimalString DecimalZ.
From stdpp Require Import base decidable countable gmap list strings.

#[local] Set Warnings "-clear-no-such-hyp".

Local Open Scope Z_scope.

(** ** Machine integers *)

Definition UINT64_MOD : Z := 2 ^ 64.

Definition wrap_u64 (z : Z) : Z := z mod UINT64_MOD.

(** A 64-bit field is held as the unsigned number its 64 bits are, and an
    assignment between a [uint64_t] and an [int64_t] keeps the bits;
    [to_int64] is the number a field of type [int64_t] reads as. *)
Definition INT64_HALF : Z := 2 ^ 63.

Definition to_int64 (bits : Z) : Z :=
  (bits + INT64_HALF) mod UINT64_MOD - INT64_HALF.

(** The largest value of an [int]. *)
Definition INT_MAX : Z := 2 ^ 31 - 1.

(** ** Enumerations *)

(** [ProfilerState] of the legacy profiler header: the mode of a config. *)
Inductive ProfilerState := Disabled | CPU_MODE | CUDA_MODE | NVTX | KINETO.

(** Modelled from the spec: the requested high-level activity categories,
    CPU-side and accelerator-side ([ActivityType], declared in the bridge's
    header). *)
Inductive ActivityType := CPU | CUDA.

(** Modelled from the spec: the backend's own activity categories
    ([libkineto::ActivityType]). *)
Inductive KActivityType :=
  | CPU_OP | GPU_MEMCPY | GPU_MEMSET | CONCURRENT_KERNEL
  | EXTERNAL_CORRELATION | CUDA_RUNTIME.

(** [at::RecordScope]. *)
Inductive RecordScope :=
  | FUNCTION | BACKWARD_FUNCTION | TORCHSCRIPT_FUNCTION | USER_SCOPE.

Inductive DeviceType := DeviceCPU | DeviceCUDA.

#[global] Instance ProfilerState_eq_dec : EqDecision ProfilerState.
Proof. solve_decision. Defined.
#[global] Instance ActivityType_eq_dec : EqDecision ActivityType.
Proof. solve_decision. Defined.
#[global] Instance KActivityType_eq_dec : EqDecision KActivityType.
Proof. solve_decision. Defined.
#[global] Instance RecordScope_eq_dec : EqDecision RecordScope.
Proof. solve_decision. Defined.

Definition ActivityType_to_nat (a : ActivityType) : nat :=
  match a with CPU => 0 | CUDA => 1 end%nat.
Definition ActivityType_of_nat (n : nat) : ActivityType :=
  match n with 0 => CPU | _ => CUDA end%nat.
#[global] Instance ActivityType_countable : Countable ActivityType.
Proof.
  apply (inj_countable' ActivityType_to_nat ActivityType_of_nat).
  by intros [].
Defined.

Definition KActivityType_to_nat (a : KActivityType) : nat :=
  match a with
  | CPU_OP => 0 | GPU_MEMCPY => 1 | GPU_MEMSET => 2 | CONCURRENT_KERNEL => 3
  | EXTERNAL_CORRELATION => 4 | CUDA_RUNTIME => 5
  end%nat.
Definition KActivityType_of_nat (n : nat) : KActivityType :=
  match n with
  | 0 => CPU_OP | 1 => GPU_MEMCPY | 2 => GPU_MEMSET | 3 => CONCURRENT_KERNEL
  | 4 => EXTERNAL_CORRELATION | _ => CUDA_RUNTIME
  end%nat.
#[global] Instance KActivityType_countable : Countable KActivityType.
Proof.
  apply (inj_countable' KActivityType_to_nat KActivityType_of_nat).
  by intros [].
Defined.

(** The numeric value of a scope, for the [(uint8_t)fn.scope()] cast. *)
Definition RecordScope_to_Z (s : RecordScope) : Z :=
  match s with
  | FUNCTION => 0 | BACKWARD_FUNCTION => 1
  | TORCHSCRIPT_FUNCTION => 2 | USER_SCOPE => 3
  end.

(** ** [shapesToStr] *)

(** [oss << n] for an [int64_t]: the decimal digits, with a leading minus
    sign for a negative number. *)
Definition show_int64 (n : Z) : string := NilZero.string_of_int (Z.to_int n).

(** The inner loop of [shapesToStr], at index [s_idx] with the stream
    contents [oss], over the dimensions that remain.  The counters of the
    two loops are [int]s in the source ([auto t_idx = 0]) and natural
    numbers here, which is the same for lists of at most [INT_MAX]
    entries. *)
Fixpoint shape_loop (dims : list Z) (s_idx : nat) (oss : string) : string :=
  match dims with
  | [] => oss
  | d :: dims' =>
      let oss := if (0 <? s_idx)%nat then oss +:+ ", " else oss in
      shape_loop dims' (S s_idx) (oss +:+ show_int64 d)
  end.

(** The outer loop, at index [t_idx]. *)
Fixpoint shapes_loop (shapes : list (list Z)) (t_idx : nat) (oss : string)
  : string :=
  match shapes with
  | [] => oss
  | t :: shapes' =>
      let oss := if (0 <? t_idx)%nat then oss +:+ ", " else oss in
      let oss := oss +:+ "[" in
      let oss := shape_loop t 0 oss in
      shapes_loop shapes' (S t_idx) (oss +:+ "]")
  end.

Definition shapesToStr (shapes : list (list Z)) : string :=
  let oss := EmptyString in
  let oss := oss +:+ "[" in
  let oss := shapes_loop shapes 0 oss in
  let oss := oss +:+ "]" in
  oss.

(** The rendering as the specification words it: the items separated by
    [", "], between brackets. *)
Fixpoint join_comma (items : list string) : string :=
  match items with
  | [] => EmptyString
  | [x] => x
  | x :: rest => x +:+ ", " +:+ join_comma rest
  end.

Definition bracketed (items : list string) : string :=
  "[" +:+ join_comma items +:+ "]".

Definition render_shapes (shapes : list (list Z)) : string :=
  bracketed (map (fun t => bracketed (map show_int64 t)) shapes).

(** What the loops write once the first item is out: a separator before
    each remaining item. *)
Fixpoint join_rest (items : list string) : string :=
  match items with
  | [] => EmptyString
  | x :: rest => ", " +:+ x +:+ join_rest rest
  end.

(** ** Collaborators outside the bridge *)

(** The call-stack utilities: the frames of the interpreter
    ([jit::StackEntry]), the source locations kept from them, and the two
    functions of the legacy profiler that the entry callback calls.  They
    are parameters of the development. *)
Class CallstackUtils := {
  StackEntry : Type;
  FileLineFunc : Type;
  prepareCallstack : list StackEntry → list FileLineFunc;
  callstackStr : list FileLineFunc → list string
}.

(** ** Data model *)

Record ProfilerConfig := mkProfilerConfig {
  state : ProfilerState;
  report_input_shapes : bool;
  with_stack : bool
}.

(** What the callbacks read of an [at::RecordFunction]; [inputSizes] is the
    result of the shape extractor [inputSizes(fn)]. *)
Record RecordFunction := mkRecordFunction {
  name : string;
  seqNr : Z;
  forwardThreadId : Z;
  scope : RecordScope;
  inputSizes : list (list Z)
}.

Record KinetoObserverContext := mkKinetoObserverContext {
  startUs : Z;
  correlationId : Z;
  startThreadId : Z;
  endThreadId : Z;
  shapes : option (list (list Z));
  sequenceNr : Z;
  fwdThreadId : Z;
  recFunScope : Z;
  stack : option (list string)
}.

(** [std::make_unique<KinetoObserverContext>()]: every member zero or
    absent. *)
Definition new_KinetoObserverContext : KinetoObserverContext :=
  mkKinetoObserverContext 0 0 0 0 None 0 0 0 None.

(** An [at::ObserverContext] is a [KinetoObserverContext] or the context of
    some other observer; [dynamic_cast] tells them apart. *)
Inductive ObserverContext :=
  | KinetoCtx (ctx : KinetoObserverContext)
  | ForeignCtx.

Definition dynamic_cast_ctx (p : ObserverContext)
  : option KinetoObserverContext :=
  match p with KinetoCtx ctx => Some ctx | ForeignCtx => None end.

(** [libkineto::ClientTraceActivity].  Its field [correlation] is an
    [int64_t] in the backend's header, and receives the [uint64_t]
    correlation id: it holds the 64 bits of the id, and
    [correlation_value] is the signed number the program reads there. *)
Record ClientTraceActivity := mkClientTraceActivity {
  startTime : Z;
  endTime : Z;
  opType : string;
  device : Z;
  correlation : Z;
  inputDims : string;
  threadId : Z
}.

Definition correlation_value (a : ClientTraceActivity) : Z :=
  to_int64 (correlation a).

Record TraceSpan := mkTraceSpan {
  span_startTime : Z;
  span_endTime : Z;
  span_name : string
}.

(** [libkineto::CpuTraceBuffer]; a new one has a span from 0 to 0 with no
    name, and no ops. *)
Record CpuTraceBuffer := mkCpuTraceBuffer {
  span : TraceSpan;
  gpuOpCount : Z;
  ops : list ClientTraceActivity
}.

Definition new_CpuTraceBuffer : CpuTraceBuffer :=
  mkCpuTraceBuffer (mkTraceSpan 0 0 EmptyString) 0 [].

Record KinetoEvent := mkKinetoEvent {
  name_ : string;
  device_index_ : Z;
  start_us_ : Z;
  duration_us_ : Z;
  correlation_id_ : Z;
  start_thread_id_ : Z;
  end_thread_id_ : Z;
  sequence_nr_ : Z;
  fwd_thread_id_ : Z;
  scope_ : Z;
  device_type_ : DeviceType;
  shapes_ : option (list (list Z));
  stack_ : option (list string)
}.

(** [kineto_events_.emplace_back()]: a default-constructed event. *)
Definition new_KinetoEvent : KinetoEvent :=
  mkKinetoEvent EmptyString 0 0 0 0 0 0 0 0 0 DeviceCPU None None.

(** Modelled from the spec: the accessors of [libkineto::TraceActivity] on
    a client activity, which are declared in the backend's headers: an
    activity's name, device, start time, duration and correlation id.  The
    duration is the difference of the two times, which for times of a
    clock that counts microseconds is within the range of [int64_t].  The
    correlation id is given by its 64 bits, which [KinetoEvent::activity]
    stores in a [uint64_t]; [correlation_value] is the signed number. *)
Definition activity_name (a : ClientTraceActivity) : string := opType a.
Definition activity_deviceId (a : ClientTraceActivity) : Z := device a.
Definition activity_timestamp (a : ClientTraceActivity) : Z := startTime a.
Definition activity_duration (a : ClientTraceActivity) : Z :=
  endTime a - startTime a.
Definition activity_correlationId (a : ClientTraceActivity) : Z :=
  correlation a.

(** [KinetoEvent::activity]. *)
Definition KinetoEvent_activity (activity : ClientTraceActivity)
    (this : KinetoEvent) : KinetoEvent :=
  mkKinetoEvent
    (activity_name activity) (activity_deviceId activity)
    (activity_timestamp activity) (activity_duration activity)
    (activity_correlationId activity)
    (start_thread_id_ this) (end_thread_id_ this) (sequence_nr_ this)
    (fwd_thread_id_ this) (scope_ this) (device_type_ this)
    (shapes_ this) (stack_ this).

(** The setters of [KinetoEvent] that [reportClientActivity] chains after
    [activity]. *)
Definition KinetoEvent_startThreadId (v : Z) (this : KinetoEvent)
  : KinetoEvent :=
  mkKinetoEvent
    (name_ this) (device_index_ this) (start_us_ this) (duration_us_ this) (correlation_id_ this)
    v (end_thread_id_ this) (sequence_nr_ this) (fwd_thread_id_ this)
    (scope_ this) (device_type_ this) (shapes_ this) (stack_ this).

Definition KinetoEvent_endThreadId (v : Z) (this : KinetoEvent)
  : KinetoEvent :=
  mkKinetoEvent
    (name_ this) (device_index_ this) (start_us_ this) (duration_us_ this) (correlation_id_ this)
    (start_thread_id_ this) v (sequence_nr_ this) (fwd_thread_id_ this)
    (scope_ this) (device_type_ this) (shapes_ this) (stack_ this).

Definition KinetoEvent_sequenceNr (v : Z) (this : KinetoEvent)
  : KinetoEvent :=
  mkKinetoEvent
    (name_ this) (device_index_ this) (start_us_ this) (duration_us_ this) (correlation_id_ this)
    (start_thread_id_ this) (end_thread_id_ this) v (fwd_thread_id_ this)
    (scope_ this) (device_type_ this) (shapes_ this) (stack_ this).

Definition KinetoEvent_fwdThreadId (v : Z) (this : KinetoEvent)
  : KinetoEvent :=
  mkKinetoEvent
    (name_ this) (device_index_ this) (start_us_ this) (duration_us_ this) (correlation_id_ this)
    (start_thread_id_ this) (end_thread_id_ this) (sequence_nr_ this) v
    (scope_ this) (device_type_ this) (shapes_ this) (stack_ this).

Definition KinetoEvent_scope (v : Z) (this : KinetoEvent)
  : KinetoEvent :=
  mkKinetoEvent
    (name_ this) (device_index_ this) (start_us_ this) (duration_us_ this) (correlation_id_ this)
    (start_thread_id_ this) (end_thread_id_ this) (sequence_nr_ this) (fwd_thread_id_ this)
    v (device_type_ this) (shapes_ this) (stack_ this).

Definition KinetoEvent_deviceType (v : DeviceType) (this : KinetoEvent)
  : KinetoEvent :=
  mkKinetoEvent
    (name_ this) (device_index_ this) (start_us_ this) (duration_us_ this) (correlation_id_ this)
    (start_thread_id_ this) (end_thread_id_ this) (sequence_nr_ this) (fwd_thread_id_ this)
    (scope_ this) v (shapes_ this) (stack_ this).

Definition KinetoEvent_shapes (s : list (list Z)) (this : KinetoEvent)
  : KinetoEvent :=
  mkKinetoEvent
    (name_ this) (device_index_ this) (start_us_ this) (duration_us_ this)
    (correlation_id_ this)
    (start_thread_id_ this) (end_thread_id_ this) (sequence_nr_ this)
    (fwd_thread_id_ this) (scope_ this) (device_type_ this)
    (Some s) (stack_ this).

Definition KinetoEvent_stack (s : list string) (this : KinetoEvent)
  : KinetoEvent :=
  mkKinetoEvent
    (name_ this) (device_index_ this) (start_us_ this) (duration_us_ this)
    (correlation_id_ this)
    (start_thread_id_ this) (end_thread_id_ this) (sequence_nr_ this)
    (fwd_thread_id_ this) (scope_ this) (device_type_ this)
    (shapes_ this) (Some s).

Definition CallbackHandle := N.

(** Modelled from the spec: the base class [ProfilerThreadLocalState] of
    the legacy profiler, as far as the bridge uses it: the config, the
    handle of the registered callbacks, and the legacy-format events, to
    which [mark] appends a marker event and which [consolidate] hands out
    as the per-thread event lists. *)
Record ProfilerThreadLocalState := mkProfilerThreadLocalState {
  config_ : ProfilerConfig;
  handle_ : option CallbackHandle;
  event_list_ : list string
}.

Definition mark (name : string) (include_cuda : bool)
    (this : ProfilerThreadLocalState) : ProfilerThreadLocalState :=
  mkProfilerThreadLocalState
    (config_ this) (handle_ this) (event_list_ this ++ [name]).

Definition consolidate (this : ProfilerThreadLocalState)
  : list (list string) :=
  [event_list_ this].

Record KinetoThreadLocalState := mkKinetoThreadLocalState {
  base : ProfilerThreadLocalState;
  kineto_events_ : list KinetoEvent;
  cpu_trace : option CpuTraceBuffer
}.

Definition config (this : KinetoThreadLocalState) : ProfilerConfig :=
  config_ (base this).

Definition hasCallbackHandle (this : KinetoThreadLocalState) : bool :=
  bool_decide (is_Some (handle_ (base this))).

Definition setCallbackHandle (handle : CallbackHandle)
    (this : KinetoThreadLocalState) : KinetoThreadLocalState :=
  mkKinetoThreadLocalState
    (mkProfilerThreadLocalState
       (config_ (base this)) (Some handle) (event_list_ (base this)))
    (kineto_events_ this) (cpu_trace this).

(** The constructor inherited from the base class: the config is stored,
    no callback handle, no events, a null [cpu_trace]. *)
Definition new_KinetoThreadLocalState (cfg : ProfilerConfig)
  : KinetoThreadLocalState :=
  mkKinetoThreadLocalState (mkProfilerThreadLocalState cfg None []) [] None.

(** [KinetoThreadLocalState::addTraceEvents] does nothing yet. *)
Definition addTraceEvents {T} (trace : T) (this : KinetoThreadLocalState)
  : KinetoThreadLocalState := this.

(** [KinetoThreadLocalState::events] returns a fresh, empty vector of
    vectors whatever [kineto_events_] holds. *)
Definition events (this : KinetoThreadLocalState) : list (list KinetoEvent) :=
  [].

(** An entry of the thread-local debug-info stack under the kind
    [PROFILER_STATE]: the state of this bridge, or the state of the legacy
    profiler, which has the base class only. *)
Inductive DebugInfoBase :=
  | KinetoTLS (s : KinetoThreadLocalState)
  | LegacyTLS (s : ProfilerThreadLocalState).

Definition dynamic_cast_state (p : DebugInfoBase)
  : option KinetoThreadLocalState :=
  match p with KinetoTLS s => Some s | LegacyTLS _ => None end.

(** The base-class part, which a pointer of either static type reaches. *)
Definition base_of (p : DebugInfoBase) : ProfilerThreadLocalState :=
  match p with KinetoTLS s => base s | LegacyTLS s => s end.

(** Modelled from the spec: the trace handle the backend gives back when
    the trace is stopped; it holds the CPU traces transferred to it. *)
Record ActivityTraceInterface := mkActivityTrace {
  trace_cpu : list CpuTraceBuffer
}.

Record ProfilerResult := mkProfilerResult {
  events_ : list (list KinetoEvent);
  legacy_events_ : list (list string);
  trace_ : ActivityTraceInterface
}.

Record ProfilerResultWrapper := mkProfilerResultWrapper {
  result_ : ProfilerResult
}.

(** ** The world the bridge runs in *)

(** Modelled from the spec: the external trace backend behind
    [libkineto::api()], as far as the bridge can observe it: whether it was
    initialised, the activity set it was asked to prepare, whether a trace
    is active, the stack of open correlation scopes, the CPU traces
    transferred to it, and whether it hands back a trace when stopped (a
    malfunctioning backend hands back a null handle). *)
Record KinetoApi := mkKinetoApi {
  initialised : bool;
  prepared : option (gset KActivityType);
  trace_active : bool;
  correlation_scopes : list Z;
  transferred : list CpuTraceBuffer;
  hands_back_trace : bool
}.

(** Modelled from the spec: a pair of callbacks registered with the
    call-observation mechanism, by its handle and options. *)
Record RegisteredCallback := mkRegisteredCallback {
  cb_handle : CallbackHandle;
  cb_needsInputs : bool;
  cb_needsIds : bool
}.

(** What the thread does with [state_mutex_], the mutex of the profiler
    state, and under it, in the order it does it: the guard of
    [reportClientActivity] taken ([std::lock_guard], line 53) and given
    back (the end of its block, line 70), and the two [emplace_back]
    between them. *)
Inductive GuardStep :=
  | Acquire
  | EmplaceEvent (ev : KinetoEvent)
  | EmplaceOp (op : ClientTraceActivity)
  | Release.

Section Bridge.
Context `{CallstackUtils}.

(** The process-wide counter, the thread's debug-info stack under the kind
    [PROFILER_STATE] (top first), the thread's registered callbacks, the
    invocations of instrumented operations that are between entry and exit
    (innermost first, each with the contexts its entry callbacks returned),
    the backend, the clock ([clock w i] is what the [i]-th reading
    returns), the identity of the thread, the call stacks the two
    extractors of the interpreter would return now, and the steps the
    thread has taken on [state_mutex_] and under it, oldest first. *)
Record World := mkWorld {
  corr_id_ : Z;
  debug_info : list DebugInfoBase;
  callbacks : list RegisteredCallback;
  next_handle : CallbackHandle;
  in_flight : list (RecordFunction * list ObserverContext);
  kineto : KinetoApi;
  clock : nat → Z;
  ticks : nat;
  currentThreadId : Z;
  pthread_self : Z;
  currentCallstack : list StackEntry;
  pythonCallstack : list StackEntry;
  state_mutex_ : list GuardStep
}.

Definition set_corr_id_ (v : Z) (w : World) : World :=
  mkWorld v (debug_info w) (callbacks w) (next_handle w) (in_flight w)
    (kineto w) (clock w) (ticks w) (currentThreadId w) (pthread_self w)
    (currentCallstack w) (pythonCallstack w) (state_mutex_ w).

Definition set_debug_info (v : list DebugInfoBase) (w : World) : World :=
  mkWorld (corr_id_ w) v (callbacks w) (next_handle w) (in_flight w)
    (kineto w) (clock w) (ticks w) (currentThreadId w) (pthread_self w)
    (currentCallstack w) (pythonCallstack w) (state_mutex_ w).

Definition set_callbacks (v : list RegisteredCallback) (n : CallbackHandle)
    (w : World) : World :=
  mkWorld (corr_id_ w) (debug_info w) v n (in_flight w)
    (kineto w) (clock w) (ticks w) (currentThreadId w) (pthread_self w)
    (currentCallstack w) (pythonCallstack w) (state_mutex_ w).

Definition set_in_flight (v : list (RecordFunction * list ObserverContext))
    (w : World) : World :=
  mkWorld (corr_id_ w) (debug_info w) (callbacks w) (next_handle w) v
    (kineto w) (clock w) (ticks w) (currentThreadId w) (pthread_self w)
    (currentCallstack w) (pythonCallstack w) (state_mutex_ w).

Definition set_kineto (v : KinetoApi) (w : World) : World :=
  mkWorld (corr_id_ w) (debug_info w) (callbacks w) (next_handle w)
    (in_flight w) v (clock w) (ticks w) (currentThreadId w) (pthread_self w)
    (currentCallstack w) (pythonCallstack w) (state_mutex_ w).

Definition set_ticks (v : nat) (w : World) : World :=
  mkWorld (corr_id_ w) (debug_info w) (callbacks w) (next_handle w)
    (in_flight w) (kineto w) (clock w) v (currentThreadId w) (pthread_self w)
    (currentCallstack w) (pythonCallstack w) (state_mutex_ w).

Definition set_callstacks (cs py : list StackEntry) (w : World) : World :=
  mkWorld (corr_id_ w) (debug_info w) (callbacks w) (next_handle w)
    (in_flight w) (kineto w) (clock w) (ticks w) (currentThreadId w)
    (pthread_self w) cs py (state_mutex_ w).

Definition set_state_mutex_ (v : list GuardStep) (w : World) : World :=
  mkWorld (corr_id_ w) (debug_info w) (callbacks w) (next_handle w)
    (in_flight w) (kineto w) (clock w) (ticks w) (currentThreadId w)
    (pthread_self w) (currentCallstack w) (pythonCallstack w) v.

(** The outcome of a call: a normal return, a [c10::Error] thrown by a
    failed check (with the world at the throw), or undefined behaviour. *)
Inductive Result (A : Type) :=
  | Ok (a : A) (w : World)
  | Fatal (msg : string) (w : World)
  | Undefined.
Global Arguments Ok {A} a w.
Global Arguments Fatal {A} msg w.
Global Arguments Undefined {A}.

Definition M (A : Type) : Type := World → Result A.

#[global] Instance M_ret : MRet M := λ A a w, Ok a w.

#[global] Instance M_bind : MBind M := λ A B f m w,
  match m w with
  | Ok a w' => f a w'
  | Fatal msg w' => Fatal msg w'
  | Undefined => Undefined
  end.

Definition gets {A} (f : World → A) : M A := λ w, Ok (f w) w.
Definition modify (f : World → World) : M unit := λ w, Ok tt (f w).
Definition throw {A} (msg : string) : M A := λ w, Fatal msg w.
Definition undefined {A} : M A := λ _, Undefined.

Definition TORCH_CHECK (cond : bool) (msg : string) : M unit :=
  if cond then mret tt else throw msg.

Definition TORCH_INTERNAL_ASSERT (cond : bool) (msg : string) : M unit :=
  if cond then mret tt else throw msg.

(** ** The correlation allocator *)

(** [next_correlation_id]: [return corr_id_++] on the static atomic
    [uint64_t], which starts at 1; the increment wraps at [2^64]. *)
Definition corr_id_init : Z := 1.

Definition next_correlation_id : M Z :=
  λ w, Ok (corr_id_ w) (set_corr_id_ (wrap_u64 (corr_id_ w + 1)) w).

(** ** What the bridge calls *)

(** The clock [getTimeUs]: each reading takes the next value of the
    clock. *)
Definition getTimeUs : M Z :=
  λ w, Ok (clock w (ticks w)) (set_ticks (S (ticks w)) w).

(** Modelled from the spec: the thread-local debug-info registry
    ([c10::ThreadLocalDebugInfo]), a stack with [get], [_push] and [_pop];
    [_pop] gives back the occupant it removes, or null when there is
    none. *)
Definition ThreadLocalDebugInfo_get : M (option DebugInfoBase) :=
  gets (λ w, head (debug_info w)).

Definition ThreadLocalDebugInfo_push (info : DebugInfoBase) : M unit :=
  modify (λ w, set_debug_info (info :: debug_info w) w).

Definition ThreadLocalDebugInfo_pop : M (option DebugInfoBase) :=
  λ w, match debug_info w with
       | [] => Ok None w
       | info :: parent => Ok (Some info) (set_debug_info parent w)
       end.

(** A write through a pointer to the state object on top of the stack: the
    object is updated where it is. *)
Definition modify_top (f : KinetoThreadLocalState → KinetoThreadLocalState)
  : M unit :=
  modify (λ w, match debug_info w with
               | KinetoTLS s :: parent =>
                   set_debug_info (KinetoTLS (f s) :: parent) w
               | _ => w
               end).

Definition store_top (s : KinetoThreadLocalState) : M unit :=
  modify_top (λ _, s).

(** A write through [state->cpu_trace->] for the state on top of the
    stack; dereferencing a null [cpu_trace] is undefined behaviour. *)
Definition modify_cpu_trace (f : CpuTraceBuffer → CpuTraceBuffer) : M unit :=
  λ w, match debug_info w with
       | KinetoTLS s :: parent =>
           match cpu_trace s with
           | Some buf =>
               Ok tt (set_debug_info
                        (KinetoTLS
                           (mkKinetoThreadLocalState
                              (base s) (kineto_events_ s) (Some (f buf)))
                           :: parent) w)
           | None => Undefined
           end
       | _ => Undefined
       end.

(** Modelled from the spec: the registration of a callback pair with the
    call-observation mechanism and its removal. *)
Definition addThreadLocalCallback (needsInputs needsIds : bool)
  : M CallbackHandle :=
  λ w, let handle := next_handle w in
       Ok handle
          (set_callbacks
             (callbacks w ++ [mkRegisteredCallback handle needsInputs needsIds])
             (N.succ handle) w).

Definition removeCallback (handle : CallbackHandle) : M unit :=
  modify (λ w, set_callbacks
                 (filter (λ cb, cb_handle cb ≠ handle) (callbacks w))
                 (next_handle w) w).

(** Modelled from the spec: the calls of the backend interface. *)
Definition api_initProfilerIfRegistered : M unit :=
  modify (λ w, let k := kineto w in
    set_kineto (mkKinetoApi true (prepared k) (trace_active k)
                  (correlation_scopes k) (transferred k)
                  (hands_back_trace k)) w).

Definition api_prepareTrace (k_activities : gset KActivityType) : M unit :=
  modify (λ w, let k := kineto w in
    set_kineto (mkKinetoApi (initialised k) (Some k_activities)
                  (trace_active k) (correlation_scopes k) (transferred k)
                  (hands_back_trace k)) w).

Definition api_traceActive : M bool := gets (λ w, trace_active (kineto w)).

Definition api_startTrace : M unit :=
  modify (λ w, let k := kineto w in
    set_kineto (mkKinetoApi (initialised k) (prepared k) true
                  (correlation_scopes k) (transferred k)
                  (hands_back_trace k)) w).

Definition api_stopTrace : M (option ActivityTraceInterface) :=
  λ w, let k := kineto w in
       Ok (if hands_back_trace k
           then Some (mkActivityTrace (transferred k)) else None)
          (set_kineto (mkKinetoApi (initialised k) (prepared k) false
                         (correlation_scopes k) (transferred k)
                         (hands_back_trace k)) w).

Definition api_transferCpuTrace (buf : CpuTraceBuffer) : M unit :=
  modify (λ w, let k := kineto w in
    set_kineto (mkKinetoApi (initialised k) (prepared k) (trace_active k)
                  (correlation_scopes k) (transferred k ++ [buf])
                  (hands_back_trace k)) w).

Definition api_pushCorrelationId (id : Z) : M unit :=
  modify (λ w, let k := kineto w in
    set_kineto (mkKinetoApi (initialised k) (prepared k) (trace_active k)
                  (id :: correlation_scopes k) (transferred k)
                  (hands_back_trace k)) w).

Definition api_popCorrelationId : M unit :=
  modify (λ w, let k := kineto w in
    set_kineto (mkKinetoApi (initialised k) (prepared k) (trace_active k)
                  (tail (correlation_scopes k)) (transferred k)
                  (hands_back_trace k)) w).

(** ** The profiler state and the callbacks *)

(** [ctx->shapes && !ctx->shapes->empty()], and the same for the stack. *)
Definition present_nonempty {A} (o : option (list A)) : bool :=
  match o with Some (_ :: _) => true | _ => false end.

(** A step on [state_mutex_] or under it. *)
Definition guard_step (g : GuardStep) : M unit :=
  modify (λ w, set_state_mutex_ (state_mutex_ w ++ [g]) w).

(** [KinetoThreadLocalState::reportClientActivity], on the object [this];
    the result is the object after the call.  The block of the
    [lock_guard] on [state_mutex_] holds the two appends: the guard is
    taken when the block is entered and given back when it is left. *)
Definition reportClientActivity (this : KinetoThreadLocalState)
    (fn : RecordFunction) (observer_ctx : ObserverContext)
  : M KinetoThreadLocalState :=
  let ctx := dynamic_cast_ctx observer_ctx in
  TORCH_CHECK (bool_decide (is_Some ctx)) "ctx";;
  match ctx with
  | None => mret this
  | Some ctx =>
      now ← getTimeUs;
      self ← gets pthread_self;
      let op :=
        mkClientTraceActivity
          (startUs ctx) now (name fn) 0 (correlationId ctx)
          (if present_nonempty (shapes ctx)
           then shapesToStr (default [] (shapes ctx)) else EmptyString)
          self in
      guard_step Acquire;;
      let ev := new_KinetoEvent in
      let ev := KinetoEvent_activity op ev in
      let ev := KinetoEvent_startThreadId (startThreadId ctx) ev in
      let ev := KinetoEvent_endThreadId (endThreadId ctx) ev in
      let ev := KinetoEvent_sequenceNr (sequenceNr ctx) ev in
      let ev := KinetoEvent_fwdThreadId (fwdThreadId ctx) ev in
      let ev := KinetoEvent_scope (recFunScope ctx) ev in
      let ev := KinetoEvent_deviceType DeviceCPU ev in
      let ev :=
        if present_nonempty (shapes ctx)
        then KinetoEvent_shapes (default [] (shapes ctx)) ev else ev in
      let ev :=
        if present_nonempty (stack ctx)
        then KinetoEvent_stack (default [] (stack ctx)) ev else ev in
      guard_step (EmplaceEvent ev);;
      match cpu_trace this with
      | None => undefined
      | Some buf =>
          guard_step (EmplaceOp op);;
          guard_step Release;;
          mret (mkKinetoThreadLocalState
                  (base this)
                  (kineto_events_ this ++ [ev])
                  (Some (mkCpuTraceBuffer
                           (span buf) (gpuOpCount buf) (ops buf ++ [op]))))
      end
  end.

(** [getProfilerTLSState]: the debug info of the thread, cast down. *)
Definition getProfilerTLSState : M (option KinetoThreadLocalState) :=
  state ← ThreadLocalDebugInfo_get;
  mret (state ≫= dynamic_cast_state).

(** The entry callback of [pushProfilingCallbacks]. *)
Definition entry_callback (fn : RecordFunction) : M ObserverContext :=
  state_ptr ← getProfilerTLSState;
  match state_ptr with
  | None => mret (KinetoCtx new_KinetoObserverContext)
  | Some st =>
      if bool_decide (state (config st) ≠ KINETO)
      then mret (KinetoCtx new_KinetoObserverContext)
      else
        corr_id ← next_correlation_id;
        api_pushCorrelationId corr_id;;
        now ← getTimeUs;
        tid ← gets currentThreadId;
        let shapes :=
          if report_input_shapes (config st)
          then Some (inputSizes fn) else None in
        cs_jit ← gets currentCallstack;
        cs_py ← gets pythonCallstack;
        let stack :=
          if with_stack (config st)
             && bool_decide (scope fn ≠ BACKWARD_FUNCTION)
          then
            let cs := prepareCallstack cs_jit in
            let cs :=
              match cs with [] => prepareCallstack cs_py | _ => cs end in
            Some (callstackStr cs)
          else None in
        mret (KinetoCtx
                (mkKinetoObserverContext
                   now corr_id tid 0 shapes (seqNr fn) (forwardThreadId fn)
                   (RecordScope_to_Z (scope fn)) stack))
  end.

(** The exit callback of [pushProfilingCallbacks]. *)
Definition exit_callback (fn : RecordFunction) (ctx_ptr : ObserverContext)
  : M unit :=
  state_ptr ← getProfilerTLSState;
  match state_ptr with
  | None => mret tt
  | Some st =>
      if bool_decide (state (config st) ≠ KINETO)
      then mret tt
      else
        let kineto_ctx_ptr := dynamic_cast_ctx ctx_ptr in
        TORCH_INTERNAL_ASSERT (bool_decide (is_Some kineto_ctx_ptr))
          "kineto_ctx_ptr != nullptr";;
        match kineto_ctx_ptr with
        | None => mret tt
        | Some ctx =>
            tid ← gets currentThreadId;
            let ctx :=
              mkKinetoObserverContext
                (startUs ctx) (correlationId ctx) (startThreadId ctx) tid
                (shapes ctx) (sequenceNr ctx) (fwdThreadId ctx)
                (recFunScope ctx) (stack ctx) in
            st' ← reportClientActivity st fn (KinetoCtx ctx);
            store_top st';;
            api_popCorrelationId
        end
  end.

Definition pushProfilingCallbacks : M unit :=
  state_ptr ← getProfilerTLSState;
  TORCH_INTERNAL_ASSERT (bool_decide (is_Some state_ptr))
    "Expected profiler state set";;
  match state_ptr with
  | None => mret tt
  | Some st =>
      handle ← addThreadLocalCallback (report_input_shapes (config st)) true;
      modify_top (setCallbackHandle handle)
  end.

(** ** The lifecycle controller *)

(** The backend activity set [prepareProfiler] builds. *)
Definition k_activities_of (activities : gset ActivityType)
  : gset KActivityType :=
  let k_activities : gset KActivityType := ∅ in
  let k_activities :=
    if bool_decide (CPU ∈ activities)
    then k_activities ∪ {[EXTERNAL_CORRELATION]} ∪ {[CUDA_RUNTIME]}
    else k_activities in
  let k_activities :=
    if bool_decide (CUDA ∈ activities)
    then k_activities ∪ {[GPU_MEMCPY]} ∪ {[GPU_MEMSET]}
           ∪ {[CONCURRENT_KERNEL]} ∪ {[CUDA_RUNTIME]}
    else k_activities in
  k_activities.

Definition prepareProfiler (config : ProfilerConfig)
    (activities : gset ActivityType) : M unit :=
  TORCH_CHECK (bool_decide (state config = KINETO))
    "Supported only in Kineto profiler";;
  let k_activities := k_activities_of activities in
  api_initProfilerIfRegistered;;
  api_prepareTrace k_activities.

Definition enableProfiler (config : ProfilerConfig)
    (activities : gset ActivityType) : M unit :=
  TORCH_CHECK (bool_decide (state config = KINETO)) EmptyString;;
  TORCH_CHECK (negb (bool_decide (activities = ∅)))
    "No activities specified for Kineto profiler";;
  state_ptr ← getProfilerTLSState;
  TORCH_CHECK (negb (bool_decide (is_Some state_ptr)))
    "Profiler is already enabled on this thread";;
  let state := new_KinetoThreadLocalState config in
  ThreadLocalDebugInfo_push (KinetoTLS state);;
  modify_top (λ state,
    mkKinetoThreadLocalState (base state) (kineto_events_ state)
      (Some new_CpuTraceBuffer));;
  now ← getTimeUs;
  modify_cpu_trace (λ buf,
    mkCpuTraceBuffer
      (mkTraceSpan now (span_endTime (span buf)) (span_name (span buf)))
      (gpuOpCount buf) (ops buf));;
  modify_cpu_trace (λ buf, mkCpuTraceBuffer (span buf) (-1) (ops buf));;
  modify_cpu_trace (λ buf,
    mkCpuTraceBuffer
      (mkTraceSpan (span_startTime (span buf)) (span_endTime (span buf))
         "PyTorch Profiler")
      (gpuOpCount buf) (ops buf));;
  (if bool_decide (CPU ∈ activities) then pushProfilingCallbacks else mret tt);;
  active ← api_traceActive;
  (if negb active then api_startTrace else mret tt);;
  modify_top (λ state,
    mkKinetoThreadLocalState (mark "__start_profile" false (base state))
      (kineto_events_ state) (cpu_trace state)).

Definition disableProfiler : M ProfilerResultWrapper :=
  let msg := "Can't disable Kineto profiler when it's not running" in
  popped ← ThreadLocalDebugInfo_pop;
  match popped with
  | None => throw msg
  | Some p =>
      TORCH_CHECK (bool_decide (state (config_ (base_of p)) = KINETO)) msg;;
      match p with
      | LegacyTLS _ => undefined
      | KinetoTLS st =>
          (if hasCallbackHandle st
           then removeCallback (default 0%N (handle_ (base st)))
           else mret tt);;
          let st :=
            mkKinetoThreadLocalState (mark "__stop_profile" true (base st))
              (kineto_events_ st) (cpu_trace st) in
          match cpu_trace st with
          | None => undefined
          | Some buf =>
              now ← getTimeUs;
              let buf :=
                mkCpuTraceBuffer
                  (mkTraceSpan (span_startTime (span buf)) now
                     (span_name (span buf)))
                  (gpuOpCount buf) (ops buf) in
              api_transferCpuTrace buf;;
              let st :=
                mkKinetoThreadLocalState (base st) (kineto_events_ st) None in
              trace ← api_stopTrace;
              TORCH_CHECK (bool_decide (is_Some trace)) "trace";;
              match trace with
              | None => throw "trace"
              | Some trace =>
                  let st := addTraceEvents trace st in
                  mret (mkProfilerResultWrapper
                          (mkProfilerResult
                             (events st) (consolidate (base st)) trace))
              end
          end
      end
  end.

Definition kinetoAvailable : bool := true.

(** ** The call-observation mechanism and runs of the bridge *)

(** Modelled from the spec: the call-observation mechanism.  At the entry
    of an instrumented operation it runs the entry callback of every
    registered pair and keeps the contexts they return with the
    invocation; at the exit of the innermost invocation it hands each
    context to the matching exit callback. *)
Fixpoint run_entries (cbs : list RegisteredCallback) (fn : RecordFunction)
  : M (list ObserverContext) :=
  match cbs with
  | [] => mret []
  | _ :: cbs' =>
      ctx ← entry_callback fn;
      ctxs ← run_entries cbs' fn;
      mret (ctx :: ctxs)
  end.

Fixpoint run_exits (fn : RecordFunction) (ctxs : list ObserverContext)
  : M unit :=
  match ctxs with
  | [] => mret tt
  | ctx :: ctxs' => exit_callback fn ctx;; run_exits fn ctxs'
  end.

Definition op_enter (fn : RecordFunction) : M unit :=
  cbs ← gets callbacks;
  ctxs ← run_entries cbs fn;
  modify (λ w, set_in_flight ((fn, ctxs) :: in_flight w) w).

Definition op_exit : M unit :=
  inv ← gets (λ w, head (in_flight w));
  match inv with
  | None => mret tt
  | Some (fn, ctxs) =>
      modify (λ w, set_in_flight (tail (in_flight w)) w);;
      run_exits fn ctxs
  end.

(** What the thread does, one action at a time: the three calls of the
    public surface, the entry and the exit of an instrumented operation,
    and the interpreter moving on to other call stacks. *)
Inductive Action :=
  | Prepare (config : ProfilerConfig) (activities : gset ActivityType)
  | Enable (config : ProfilerConfig) (activities : gset ActivityType)
  | Disable
  | Enter (fn : RecordFunction)
  | Exit
  | Interp (cs py : list StackEntry).

Definition perform (a : Action) : M unit :=
  match a with
  | Prepare config activities => prepareProfiler config activities
  | Enable config activities => enableProfiler config activities
  | Disable => disableProfiler;; mret tt
  | Enter fn => op_enter fn
  | Exit => op_exit
  | Interp cs py => modify (set_callstacks cs py)
  end.

(** The world after a call: a caller that catches the error of a failed
    check goes on in the world of the throw; nothing is known after
    undefined behaviour. *)
Definition world_after {A} (r : Result A) : option World :=
  match r with
  | Ok _ w => Some w
  | Fatal _ w => Some w
  | Undefined => None
  end.

Fixpoint run (actions : list Action) (w : World) : option World :=
  match actions with
  | [] => Some w
  | a :: actions' => world_after (perform a w) ≫= run actions'
  end.

(** The state [getProfilerTLSState] finds in a world. *)
Definition active_state (w : World) : option KinetoThreadLocalState :=
  head (debug_info w) ≫= dynamic_cast_state.

(** A world in which the bridge has not run yet. *)
Definition fresh (w : World) : Prop :=
  corr_id_ w = corr_id_init ∧ debug_info w = [] ∧ callbacks w = [] ∧
  in_flight w = [] ∧ transferred (kineto w) = [].

Definition initial_world (clk : nat → Z) : World :=
  mkWorld corr_id_init [] [] 1%N [] (mkKinetoApi false None false [] [] true)
    clk 0 0 0 [] [] [].

(** The id the call number [k] (from 0) of the allocator returns, in a run
    of calls from the world [w]. *)
Definition skip_correlation_id (w : World) : World :=
  match next_correlation_id w with Ok _ w' => w' | _ => w end.

Definition nth_correlation_id (k : N) (w : World) : option Z :=
  match next_correlation_id (N.iter k skip_correlation_id w) with
  | Ok id _ => Some id
  | _ => None
  end.

End Bridge.

(** A clock that advances by ten microseconds at each reading, and
    call-stack utilities over frames that are plain strings, for the
    examples. *)
Definition demo_clock (i : nat) : Z := 1000 + 10 * Z.of_nat i.

Definition demo_utils : CallstackUtils :=
  {| StackEntry := string;
     FileLineFunc := string;
     prepareCallstack := filter (λ s, s ≠ EmptyString);
     callstackStr := map (λ s, s +:+ "()") |}.

Definition kineto_cfg (shapes stack : bool) : ProfilerConfig :=
  mkProfilerConfig KINETO shapes stack.

Definition matmul : RecordFunction :=
  mkRecordFunction "matmul" 7 0 FUNCTION [[2; 3]; [3; 4]].

Definition add_backward : RecordFunction :=
  mkRecordFunction "AddBackward0" 8 1 BACKWARD_FUNCTION [].

(** * Notions for the properties *)

Section Notions.
Context `{CallstackUtils}.

(** The session object a successful [enableProfiler] leaves on top of the
    slot. *)
Definition enabled_state (config : ProfilerConfig)
    (activities : gset ActivityType) (w : World) : KinetoThreadLocalState :=
  mkKinetoThreadLocalState
    (mkProfilerThreadLocalState config
       (if bool_decide (CPU ∈ activities) then Some (next_handle w) else None)
       ["__start_profile"])
    []
    (Some (mkCpuTraceBuffer
             (mkTraceSpan (clock w (ticks w)) 0 "PyTorch Profiler") (-1) [])).

(** The CPU trace buffer as [disableProfiler] hands it to the backend: the
    end of the span is set. *)
Definition closed_buffer (buf : CpuTraceBuffer) (now : Z) : CpuTraceBuffer :=
  mkCpuTraceBuffer
    (mkTraceSpan (span_startTime (span buf)) now (span_name (span buf)))
    (gpuOpCount buf) (ops buf).

Definition monotonic (clk : nat → Z) : Prop :=
  ∀ i j : nat, (i ≤ j)%nat → clk i ≤ clk j.

(** [x] is not after any reading of the clock still to come. *)
Definition le_future (w : World) (x : Z) : Prop :=
  ∀ t : nat, (ticks w ≤ t)%nat → x ≤ clock w t.

Definition op_ok (op : ClientTraceActivity) : Prop :=
  startTime op ≤ endTime op.

Definition event_ok (ev : KinetoEvent) : Prop := 0 ≤ duration_us_ ev.

Definition span_ok (buf : CpuTraceBuffer) : Prop :=
  span_startTime (span buf) ≤ span_endTime (span buf).

Definition ctx_ok (w : World) (ctx : ObserverContext) : Prop :=
  match ctx with
  | KinetoCtx ctx => le_future w (startUs ctx)
  | ForeignCtx => True
  end.

(** The callbacks of the thread are those of the session. *)
Definition callbacks_match (w : World) (st : KinetoThreadLocalState) : Prop :=
  match handle_ (base st) with
  | Some h => ∃ cb, callbacks w = [cb] ∧ cb_handle cb = h
  | None => callbacks w = []
  end.

(** The slot is empty and no callback is registered, or it holds one
    session in the backend-tracing mode whose trace buffer is there and
    has as many ops as the session has events. *)
Definition Shape (w : World) : Prop :=
  (debug_info w = [] ∧ callbacks w = []) ∨
  (∃ st buf,
     debug_info w = [KinetoTLS st] ∧ state (config st) = KINETO ∧
     callbacks_match w st ∧ cpu_trace st = Some buf ∧
     length (kineto_events_ st) = length (ops buf)).

(** The times held anywhere are consistent with the clock. *)
Definition Timed (w : World) : Prop :=
  (∀ st buf,
     head (debug_info w) = Some (KinetoTLS st) → cpu_trace st = Some buf →
     le_future w (span_startTime (span buf)) ∧
     Forall op_ok (ops buf) ∧ Forall event_ok (kineto_events_ st)) ∧
  Forall (λ inv, Forall (ctx_ok w) inv.2) (in_flight w) ∧
  Forall (λ buf, span_ok buf ∧ Forall op_ok (ops buf))
    (transferred (kineto w)).

Definition Inv (w : World) : Prop :=
  Shape w ∧ (monotonic (clock w) → Timed w).

(** What a step leaves alone when it does not touch the session. *)
Definition frame (w w' : World) : Prop :=
  debug_info w' = debug_info w ∧ callbacks w' = callbacks w ∧
  in_flight w' = in_flight w ∧ clock w' = clock w ∧
  (ticks w ≤ ticks w')%nat ∧
  transferred (kineto w') = transferred (kineto w).

(** The session that is active in [w] is still active in [w'], and its
    two buffers have only grown. *)
Definition extends (w w' : World) : Prop :=
  ∀ st buf,
    active_state w = Some st → cpu_trace st = Some buf →
    ∃ st' buf',
      active_state w' = Some st' ∧ cpu_trace st' = Some buf' ∧
      kineto_events_ st `prefix_of` kineto_events_ st' ∧
      ops buf `prefix_of` ops buf'.

(** The result of a step that keeps the invariant. *)
Definition keeps_Inv {A} (w : World) (r : Result A) : Prop :=
  ∃ w', world_after r = Some w' ∧ Inv w' ∧
        clock w' = clock w ∧ (ticks w ≤ ticks w')%nat.

(** The result of a step that keeps the invariant and the session. *)
Definition keeps_session {A} (w : World) (r : Result A) : Prop :=
  ∃ w', world_after r = Some w' ∧ Inv w' ∧
        clock w' = clock w ∧ (ticks w ≤ ticks w')%nat ∧ extends w w'.

(** The actions of operations that run one after the other, each from
    its entry to its exit. *)
Definition complete_ops (fns : list RecordFunction) : list Action :=
  fns ≫= λ fn, [Enter fn; Exit].

(** Whether the entry callback, run in [w], observes a session in the
    backend-tracing mode. *)
Definition entry_observes (w : World) : bool :=
  match active_state w with
  | Some st => bool_decide (state (config st) = KINETO)
  | None => false
  end.

(** The number of operations of a run whose entry callback ran and
    observed a session in the backend-tracing mode. *)
Fixpoint observed_entries (actions : list Action)
    (w : World) : nat :=
  match actions with
  | [] => 0
  | a :: actions' =>
      (match a with
       | Enter _ =>
           if entry_observes w && bool_decide (callbacks w ≠ [])
           then 1 else 0
       | _ => 0
       end
       + match world_after (perform a w) with
         | Some w' => observed_entries actions' w'
         | None => 0
         end)%nat
  end.

End Notions.

Definition event_count (r : ProfilerResult) : nat :=
  length (concat (events_ r)).

(** What a call returns, when it returns. *)
Definition returned `{CallstackUtils} {A} (r : Result A) : option A :=
  match r with Ok a _ => Some a | _ => None end.

(** ** Concrete worlds and sessions, for the examples *)

Definition demo_world : @World demo_utils := initial_world demo_clock.

Definition one_op_session : list (@Action demo_utils) :=
  [Enable (kineto_cfg false false) {[CPU]}; Enter matmul; Exit].

Definition two_op_session : list (@Action demo_utils) :=
  [Enable (kineto_cfg true true) {[CPU]};
   @Interp demo_utils
     ([EmptyString] : list string) (["train.py"] : list string);
   Enter matmul; Enter add_backward; Exit; Exit].

Definition world_of (o : option (@World demo_utils)) : @World demo_utils :=
  default demo_world o.

(** The world a session reaches before it is disabled. *)
Definition one_op_world : @World demo_utils :=
  world_of (run one_op_session demo_world).

Definition two_op_world : @World demo_utils :=
  world_of (run two_op_session demo_world).

Definition after_disable (w : @World demo_utils) : @World demo_utils :=
  world_of (world_after (disableProfiler w)).

(** A thread on which the legacy profiler runs, in its CPU mode. *)
Definition legacy_world : @World demo_utils :=
  set_debug_info
    [LegacyTLS
       (mkProfilerThreadLocalState (mkProfilerConfig CPU_MODE false false)
          None [])]
    demo_world.

(** The world [enableProfiler] leaves on that thread. *)
Definition over_legacy_world : @World demo_utils :=
  world_of
    (world_after (enableProfiler (kineto_cfg false false) {[CPU]}
                    legacy_world)).

(** The world in which a session that captures call stacks is active and
    the primary extractor yields nothing. *)
Definition stack_world : @World demo_utils :=
  world_of
    (run [Enable (kineto_cfg false true) {[CPU]};
          @Interp demo_utils
            ([EmptyString] : list string) (["train.py"] : list string)]
       demo_world).

(** * Notions for the properties of operations and sessions *)

Section OperationNotions.
Context `{CallstackUtils}.

(** The call stack the entry callback formats in [w]: that of the primary
    extractor, or that of the alternate one when the primary yields no
    source location. *)
Definition formatted_stack (w : World) : list string :=
  callstackStr
    (let cs := prepareCallstack (currentCallstack w) in
     match cs with
     | [] => prepareCallstack (pythonCallstack w)
     | _ => cs
     end).

(** The optional field of an event: what the context holds, when it holds
    something that is not empty. *)
Definition kept {A} (o : option (list A)) : option (list A) :=
  if present_nonempty o then o else None.

(** The correlation ids of the contexts of the bridge in a list of
    contexts, of the invocations between entry and exit, and of the events
    of the session that is active. *)
Definition ctx_ids (ctxs : list ObserverContext) : list Z :=
  ctxs ≫= λ ctx,
    match ctx with
    | KinetoCtx ctx => [correlationId ctx]
    | ForeignCtx => []
    end.

Definition flight_ids (fl : list (RecordFunction * list ObserverContext))
  : list Z :=
  fl ≫= λ inv, ctx_ids inv.2.

Definition session_ids (w : World) : list Z :=
  match active_state w with
  | Some st => correlation_id_ <$> kineto_events_ st
  | None => []
  end.

(** An action of the engine or of the interpreter, not of the lifecycle
    controller. *)
Definition op_action (a : Action) : bool :=
  match a with
  | Enter _ | Exit | Interp _ _ => true
  | _ => false
  end.

(** Every registered callback has a handle below the one that is handed
    out next. *)
Definition handles_fresh (w : World) : Prop :=
  Forall (λ cb, (cb_handle cb < next_handle w)%N) (callbacks w).

(** The session [st], with the trace buffer [buf], after the exit of [fn]
    with the context [ctx] is recorded on the thread [tid] ([self] for
    the backend) at the time [now]. *)
Definition recorded_state (st : KinetoThreadLocalState) (buf : CpuTraceBuffer)
    (fn : RecordFunction) (ctx : KinetoObserverContext) (tid now self : Z)
  : KinetoThreadLocalState :=
  mkKinetoThreadLocalState (base st)
    (kineto_events_ st ++
       [mkKinetoEvent (name fn) 0 (startUs ctx) (now - startUs ctx)
          (correlationId ctx) (startThreadId ctx) tid (sequenceNr ctx)
          (fwdThreadId ctx) (recFunScope ctx) DeviceCPU
          (kept (shapes ctx)) (kept (stack ctx))])
    (Some (mkCpuTraceBuffer (span buf) (gpuOpCount buf)
             (ops buf ++
                [mkClientTraceActivity (startUs ctx) now (name fn) 0
                   (correlationId ctx)
                   (if present_nonempty (shapes ctx)
                    then shapesToStr (default [] (shapes ctx))
                    else EmptyString)
                   self]))).

(** An event whose fields hold what [KinetoEvent::activity] stores there
    from an activity: for the correlation id, the 64 bits of the field of
    the activity. *)
Definition copied (ev : KinetoEvent) (op : ClientTraceActivity) : Prop :=
  name_ ev = opType op ∧ device_index_ ev = device op ∧
  start_us_ ev = startTime op ∧
  duration_us_ ev = endTime op - startTime op ∧
  correlation_id_ ev = correlation op.

(** An event that says of an activity what [KinetoEvent::activity] reads
    from it: its name, device and start time, as duration the end time
    less the start time, and as correlation id the signed number of the
    activity, converted to [uint64_t]. *)
Definition mirrors (ev : KinetoEvent) (op : ClientTraceActivity) : Prop :=
  name_ ev = opType op ∧ device_index_ ev = device op ∧
  start_us_ ev = startTime op ∧
  duration_us_ ev = endTime op - startTime op ∧
  correlation_id_ ev = wrap_u64 (correlation_value op).

Definition live_ids (w : World) : list Z :=
  session_ids w ++ flight_ids (in_flight w).

(** The correlation ids in use are distinct and were all handed out
    already, the counter having been incremented at most [n] times. *)
Definition ids_unique (n : Z) (w : World) : Prop :=
  1 ≤ corr_id_ w ≤ 1 + n ∧
  NoDup (live_ids w) ∧
  Forall (λ id, 1 ≤ id < corr_id_ w) (live_ids w).

(** The counter and the correlation ids in use are values of a
    [uint64_t]. *)
Definition ids_ranged (w : World) : Prop :=
  0 ≤ corr_id_ w < UINT64_MOD ∧
  Forall (λ id, 0 ≤ id < UINT64_MOD) (live_ids w).

End OperationNotions.

(** The world in which a session that reports shapes and call stacks is
    active, with its state, its trace buffer and its callback. *)
Definition session_world : @World demo_utils :=
  world_of
    (run [Enable (kineto_cfg true true) {[CPU]};
          @Interp demo_utils
            ([EmptyString] : list string) (["train.py"] : list string)]
       demo_world).

Definition session_state : KinetoThreadLocalState :=
  default (new_KinetoThreadLocalState (kineto_cfg true true))
    (active_state session_world).

Definition session_buffer : CpuTraceBuffer :=
  default new_CpuTraceBuffer (cpu_trace session_state).

Definition session_callback : RegisteredCallback :=
  mkRegisteredCallback 1%N true true.

(** A world whose backend hands back no trace. *)
Definition broken_backend_world : @World demo_utils :=
  set_kineto (mkKinetoApi false None true [] [] false) session_world.

(** The world in which the state of the legacy profiler has been pushed
    on the slot over that session, whose callback is still registered. *)
Definition legacy_over_session_world : @World demo_utils :=
  set_debug_info
    (LegacyTLS
       (mkProfilerThreadLocalState (mkProfilerConfig CPU_MODE false false)
          None [])
       :: debug_info session_world)
    session_world.

(** That session when the correlation counter has reached the last value
    of a [uint64_t]. *)
Definition late_session_world : @World demo_utils :=
  set_corr_id_ (UINT64_MOD - 1) session_world.

(** The context the entry callback makes for a matrix product in that
    session, and the world it leaves. *)
Definition session_ctx : KinetoObserverContext :=
  match returned (entry_callback matmul session_world) with
  | Some (KinetoCtx ctx) => ctx
  | _ => new_KinetoObserverContext
  end.

Definition entered_world : @World demo_utils :=
  world_of (world_after (entry_callback matmul session_world)).

Definition entered_state : KinetoThreadLocalState :=
  default session_state (active_state entered_world).

Definition entered_buffer : CpuTraceBuffer :=
  default new_CpuTraceBuffer (cpu_trace entered_state).

(** ** The sequences of shapes the loops of [shapesToStr] can count *)

(** The counters of the two loops are [int]s: they count a list of at
    most [INT_MAX] entries without overflow. *)
Definition counters_fit (shapes : list (list Z)) : Prop :=
  Z.of_nat (length shapes) ≤ INT_MAX ∧
  Forall (λ t, Z.of_nat (length t) ≤ INT_MAX) shapes.

(** A session that is enabled for CUDA activity alone: it is on the slot,
    and no callback is registered. *)
Definition cuda_session_world : @World demo_utils :=
  world_of (run [Enable (kineto_cfg true false) {[CUDA]}] demo_world).

Definition cuda_session_state : KinetoThreadLocalState :=
  default (new_KinetoThreadLocalState (kineto_cfg true false))
    (active_state cuda_session_world).

(** ** The characters of a rendering *)

(** The characters [show_int64] writes, the digits and the sign, and the
    strings made of them; a string that starts with another character
    ends a number. *)
Definition num_char (c : ascii) : bool :=
  match c with
  | "0" | "1" | "2" | "3" | "4" | "5" | "6" | "7" | "8" | "9" | "-" => true
  | _ => false
  end%char.

Fixpoint all_num (s : string) : bool :=
  match s with
  | EmptyString => true
  | String c s' => num_char c && all_num s'
  end.

Definition starts_special (s : string) : Prop :=
  match s with
  | String c _ => num_char c = false
  | EmptyString => False
  end.

(** * Properties *)

(** ** Rendering of shapes *)

Example shapesToStr_empty : shapesToStr [] = "[]".
Proof. reflexivity. Qed.

Example shapesToStr_neg : shapesToStr [[-1; 0]; []] = "[[-1, 0], []]".
Proof. reflexivity. Qed.

Lemma string_app_assoc (a b c : string) : (a +:+ b) +:+ c = a +:+ (b +:+ c).
Proof.
  induction a as [|ch a IH]; [reflexivity|].
  change (String ch ((a +:+ b) +:+ c) = String ch (a +:+ b +:+ c)).
  by rewrite IH.
Qed.

Lemma string_app_nil_r (a : string) : a +:+ EmptyString = a.
Proof.
  induction a as [|ch a IH]; [reflexivity|].
  change (String ch (a +:+ EmptyString) = String ch a). by rewrite IH.
Qed.

Lemma join_comma_cons (x : string) (rest : list string) :
  join_comma (x :: rest) = x +:+ join_rest rest.
Proof.
  revert x. induction rest as [|y rest IH]; intros x.
  - simpl. by rewrite string_app_nil_r.
  - change (join_comma (x :: y :: rest))
      with (x +:+ ", " +:+ join_comma (y :: rest)).
    rewrite IH. reflexivity.
Qed.

Lemma shape_loop_rest (dims : list Z) (i : nat) (oss : string) :
  shape_loop dims (S i) oss = oss +:+ join_rest (map show_int64 dims).
Proof.
  revert i oss. induction dims as [|d dims IH]; intros i oss.
  - simpl. by rewrite string_app_nil_r.
  - simpl shape_loop. rewrite IH. simpl map. simpl join_rest.
    by rewrite !string_app_assoc.
Qed.

Lemma shape_loop_first (dims : list Z) (oss : string) :
  shape_loop dims 0 oss = oss +:+ join_comma (map show_int64 dims).
Proof.
  destruct dims as [|d dims].
  - simpl. by rewrite string_app_nil_r.
  - simpl shape_loop. rewrite shape_loop_rest. simpl map.
    rewrite join_comma_cons. by rewrite string_app_assoc.
Qed.

Lemma shapes_loop_rest (shapes : list (list Z)) (i : nat) (oss : string) :
  shapes_loop shapes (S i) oss
  = oss +:+ join_rest (map (λ t, bracketed (map show_int64 t)) shapes).
Proof.
  revert i oss. induction shapes as [|t shapes IH]; intros i oss.
  - simpl. by rewrite string_app_nil_r.
  - simpl shapes_loop. rewrite IH, shape_loop_first. simpl map.
    simpl join_rest. unfold bracketed. by rewrite !string_app_assoc.
Qed.

Lemma shapes_loop_first (shapes : list (list Z)) (oss : string) :
  shapes_loop shapes 0 oss
  = oss +:+ join_comma (map (λ t, bracketed (map show_int64 t)) shapes).
Proof.
  destruct shapes as [|t shapes].
  - simpl. by rewrite string_app_nil_r.
  - simpl shapes_loop. rewrite shapes_loop_rest, shape_loop_first. simpl map.
    rewrite join_comma_cons. unfold bracketed. by rewrite !string_app_assoc.
Qed.

(** C6: [shapesToStr] renders every sequence of shapes as a bracketed list
    of bracketed lists, the items separated by a comma and a space, and it
    renders [[2,3],[3,4]] as the string "[[2, 3], [3, 4]]". *)
Theorem shapesToStr_renders :
  (∀ shapes : list (list Z), shapesToStr shapes = render_shapes shapes) ∧
  shapesToStr [[2; 3]; [3; 4]] = "[[2, 3], [3, 4]]".
Proof.
  split; [|reflexivity].
  intros shapes. unfold shapesToStr, render_shapes, bracketed.
  rewrite shapes_loop_first. simpl. by rewrite string_app_assoc.
Qed.

(** ** The backend activity set *)

Lemma k_activities_of_spec (activities : gset ActivityType) (k : KActivityType) :
  k ∈ k_activities_of activities ↔
    (CPU ∈ activities ∧ (k = EXTERNAL_CORRELATION ∨ k = CUDA_RUNTIME)) ∨
    (CUDA ∈ activities ∧
       (k = GPU_MEMCPY ∨ k = GPU_MEMSET ∨ k = CONCURRENT_KERNEL
        ∨ k = CUDA_RUNTIME)).
Proof.
  unfold k_activities_of.
  destruct (decide (CPU ∈ activities)) as [Hcpu|Hcpu],
           (decide (CUDA ∈ activities)) as [Hcuda|Hcuda];
    rewrite ?(bool_decide_eq_true_2 _ Hcpu), ?(bool_decide_eq_false_2 _ Hcpu),
      ?(bool_decide_eq_true_2 _ Hcuda), ?(bool_decide_eq_false_2 _ Hcuda);
    rewrite ?elem_of_union, ?elem_of_singleton, ?elem_of_empty;
    destruct k; naive_solver.
Qed.

(** Unfolding of the monad's operations in a goal. *)
(** ** Signed and unsigned 64-bit numbers *)

Lemma wrap_u64_small (b : Z) : 0 ≤ b < UINT64_MOD → wrap_u64 b = b.
Proof. intros Hb. unfold wrap_u64. by apply Z.mod_small. Qed.

Lemma wrap_u64_to_int64 (b : Z) : wrap_u64 (to_int64 b) = wrap_u64 b.
Proof.
  unfold wrap_u64, to_int64.
  rewrite Zminus_mod_idemp_l. f_equal. lia.
Qed.

Lemma to_int64_low (b : Z) : 0 ≤ b < INT64_HALF → to_int64 b = b.
Proof.
  intros Hb. unfold to_int64, INT64_HALF, UINT64_MOD in *.
  rewrite Z.mod_small; lia.
Qed.

Lemma to_int64_high (b : Z) :
  INT64_HALF ≤ b < UINT64_MOD → to_int64 b = b - UINT64_MOD.
Proof.
  intros Hb. unfold to_int64, INT64_HALF, UINT64_MOD in *.
  replace (b + 2 ^ 63) with (b - 2 ^ 63 + 1 * 2 ^ 64) by lia.
  rewrite Z.mod_add by lia. rewrite Z.mod_small; lia.
Qed.

Lemma copied_mirrors (ev : KinetoEvent) (op : ClientTraceActivity) :
  copied ev op → 0 ≤ correlation_id_ ev < UINT64_MOD → mirrors ev op.
Proof.
  intros (Hname & Hdev & Hstart & Hdur & Hid) Hrange.
  repeat split; try done.
  unfold correlation_value. rewrite wrap_u64_to_int64, <- Hid.
  by rewrite wrap_u64_small.
Qed.

Ltac unfold_m :=
  unfold mbind, M_bind, mret, M_ret, gets, modify, throw, undefined,
    TORCH_CHECK, TORCH_INTERNAL_ASSERT in *.

Section Properties.
Context `{CallstackUtils}.

(** ** Reasoning about calls *)

Lemma bind_Ok {A B} (m : M A) (f : A → M B) (w w' : World) (a : A) :
  m w = Ok a w' → (m ≫= f) w = f a w'.
Proof. intros Hm. unfold mbind, M_bind. by rewrite Hm. Qed.

Lemma bind_Fatal {A B} (m : M A) (f : A → M B) (w w' : World) (msg : string) :
  m w = Fatal msg w' → (m ≫= f) w = Fatal msg w'.
Proof. intros Hm. unfold mbind, M_bind. by rewrite Hm. Qed.

Lemma getProfilerTLSState_eq (w : World) :
  getProfilerTLSState w = Ok (active_state w) w.
Proof. reflexivity. Qed.

(** ** The correlation allocator *)

Lemma skip_correlation_id_corr (w : World) :
  corr_id_ (skip_correlation_id w) = wrap_u64 (corr_id_ w + 1).
Proof. reflexivity. Qed.

Lemma iter_skip_correlation_id (k : N) (w : World) :
  wrap_u64 (corr_id_ (N.iter k skip_correlation_id w))
  = wrap_u64 (corr_id_ w + Z.of_N k).
Proof.
  induction k as [|k IH] using N.peano_ind.
  - simpl. by rewrite Z.add_0_r.
  - rewrite N.iter_succ, skip_correlation_id_corr, N2Z.inj_succ.
    unfold wrap_u64 in *.
    rewrite Zmod_mod, <- Zplus_mod_idemp_l, IH, Zplus_mod_idemp_l.
    f_equal. lia.
Qed.

Lemma iter_skip_correlation_id_range (k : N) (w : World) :
  0 ≤ corr_id_ w < UINT64_MOD →
  0 ≤ corr_id_ (N.iter k skip_correlation_id w) < UINT64_MOD.
Proof.
  intros Hrange. induction k as [|k IH] using N.peano_ind; [done|].
  rewrite N.iter_succ, skip_correlation_id_corr.
  apply Z.mod_pos_bound. by unfold UINT64_MOD.
Qed.

Lemma nth_correlation_id_eq (k : N) (w : World) :
  0 ≤ corr_id_ w < UINT64_MOD →
  nth_correlation_id k w = Some (wrap_u64 (corr_id_ w + Z.of_N k)).
Proof.
  intros Hrange. unfold nth_correlation_id, next_correlation_id. f_equal.
  rewrite <- iter_skip_correlation_id. unfold wrap_u64.
  symmetry. apply Z.mod_small. by apply iter_skip_correlation_id_range.
Qed.

Lemma nth_correlation_id_small (k : N) (w : World) :
  corr_id_ w = corr_id_init →
  Z.of_N k < UINT64_MOD - 1 →
  nth_correlation_id k w = Some (1 + Z.of_N k).
Proof.
  intros Hinit Hk. rewrite nth_correlation_id_eq, Hinit.
  - unfold wrap_u64, corr_id_init. rewrite Z.mod_small; [done|lia].
  - rewrite Hinit. unfold corr_id_init, UINT64_MOD. lia.
Qed.

(** C2, as the code has it: in a run of fewer than [2^64] calls of the
    allocator from a world in which the counter has its initial value, the
    first id returned is 1 and every id is greater than every id returned
    before it. *)
Theorem correlation_ids_increase_until_wrap (w : World) (i j : N) :
  corr_id_ w = corr_id_init →
  (i < j)%N → Z.of_N j < UINT64_MOD - 1 →
  nth_correlation_id 0 w = Some 1 ∧
  ∃ a b, nth_correlation_id i w = Some a ∧
         nth_correlation_id j w = Some b ∧ a < b.
Proof.
  intros Hinit Hij Hj. split.
  - by rewrite (nth_correlation_id_small 0 w Hinit).
  - exists (1 + Z.of_N i), (1 + Z.of_N j).
    rewrite !nth_correlation_id_small by (done || lia). repeat split. lia.
Qed.

End Properties.

(** C2 fails for a run of [2^64] calls: the counter is a 64-bit unsigned
    integer, so the call number [2^64 - 1] (from 0) returns 0, which is not
    greater than the 1 the first call returned. *)
Lemma correlation_id_wraps :
  ¬ (∀ (i j : N) (a b : Z),
       (i < j)%N →
       nth_correlation_id (H:=demo_utils) i (initial_world demo_clock) = Some a →
       nth_correlation_id (H:=demo_utils) j (initial_world demo_clock) = Some b →
       a < b).
Proof.
  intros Hinc.
  specialize (Hinc 0%N (2 ^ 64 - 1)%N 1 0).
  assert (1 < 0); [|lia].
  apply Hinc.
  - reflexivity.
  - reflexivity.
  - rewrite nth_correlation_id_eq; [reflexivity|].
    change (0 ≤ 1 < 2 ^ 64). lia.
Qed.

Lemma correlation_ids_increase_until_wrap_witness :
  nth_correlation_id (H:=demo_utils) 0 (initial_world demo_clock) = Some 1 ∧
  ∃ a b,
    nth_correlation_id (H:=demo_utils) 3 (initial_world demo_clock) = Some a ∧
    nth_correlation_id (H:=demo_utils) 5 (initial_world demo_clock) = Some b ∧
    a < b.
Proof.
  apply (correlation_ids_increase_until_wrap
           (H:=demo_utils) (initial_world demo_clock) 3 5).
  - reflexivity.
  - reflexivity.
  - reflexivity.
Defined.

Section Lifecycle.
Context `{CallstackUtils}.

(** ** [prepareProfiler] *)

(** C5: in the backend-tracing mode [prepareProfiler] asks the backend to
    prepare a set of categories that holds external correlation and CUDA
    runtime when CPU activity is requested, memory copy, memory set,
    concurrent kernel and CUDA runtime when CUDA activity is requested,
    and nothing else. *)
Theorem prepareProfiler_activities
    (config : ProfilerConfig) (activities : gset ActivityType) (w : World) :
  state config = KINETO →
  ∃ w' k_activities,
    prepareProfiler config activities w = Ok tt w' ∧
    prepared (kineto w') = Some k_activities ∧
    ∀ k, k ∈ k_activities ↔
      (CPU ∈ activities ∧ (k = EXTERNAL_CORRELATION ∨ k = CUDA_RUNTIME)) ∨
      (CUDA ∈ activities ∧
         (k = GPU_MEMCPY ∨ k = GPU_MEMSET ∨ k = CONCURRENT_KERNEL
          ∨ k = CUDA_RUNTIME)).
Proof.
  intros Hmode. unfold prepareProfiler.
  rewrite (bool_decide_eq_true_2 _ Hmode).
  eexists _, (k_activities_of activities). split; [reflexivity|].
  split; [reflexivity|]. apply k_activities_of_spec.
Qed.

(** ** The entry callback *)

Lemma entry_callback_active (fn : RecordFunction) (w : World)
    (st : KinetoThreadLocalState) :
  active_state w = Some st →
  state (config st) = KINETO →
  ∃ w',
    entry_callback fn w =
      Ok (KinetoCtx
            (mkKinetoObserverContext
               (clock w (ticks w)) (corr_id_ w) (currentThreadId w) 0
               (if report_input_shapes (config st)
                then Some (inputSizes fn) else None)
               (seqNr fn) (forwardThreadId fn) (RecordScope_to_Z (scope fn))
               (if with_stack (config st)
                   && bool_decide (scope fn ≠ BACKWARD_FUNCTION)
                then Some (callstackStr
                             (let cs := prepareCallstack (currentCallstack w) in
                              match cs with
                              | [] => prepareCallstack (pythonCallstack w)
                              | _ => cs
                              end))
                else None)))
         w' ∧
    debug_info w' = debug_info w ∧ callbacks w' = callbacks w ∧
    in_flight w' = in_flight w ∧ clock w' = clock w ∧
    ticks w' = S (ticks w) ∧
    transferred (kineto w') = transferred (kineto w).
Proof.
  intros Hact Hmode. unfold entry_callback.
  rewrite (bind_Ok _ _ _ _ _ (getProfilerTLSState_eq w)), Hact.
  rewrite bool_decide_eq_false_2 by (by intros ?).
  eexists. split; [reflexivity|]. done.
Qed.

Lemma entry_callback_inactive (fn : RecordFunction) (w : World) :
  match active_state w with
  | Some st => state (config st) ≠ KINETO
  | None => True
  end →
  entry_callback fn w = Ok (KinetoCtx new_KinetoObserverContext) w.
Proof.
  intros Hact. unfold entry_callback.
  rewrite (bind_Ok _ _ _ _ _ (getProfilerTLSState_eq w)).
  destruct (active_state w) as [st|]; [|done].
  by rewrite bool_decide_eq_true_2.
Qed.

(** C7: when the entry callback observes a session in the backend-tracing
    mode that is configured to capture call stacks, the context it returns
    carries, for an operation whose scope is not the backward-function
    scope, the formatted call stack of the primary extractor, or that of
    the alternate extractor when the primary one yields nothing; for an
    operation in the backward-function scope it carries no call stack. *)
Theorem entry_callback_stack (fn : RecordFunction) (w : World)
    (st : KinetoThreadLocalState) :
  active_state w = Some st →
  state (config st) = KINETO →
  with_stack (config st) = true →
  ∃ ctx w',
    entry_callback fn w = Ok (KinetoCtx ctx) w' ∧
    (scope fn ≠ BACKWARD_FUNCTION →
       (prepareCallstack (currentCallstack w) ≠ [] →
          stack ctx
          = Some (callstackStr (prepareCallstack (currentCallstack w)))) ∧
       (prepareCallstack (currentCallstack w) = [] →
          stack ctx
          = Some (callstackStr (prepareCallstack (pythonCallstack w))))) ∧
    (scope fn = BACKWARD_FUNCTION → stack ctx = None).
Proof.
  intros Hact Hmode Hstack.
  destruct (entry_callback_active fn w st Hact Hmode) as (w' & Hentry & _).
  eexists _, w'. split; [exact Hentry|]. simpl. rewrite Hstack. simpl.
  split.
  - intros Hscope. rewrite bool_decide_eq_true_2 by done.
    split; intros Hcs.
    + by destruct (prepareCallstack (currentCallstack w)).
    + by rewrite Hcs.
  - intros Hscope. by rewrite bool_decide_eq_false_2 by (by intros ?).
Qed.

(** ** [enableProfiler] *)

Lemma enableProfiler_Ok (config : ProfilerConfig)
    (activities : gset ActivityType) (w : World) :
  state config = KINETO → activities ≠ ∅ → active_state w = None →
  ∃ w',
    enableProfiler config activities w = Ok tt w' ∧
    debug_info w'
    = KinetoTLS (enabled_state config activities w) :: debug_info w ∧
    callbacks w'
    = (if bool_decide (CPU ∈ activities)
       then callbacks w
              ++ [mkRegisteredCallback (next_handle w)
                    (report_input_shapes config) true]
       else callbacks w) ∧
    in_flight w' = in_flight w ∧ clock w' = clock w ∧
    ticks w' = S (ticks w) ∧ corr_id_ w' = corr_id_ w ∧
    transferred (kineto w') = transferred (kineto w).
Proof.
  intros Hmode Hacts Hact. unfold enableProfiler.
  rewrite (bool_decide_eq_true_2 _ Hmode), (bool_decide_eq_false_2 _ Hacts).
  unfold_m. simpl. unfold active_state in Hact. rewrite Hact. simpl.
  unfold enabled_state, pushProfilingCallbacks, api_traceActive,
    api_startTrace, modify_cpu_trace.
  unfold_m. simpl.
  destruct (bool_decide (CPU ∈ activities)),
           (trace_active (kineto w)) eqn:Hactive;
    simpl; rewrite ?Hactive; simpl;
    eexists; (split; [reflexivity|]); simpl; done.
Qed.

Lemma enableProfiler_Fatal (config : ProfilerConfig)
    (activities : gset ActivityType) (w : World) :
  state config ≠ KINETO ∨ activities = ∅ ∨ is_Some (active_state w) →
  ∃ msg, enableProfiler config activities w = Fatal msg w.
Proof.
  intros Hbad. unfold enableProfiler.
  destruct (decide (state config = KINETO)) as [Hmode|Hmode].
  2: { rewrite (bool_decide_eq_false_2 _ Hmode). by eexists. }
  rewrite (bool_decide_eq_true_2 _ Hmode).
  destruct (decide (activities = ∅)) as [Hacts|Hacts].
  { rewrite (bool_decide_eq_true_2 _ Hacts). by eexists. }
  rewrite (bool_decide_eq_false_2 _ Hacts).
  destruct Hbad as [?|[?|[st Hact]]]; [done..|].
  unfold_m. simpl. unfold active_state in Hact. rewrite Hact. simpl.
  by eexists.
Qed.

(** C3, as amended: [enableProfiler] fails, leaving the world as it was,
    exactly when the config is not in the backend-tracing mode, or no
    activity type is requested, or the state on top of the slot of the
    thread is a session of the bridge, which is what
    [getProfilerTLSState] finds; in every other case, also when the slot
    holds a state that is not of the bridge, it returns and the new
    session is on top of the slot. *)
Theorem enableProfiler_checks (config : ProfilerConfig)
    (activities : gset ActivityType) (w : World) :
  (state config ≠ KINETO ∨ activities = ∅ ∨ is_Some (active_state w) →
   ∃ msg, enableProfiler config activities w = Fatal msg w) ∧
  (¬ (state config ≠ KINETO ∨ activities = ∅ ∨ is_Some (active_state w)) →
   ∃ w' st,
     enableProfiler config activities w = Ok tt w' ∧
     debug_info w' = KinetoTLS st :: debug_info w ∧
     config_ (base st) = config).
Proof.
  split; [apply enableProfiler_Fatal|].
  intros Hgood.
  destruct (enableProfiler_Ok config activities w) as (w' & Hen & Hslot & _).
  - destruct (decide (state config = KINETO)); [done|]. destruct Hgood; auto.
  - intros ->. destruct Hgood; auto.
  - destruct (active_state w) eqn:Hact; [|done].
    destruct Hgood. right; right. by eexists.
  - by exists w', (enabled_state config activities w).
Qed.

(** ** [disableProfiler] *)

Lemma disableProfiler_Fatal (w : World) :
  match head (debug_info w) with
  | None => True
  | Some p => state (config_ (base_of p)) ≠ KINETO
  end →
  ∃ msg,
    disableProfiler w
    = Fatal msg (set_debug_info (tail (debug_info w)) w).
Proof.
  intros Hbad. unfold disableProfiler, ThreadLocalDebugInfo_pop.
  unfold_m. destruct w as [c di cbs nh fl k clk t tid self cs py mtx].
  destruct di as [|p parent]; simpl in *; [by eexists|].
  rewrite (bool_decide_eq_false_2 _ Hbad). by eexists.
Qed.

Lemma disableProfiler_session (w : World) (st : KinetoThreadLocalState)
    (parent : list DebugInfoBase) (buf : CpuTraceBuffer) :
  debug_info w = KinetoTLS st :: parent →
  state (config st) = KINETO →
  cpu_trace st = Some buf →
  ∃ w',
    (if hands_back_trace (kineto w)
     then ∃ trace,
       disableProfiler w
       = Ok (mkProfilerResultWrapper
               (mkProfilerResult []
                  [event_list_ (base st) ++ ["__stop_profile"]] trace)) w' ∧
       trace_cpu trace = transferred (kineto w')
     else ∃ msg, disableProfiler w = Fatal msg w') ∧
    debug_info w' = parent ∧
    callbacks w'
    = match handle_ (base st) with
      | Some h => filter (λ cb, cb_handle cb ≠ h) (callbacks w)
      | None => callbacks w
      end ∧
    in_flight w' = in_flight w ∧ clock w' = clock w ∧
    ticks w' = S (ticks w) ∧ corr_id_ w' = corr_id_ w ∧
    transferred (kineto w')
    = transferred (kineto w) ++ [closed_buffer buf (clock w (ticks w))].
Proof.
  intros Hslot Hmode Hbuf. unfold disableProfiler, ThreadLocalDebugInfo_pop.
  unfold_m. rewrite Hslot. unfold config in Hmode. simpl.
  rewrite (bool_decide_eq_true_2 _ Hmode). unfold hasCallbackHandle.
  destruct (handle_ (base st)) as [h|] eqn:Hh; simpl; rewrite Hbuf; simpl;
    destruct (hands_back_trace (kineto w)) eqn:Hback; simpl;
    eexists; (split; [eexists; first
      [ split; [reflexivity|]; reflexivity | reflexivity ] |]);
    simpl; done.
Qed.

(** ** The exit callback *)

Lemma exit_callback_inactive (fn : RecordFunction) (ctx : ObserverContext)
    (w : World) :
  match active_state w with
  | Some st => state (config st) ≠ KINETO
  | None => True
  end →
  exit_callback fn ctx w = Ok tt w.
Proof.
  intros Hact. unfold exit_callback.
  rewrite (bind_Ok _ _ _ _ _ (getProfilerTLSState_eq w)).
  destruct (active_state w) as [st|]; [|done].
  by rewrite bool_decide_eq_true_2.
Qed.

Lemma exit_callback_foreign (fn : RecordFunction) (w : World)
    (st : KinetoThreadLocalState) :
  active_state w = Some st → state (config st) = KINETO →
  ∃ msg, exit_callback fn ForeignCtx w = Fatal msg w.
Proof.
  intros Hact Hmode. unfold exit_callback.
  rewrite (bind_Ok _ _ _ _ _ (getProfilerTLSState_eq w)), Hact.
  rewrite bool_decide_eq_false_2 by (by intros ?). by eexists.
Qed.

(** What a recording exit does: one event and one trace op are appended
    to the buffers of the session on top of the slot, the op from the
    start time of the context to the reading of the clock. *)
Lemma exit_callback_records (fn : RecordFunction) (ctx : KinetoObserverContext)
    (w : World) (st : KinetoThreadLocalState) (parent : list DebugInfoBase)
    (buf : CpuTraceBuffer) :
  debug_info w = KinetoTLS st :: parent →
  state (config st) = KINETO →
  cpu_trace st = Some buf →
  ∃ w' ev op,
    exit_callback fn (KinetoCtx ctx) w = Ok tt w' ∧
    debug_info w'
    = KinetoTLS
        (mkKinetoThreadLocalState (base st) (kineto_events_ st ++ [ev])
           (Some (mkCpuTraceBuffer (span buf) (gpuOpCount buf)
                    (ops buf ++ [op]))))
        :: parent ∧
    startTime op = startUs ctx ∧ endTime op = clock w (ticks w) ∧
    opType op = name fn ∧ correlation op = correlationId ctx ∧
    name_ ev = name fn ∧ start_us_ ev = startUs ctx ∧
    duration_us_ ev = clock w (ticks w) - startUs ctx ∧
    correlation_id_ ev = correlationId ctx ∧
    callbacks w' = callbacks w ∧ in_flight w' = in_flight w ∧
    clock w' = clock w ∧ ticks w' = S (ticks w) ∧
    corr_id_ w' = corr_id_ w ∧
    transferred (kineto w') = transferred (kineto w).
Proof.
  intros Hslot Hmode Hbuf. unfold exit_callback.
  rewrite (bind_Ok _ _ _ _ _ (getProfilerTLSState_eq w)).
  unfold active_state. rewrite Hslot. simpl.
  rewrite bool_decide_eq_false_2 by (by intros ?).
  unfold reportClientActivity, store_top, modify_top, getTimeUs,
    api_popCorrelationId.
  unfold_m. simpl. rewrite Hbuf. simpl. rewrite Hslot.
  eexists _, _, _. split; [reflexivity|]. simpl.
  split; [reflexivity|].
  destruct (present_nonempty (shapes ctx)), (present_nonempty (stack ctx));
    done.
Qed.

End Lifecycle.

(** ** Invariants of the runs of the bridge *)

Section Invariants.
Context `{CallstackUtils}.

Lemma le_future_later (w w' : World) (x : Z) :
  clock w' = clock w → (ticks w ≤ ticks w')%nat →
  le_future w x → le_future w' x.
Proof.
  intros Hclk Hticks Hx t Ht. rewrite Hclk. apply Hx. lia.
Qed.

Lemma ctx_ok_later (w w' : World) (ctx : ObserverContext) :
  clock w' = clock w → (ticks w ≤ ticks w')%nat →
  ctx_ok w ctx → ctx_ok w' ctx.
Proof. destruct ctx; [apply le_future_later | done]. Qed.

Lemma in_flight_ok_later (w w' : World)
    (fl : list (RecordFunction * list ObserverContext)) :
  clock w' = clock w → (ticks w ≤ ticks w')%nat →
  Forall (λ inv, Forall (ctx_ok w) inv.2) fl →
  Forall (λ inv, Forall (ctx_ok w') inv.2) fl.
Proof.
  intros Hclk Hticks Hfl. eapply Forall_impl; [exact Hfl|].
  intros inv Hinv. eapply Forall_impl; [exact Hinv|].
  intros ctx. by apply ctx_ok_later.
Qed.

Lemma Inv_frame (w w' : World) : frame w w' → Inv w → Inv w'.
Proof.
  intros (Hdi & Hcb & Hfl & Hclk & Hticks & Htr) [Hshape Htimed]. split.
  - unfold Shape, callbacks_match in *. by rewrite Hdi, Hcb.
  - rewrite Hclk. intros Hmono.
    destruct (Htimed Hmono) as (Hslot & Hflight & Htrans).
    unfold Timed. rewrite Hdi, Hfl, Htr. split; [|split; [|done]].
    + intros st buf Hst Hbuf.
      destruct (Hslot st buf Hst Hbuf) as (Hspan & Hops & Hevs).
      eauto using le_future_later.
    + by apply (in_flight_ok_later w).
Qed.

Lemma frame_refl (w : World) : frame w w.
Proof. by unfold frame. Qed.

Lemma fresh_Inv (w : World) : fresh w → Inv w.
Proof.
  intros (_ & Hdi & Hcb & Hfl & Htr). split; [by left|].
  intros _. unfold Timed. rewrite Hdi, Hfl, Htr.
  split; [done|]. split; constructor.
Qed.

Lemma extends_same_slot (w w' : World) :
  debug_info w' = debug_info w → extends w w'.
Proof.
  intros Hdi st buf Hst Hbuf. exists st, buf.
  unfold active_state in *. by rewrite Hdi.
Qed.

Lemma extends_trans (w1 w2 w3 : World) :
  extends w1 w2 → extends w2 w3 → extends w1 w3.
Proof.
  intros H12 H23 st buf Hst Hbuf.
  destruct (H12 st buf Hst Hbuf) as (st2 & buf2 & Hst2 & Hbuf2 & Hev2 & Hop2).
  destruct (H23 st2 buf2 Hst2 Hbuf2) as (st3 & buf3 & Hst3 & Hbuf3 & Hev3 & Hop3).
  exists st3, buf3. repeat split; try done; by etrans.
Qed.

Lemma keeps_session_Inv {A} (w : World) (r : Result A) :
  keeps_session w r → keeps_Inv w r.
Proof. intros (w' & ? & ? & ? & ? & _). by exists w'. Qed.

Lemma keeps_session_frame {A} (w w' : World) (r : Result A) :
  Inv w → world_after r = Some w' → frame w w' → keeps_session w r.
Proof.
  intros Hinv Hr Hframe. exists w'. split; [done|].
  split; [by apply (Inv_frame w)|].
  destruct Hframe as (Hdi & _ & _ & ? & ? & _).
  repeat split; try done. by apply extends_same_slot.
Qed.

Lemma Shape_inactive (w : World) :
  Shape w → active_state w = None → debug_info w = [] ∧ callbacks w = [].
Proof.
  intros [Hempty|(st & buf & Hdi & _)] Hact; [done|].
  unfold active_state in Hact. by rewrite Hdi in Hact.
Qed.

Lemma prepareProfiler_Inv (config : ProfilerConfig)
    (activities : gset ActivityType) (w : World) :
  Inv w → keeps_session w (prepareProfiler config activities w).
Proof.
  intros Hinv. unfold prepareProfiler. unfold_m.
  destruct (bool_decide (state config = KINETO));
    eapply keeps_session_frame; try done; by unfold frame.
Qed.

Lemma enableProfiler_Inv (config : ProfilerConfig)
    (activities : gset ActivityType) (w : World) :
  Inv w → keeps_session w (enableProfiler config activities w).
Proof.
  intros Hinv.
  destruct (decide (state config = KINETO)) as [Hmode|Hmode];
    [destruct (decide (activities = ∅)) as [Hacts|Hacts];
     [|destruct (active_state w) as [st|] eqn:Hact]|].
  4: { destruct (enableProfiler_Fatal config activities w) as [msg Hf]; [auto|].
       rewrite Hf. eapply keeps_session_frame; eauto using frame_refl. }
  1: { destruct (enableProfiler_Fatal config activities w) as [msg Hf]; [auto|].
       rewrite Hf. eapply keeps_session_frame; eauto using frame_refl. }
  1: { destruct (enableProfiler_Fatal config activities w) as [msg Hf].
       { right; right. by eexists. }
       rewrite Hf. eapply keeps_session_frame; eauto using frame_refl. }
  destruct (enableProfiler_Ok config activities w Hmode Hacts Hact)
    as (w' & Hen & Hdi & Hcb & Hfl & Hclk & Hticks & _ & Htr).
  destruct Hinv as [Hshape Htimed].
  destruct (Shape_inactive w Hshape Hact) as [Hdi0 Hcb0].
  rewrite Hen. exists w'. split; [done|].
  rewrite Hdi0 in Hdi. rewrite Hcb0 in Hcb.
  split; [split|split; [done|split; [lia|]]].
  - right. eexists _, _. split; [exact Hdi|]. split; [exact Hmode|].
    split; [|by split].
    unfold callbacks_match, enabled_state. simpl. rewrite Hcb.
    destruct (bool_decide (CPU ∈ activities)); [|done]. by eexists.
  - rewrite Hclk. intros Hmono.
    destruct (Htimed Hmono) as (_ & Hflight & Htrans).
    unfold Timed. rewrite Hdi, Hfl, Htr. split; [|split; [|done]].
    + intros st buf [= <-] [= <-]. simpl.
      split; [|split; constructor].
      intros t Ht. rewrite Hclk. apply Hmono. lia.
    + apply (in_flight_ok_later w); [done|lia|done].
  - intros st buf Hst. by rewrite Hact in Hst.
Qed.

Lemma callbacks_match_removed (w : World) (st : KinetoThreadLocalState) :
  callbacks_match w st →
  match handle_ (base st) with
  | Some h => filter (λ cb, cb_handle cb ≠ h) (callbacks w)
  | None => callbacks w
  end = [].
Proof.
  unfold callbacks_match. destruct (handle_ (base st)) as [h|]; [|done].
  intros (cb & -> & <-). rewrite filter_cons_False; [done|]. by intros ?.
Qed.

Lemma disableProfiler_Inv (w : World) :
  Inv w →
  ∃ w', world_after (disableProfiler w) = Some w' ∧ Inv w' ∧
        clock w' = clock w ∧ (ticks w ≤ ticks w')%nat ∧
        debug_info w' = [].
Proof.
  intros [Hshape Htimed].
  destruct Hshape as [[Hdi Hcb]|(st & buf & Hdi & Hmode & Hcbs & Hbuf & Hlen)].
  - destruct (disableProfiler_Fatal w) as [msg Hf]; [by rewrite Hdi|].
    rewrite Hf. eexists. split; [done|]. simpl. rewrite Hdi.
    split; [|done]. apply (Inv_frame w).
    + unfold frame. simpl. by rewrite Hdi.
    + split; [by left|done].
  - destruct (disableProfiler_session w st [] buf Hdi Hmode Hbuf)
      as (w' & Hres & Hdi' & Hcb' & Hfl & Hclk & Hticks & _ & Htr).
    rewrite (callbacks_match_removed w st Hcbs) in Hcb'.
    exists w'. split; [|split; [split|split; [done|split; [lia|done]]]].
    + destruct (hands_back_trace (kineto w)).
      * destruct Hres as (trace & -> & _). done.
      * destruct Hres as (msg & ->). done.
    + by left.
    + rewrite Hclk. intros Hmono.
      destruct (Htimed Hmono) as (Hslot & Hflight & Htrans).
      unfold Timed. rewrite Hdi', Hfl, Htr. split; [done|split].
      * apply (in_flight_ok_later w); [done|lia|done].
      * apply Forall_app. split; [done|]. apply Forall_singleton.
        destruct (Hslot st buf) as (Hspan & Hops & _);
          [by rewrite Hdi|done|].
        split; [|done]. unfold span_ok. simpl. by apply Hspan.
Qed.

Lemma exit_callback_Inv (fn : RecordFunction) (ctx : ObserverContext)
    (w : World) :
  Inv w → (monotonic (clock w) → ctx_ok w ctx) →
  ∃ w', world_after (exit_callback fn ctx w) = Some w' ∧ Inv w' ∧
        clock w' = clock w ∧ (ticks w ≤ ticks w')%nat ∧
        in_flight w' = in_flight w ∧ extends w w'.
Proof.
  intros Hinv Hctx. pose proof Hinv as [Hshape Htimed].
  destruct Hshape as [[Hdi Hcb]|(st & buf & Hdi & Hmode & Hcbs & Hbuf & Hlen)].
  - rewrite exit_callback_inactive.
    + exists w. split; [done|]. split; [exact Hinv|].
      repeat split; try done. by apply extends_same_slot.
    + unfold active_state. by rewrite Hdi.
  - assert (Hshape : Shape w) by (right; by eexists _, _).
    destruct ctx as [ctx|].
    + destruct (exit_callback_records fn ctx w st [] buf Hdi Hmode Hbuf)
        as (w' & ev & op & Hexit & Hdi' & Hstart & Hend & _ & _ & _ & _
            & Hdur & _ & Hcb' & Hfl & Hclk & Hticks & _ & Htr).
      rewrite Hexit. exists w'.
      split; [done|].
      split; [split|split; [done|split; [lia|split; [done|]]]].
      * right. eexists _, _. split; [exact Hdi'|]. split; [exact Hmode|].
        split; [by unfold callbacks_match in *; rewrite Hcb'|].
        split; [done|]. simpl. rewrite !length_app. simpl. lia.
      * rewrite Hclk. intros Hmono.
        destruct (Htimed Hmono) as (Hslot & Hflight & Htrans).
        destruct (Hslot st buf) as (Hspan & Hops & Hevs);
          [by rewrite Hdi|done|].
        specialize (Hctx Hmono (ticks w)). simpl in Hctx.
        unfold Timed. rewrite Hdi', Hfl, Htr. split; [|split; [|done]].
        -- intros st' buf' [= <-] [= <-]. simpl. split; [|split].
           ++ apply (le_future_later w); [done|lia|done].
           ++ apply Forall_app. split; [done|]. apply Forall_singleton.
              unfold op_ok. rewrite Hstart, Hend. apply Hctx. lia.
           ++ apply Forall_app. split; [done|]. apply Forall_singleton.
              unfold event_ok. rewrite Hdur.
              assert (startUs ctx ≤ clock w (ticks w)) by (apply Hctx; lia).
              lia.
        -- apply (in_flight_ok_later w); [done|lia|done].
      * intros st0 buf0 Hst0 Hbuf0. unfold active_state in *.
        rewrite Hdi in Hst0. rewrite Hdi'. simplify_eq/=.
        eexists _, _. split; [done|]. split; [done|]. simpl.
        split; by apply prefix_app_r.
    + destruct (exit_callback_foreign fn w st) as [msg Hexit];
        [by unfold active_state; rewrite Hdi|done|].
      rewrite Hexit. exists w. split; [done|]. split; [exact Hinv|].
      repeat split; try done. by apply extends_same_slot.
Qed.

Lemma run_exits_Inv (fn : RecordFunction) (ctxs : list ObserverContext)
    (w : World) :
  Inv w → (monotonic (clock w) → Forall (ctx_ok w) ctxs) →
  ∃ w', world_after (run_exits fn ctxs w) = Some w' ∧ Inv w' ∧
        clock w' = clock w ∧ (ticks w ≤ ticks w')%nat ∧
        in_flight w' = in_flight w ∧ extends w w'.
Proof.
  revert w. induction ctxs as [|ctx ctxs IH]; intros w Hinv Hctxs.
  - exists w. split; [done|]. split; [exact Hinv|].
    repeat split; try done. by apply extends_same_slot.
  - destruct (exit_callback_Inv fn ctx w Hinv)
      as (w1 & Hexit & Hinv1 & Hclk1 & Hticks1 & Hfl1 & Hext1).
    { intros Hmono. by eapply Forall_cons_1, Hctxs. }
    simpl. unfold mbind, M_bind.
    destruct (exit_callback fn ctx w) as [[] w1'|msg w1'|]; simplify_eq/=.
    + destruct (IH w1 Hinv1)
        as (w2 & Hrun & Hinv2 & Hclk2 & Hticks2 & Hfl2 & Hext2).
      { rewrite Hclk1. intros Hmono.
        eapply Forall_impl; [by eapply Forall_cons_1, Hctxs|].
        intros c. by apply ctx_ok_later. }
      exists w2. split; [done|]. split; [done|].
      split; [congruence|]. split; [lia|]. split; [congruence|].
      by apply (extends_trans w w1).
    + exists w1. split; [done|]. split; [exact Hinv1|done].
Qed.

Lemma Inv_set_in_flight (w : World)
    (fl : list (RecordFunction * list ObserverContext)) :
  Inv w →
  (monotonic (clock w) → Forall (λ inv, Forall (ctx_ok w) inv.2) fl) →
  Inv (set_in_flight fl w).
Proof.
  intros [Hshape Htimed] Hfl. split; [done|].
  simpl. intros Hmono. destruct (Htimed Hmono) as (Hslot & _ & Htrans).
  split; [done|]. split; [|done]. by apply Hfl.
Qed.

Lemma op_exit_Inv (w : World) : Inv w → keeps_session w (op_exit w).
Proof.
  intros Hinv. unfold keeps_session, op_exit. unfold_m.
  destruct (in_flight w) as [|[fn ctxs] fl] eqn:Hfl; simpl.
  - exists w. split; [done|]. split; [exact Hinv|].
    repeat split; try done. by apply extends_same_slot.
  - destruct (run_exits_Inv fn ctxs (set_in_flight fl w))
      as (w' & Hrun & Hinv' & Hclk & Hticks & _ & Hext).
    + apply Inv_set_in_flight; [done|]. intros Hmono.
      destruct Hinv as [_ Htimed].
      destruct (Htimed Hmono) as (_ & Hflight & _).
      rewrite Hfl in Hflight. by eapply Forall_cons_1.
    + simpl. intros Hmono. destruct Hinv as [_ Htimed].
      destruct (Htimed Hmono) as (_ & Hflight & _).
      rewrite Hfl in Hflight. apply Forall_cons_1 in Hflight as [Hctxs _].
      done.
    + exists w'. split; [|done]. rewrite Hfl. simpl.
      destruct (run_exits fn ctxs (set_in_flight fl w)) as [[] ?| |]; done.
Qed.

Lemma op_enter_Inv (fn : RecordFunction) (w : World) :
  Inv w → keeps_session w (op_enter fn w).
Proof.
  intros Hinv. pose proof Hinv as [Hshape Htimed]. unfold keeps_session.
  assert (Hnone : callbacks w = [] → keeps_session w (op_enter fn w)).
  { intros Hcb. unfold keeps_session, op_enter. unfold_m. rewrite Hcb. simpl.
    exists (set_in_flight ((fn, []) :: in_flight w) w).
    split; [done|]. split; [|repeat split; try done; by apply extends_same_slot].
    apply Inv_set_in_flight; [done|]. intros Hmono.
    destruct (Htimed Hmono) as (_ & Hflight & _).
    apply Forall_cons. split; [constructor|done]. }
  destruct Hshape as [[Hdi Hcb]|(st & buf & Hdi & Hmode & Hcbs & Hbuf & Hlen)];
    [by apply Hnone|].
  unfold callbacks_match in Hcbs.
  destruct (handle_ (base st)) as [h|] eqn:Hh; [|by apply Hnone].
  destruct Hcbs as (cb & Hcb & Hcbh).
  destruct (entry_callback_active fn w st) as (w1 & Hentry & Hframe);
    [by unfold active_state; rewrite Hdi|done|].
  unfold op_enter. unfold_m. rewrite Hcb. simpl. unfold_m. rewrite Hentry. simpl.
  destruct Hframe as (Hdi1 & Hcb1 & Hfl1 & Hclk1 & Hticks1 & Htr1).
  eexists. split; [done|].
  split; [|simpl; split; [done|split; [lia|by apply extends_same_slot]]].
  apply Inv_set_in_flight.
  - apply (Inv_frame w); [|done]. unfold frame. repeat split; try done. lia.
  - rewrite Hclk1, Hfl1. intros Hmono.
    destruct (Htimed Hmono) as (_ & Hflight & _).
    apply Forall_cons. split.
    + apply Forall_singleton. simpl. intros t Ht. rewrite Hclk1.
      apply Hmono. lia.
    + apply (in_flight_ok_later w); [done|lia|done].
Qed.

(** Every action but [Disable] keeps the session. *)
Lemma perform_session (a : Action) (w : World) :
  a ≠ Disable → Inv w → keeps_session w (perform a w).
Proof.
  intros Ha Hinv. destruct a as [config acts|config acts| |fn| |cs py]; simpl.
  - by apply prepareProfiler_Inv.
  - by apply enableProfiler_Inv.
  - done.
  - by apply op_enter_Inv.
  - by apply op_exit_Inv.
  - eapply keeps_session_frame; [done|done|]. by unfold frame.
Qed.

Lemma perform_Inv (a : Action) (w : World) :
  Inv w → keeps_Inv w (perform a w).
Proof.
  intros Hinv.
  destruct a; try (by apply keeps_session_Inv, perform_session).
  destruct (disableProfiler_Inv w Hinv) as (w' & Hw' & ? & ? & ? & _).
  exists w'. split; [|done]. simpl. unfold_m.
  destruct (disableProfiler w); done.
Qed.

(** Every run of the bridge from a world that satisfies the invariant
    ends, without undefined behaviour, in a world that satisfies it. *)
Lemma run_Inv (actions : list Action) (w : World) :
  Inv w →
  ∃ w', run actions w = Some w' ∧ Inv w' ∧ clock w' = clock w.
Proof.
  revert w. induction actions as [|a actions IH]; intros w Hinv.
  - by exists w.
  - destruct (perform_Inv a w Hinv) as (w1 & Hstep & Hinv1 & Hclk1 & _).
    destruct (IH w1 Hinv1) as (w' & Hrun & Hinv' & Hclk').
    exists w'. simpl. rewrite Hstep. simpl. split; [done|].
    split; [done|congruence].
Qed.

End Invariants.

(** ** Sessions *)

Section Sessions.
Context `{CallstackUtils}.

Lemma fresh_run (w0 : World) (actions : list Action) :
  fresh w0 → ∃ w, run actions w0 = Some w ∧ Inv w ∧ clock w = clock w0.
Proof. intros Hfresh. by apply run_Inv, fresh_Inv. Qed.

(** C4: [disableProfiler] fails when the slot of the thread holds no
    state or holds a state whose mode is not the backend-tracing mode; so
    it fails where the bridge has not run, and in every world the bridge
    can reach, a [disableProfiler] that follows a successful one fails. *)
Theorem disableProfiler_checks (w : World) :
  (match head (debug_info w) with
   | None => True
   | Some p => state (config_ (base_of p)) ≠ KINETO
   end →
   ∃ msg w', disableProfiler w = Fatal msg w') ∧
  (fresh w → ∃ msg w', disableProfiler w = Fatal msg w') ∧
  (∀ w0 actions r w1,
     fresh w0 → run actions w0 = Some w → disableProfiler w = Ok r w1 →
     ∃ msg w2, disableProfiler w1 = Fatal msg w2).
Proof.
  split; [|split].
  - intros Hbad. destruct (disableProfiler_Fatal w Hbad) as [msg Hf].
    by eexists _, _.
  - intros (_ & Hdi & _).
    destruct (disableProfiler_Fatal w) as [msg Hf]; [by rewrite Hdi|].
    by eexists _, _.
  - intros w0 actions r w1 Hfresh Hrun Hdis.
    destruct (fresh_run w0 actions Hfresh) as (w' & Hrun' & Hinv & _).
    simplify_eq.
    destruct (disableProfiler_Inv w Hinv) as (w' & Hw' & _ & _ & _ & Hdi).
    rewrite Hdis in Hw'. simplify_eq/=.
    destruct (disableProfiler_Fatal w') as [msg Hf]; [by rewrite Hdi|].
    by eexists _, _.
Qed.

(** C9: with a monotonic clock, in every world a run of the bridge
    reaches, every recorded activity ends no earlier than it starts, in
    the buffers of the active session and in every buffer handed to the
    backend, every recorded event has a duration that is not negative, and
    the span of every buffer handed to the backend, and so of every buffer
    of a result of [disableProfiler], ends no earlier than it starts. *)
Theorem timestamps_ordered (w0 : World) (actions : list Action) :
  fresh w0 → monotonic (clock w0) →
  ∃ w,
    run actions w0 = Some w ∧
    (∀ st buf,
       active_state w = Some st → cpu_trace st = Some buf →
       Forall (λ op, startTime op ≤ endTime op) (ops buf) ∧
       Forall (λ ev, 0 ≤ duration_us_ ev) (kineto_events_ st)) ∧
    (∀ buf,
       buf ∈ transferred (kineto w) →
       span_startTime (span buf) ≤ span_endTime (span buf) ∧
       Forall (λ op, startTime op ≤ endTime op) (ops buf)) ∧
    (∀ r w' buf,
       disableProfiler w = Ok r w' →
       buf ∈ trace_cpu (trace_ (result_ r)) →
       span_startTime (span buf) ≤ span_endTime (span buf) ∧
       Forall (λ op, startTime op ≤ endTime op) (ops buf)).
Proof.
  intros Hfresh Hmono.
  destruct (fresh_run w0 actions Hfresh) as (w & Hrun & Hinv & Hclk).
  exists w. split; [done|].
  pose proof Hinv as [Hshape Htimed]. rewrite <- Hclk in Hmono.
  destruct (Htimed Hmono) as (Hslot & _ & Htrans).
  split; [|split].
  - intros st buf Hst Hbuf. unfold active_state in Hst.
    destruct (head (debug_info w)) as [[st'|]|] eqn:Hhead; simplify_eq/=.
    by destruct (Hslot st buf) as (_ & ? & ?).
  - intros buf Hbuf. by apply (proj1 (Forall_forall _ _) Htrans).
  - intros r w' buf Hdis Hbuf.
    destruct (disableProfiler_Inv w Hinv)
      as (w1 & Hw1 & [_ Htimed1] & Hclk1 & _ & _).
    rewrite Hdis in Hw1. simplify_eq/=.
    rewrite <- Hclk1 in Hmono. destruct (Htimed1 Hmono) as (_ & _ & Htrans1).
    destruct Hshape
      as [[Hdi Hcb]|(st & sbuf & Hdi & Hmode & Hcbs & Hsbuf & Hlen)].
    + destruct (disableProfiler_Fatal w) as [msg Hf]; [by rewrite Hdi|].
      by rewrite Hf in Hdis.
    + destruct (disableProfiler_session w st [] sbuf Hdi Hmode Hsbuf)
        as (w2 & Hres & _ & _ & _ & _ & _ & _ & Htr).
      destruct (hands_back_trace (kineto w)).
      * destruct Hres as (trace & Hres & Htrace).
        rewrite Hres in Hdis. simplify_eq/=.
        rewrite Htrace in Hbuf.
        by apply (proj1 (Forall_forall _ _) Htrans1).
      * destruct Hres as (msg & Hres). by rewrite Hres in Hdis.
Qed.

Lemma exit_callback_guarded (fn : RecordFunction)
    (ctx : KinetoObserverContext) (w : World) (st : KinetoThreadLocalState)
    (buf : CpuTraceBuffer) :
  active_state w = Some st → state (config st) = KINETO →
  cpu_trace st = Some buf →
  ∃ w' st' buf' ev op,
    exit_callback fn (KinetoCtx ctx) w = Ok tt w' ∧
    active_state w' = Some st' ∧ cpu_trace st' = Some buf' ∧
    kineto_events_ st' = kineto_events_ st ++ [ev] ∧
    ops buf' = ops buf ++ [op] ∧
    copied ev op ∧ correlation_id_ ev = correlationId ctx ∧
    state_mutex_ w'
    = state_mutex_ w ++ [Acquire; EmplaceEvent ev; EmplaceOp op; Release].
Proof.
  intros Hact Hmode Hbuf. unfold exit_callback.
  rewrite (bind_Ok _ _ _ _ _ (getProfilerTLSState_eq w)), Hact. simpl.
  rewrite bool_decide_eq_false_2 by (by intros ?).
  unfold active_state in Hact.
  destruct (debug_info w) as [|[st0|p] parent] eqn:Hslot; simplify_eq/=.
  unfold reportClientActivity, store_top, modify_top, getTimeUs,
    api_popCorrelationId.
  unfold_m. simpl. rewrite Hbuf. simpl. rewrite Hslot.
  eexists _, _, _, _, _. split; [reflexivity|].
  unfold active_state. simpl.
  split; [reflexivity|]. split; [reflexivity|]. simpl.
  split; [reflexivity|]. split; [reflexivity|].
  rewrite <- !app_assoc. simpl.
  split; [|split; [|reflexivity]];
    destruct (present_nonempty (shapes ctx)),
      (present_nonempty (stack ctx)); done.
Qed.

(** C10: an exit that is recorded, in a session in the backend-tracing
    mode, appends one event to the event buffer of the session in the
    world and one op to its trace buffer, the event being the one
    [KinetoEvent::activity] reads from the op; the thread takes
    [state_mutex_] once, emplaces that event and that op while it holds
    it, and gives it back.  In every world a run of the bridge reaches,
    the event buffer of the active session is as long as its trace
    buffer; and no action but [Disable] takes the session away or removes
    an entry from either buffer. *)
Theorem buffers_same_length :
  (∀ fn ctx w st buf,
     active_state w = Some st → state (config st) = KINETO →
     cpu_trace st = Some buf →
     0 ≤ correlationId ctx < UINT64_MOD →
     ∃ w' st' buf' ev op,
       exit_callback fn (KinetoCtx ctx) w = Ok tt w' ∧
       active_state w' = Some st' ∧ cpu_trace st' = Some buf' ∧
       kineto_events_ st' = kineto_events_ st ++ [ev] ∧
       ops buf' = ops buf ++ [op] ∧
       mirrors ev op ∧
       state_mutex_ w'
       = state_mutex_ w
           ++ [Acquire; EmplaceEvent ev; EmplaceOp op; Release]) ∧
  (∀ w0 actions,
     fresh w0 →
     ∃ w, run actions w0 = Some w ∧
          ∀ st, active_state w = Some st →
                ∃ buf, cpu_trace st = Some buf ∧
                       length (kineto_events_ st) = length (ops buf)) ∧
  (∀ w0 actions a,
     fresh w0 → a ≠ Disable →
     ∃ w w', run actions w0 = Some w ∧
             world_after (perform a w) = Some w' ∧
             ∀ st buf,
               active_state w = Some st → cpu_trace st = Some buf →
               ∃ st' buf',
                 active_state w' = Some st' ∧ cpu_trace st' = Some buf' ∧
                 kineto_events_ st `prefix_of` kineto_events_ st' ∧
                 ops buf `prefix_of` ops buf').
Proof.
  split; [|split].
  - intros fn ctx w st buf Hact Hmode Hbuf Hrange.
    destruct (exit_callback_guarded fn ctx w st buf Hact Hmode Hbuf)
      as (w' & st' & buf' & ev & op & Hexit & Hact' & Hbuf' & Hevs & Hops
          & Hcopied & Hid & Hmutex).
    exists w', st', buf', ev, op. repeat (split; [done|]).
    split; [|done]. apply copied_mirrors; [done|]. by rewrite Hid.
  - intros w0 actions Hfresh.
    destruct (fresh_run w0 actions Hfresh) as (w & Hrun & [Hshape _] & _).
    exists w. split; [done|]. intros st Hst.
    destruct Hshape as [[Hdi _]|(st' & buf & Hdi & _ & _ & Hbuf & Hlen)];
      unfold active_state in Hst; rewrite Hdi in Hst; simplify_eq/=.
    by exists buf.
  - intros w0 actions a Hfresh Ha.
    destruct (fresh_run w0 actions Hfresh) as (w & Hrun & Hinv & _).
    destruct (perform_session a w Ha Hinv) as (w' & Hstep & _ & _ & _ & Hext).
    by exists w, w'.
Qed.

Lemma op_enter_session (fn : RecordFunction) (w : World)
    (st : KinetoThreadLocalState) (cb : RegisteredCallback) :
  active_state w = Some st → state (config st) = KINETO →
  callbacks w = [cb] →
  ∃ w' ctx,
    op_enter fn w = Ok tt w' ∧ debug_info w' = debug_info w ∧
    callbacks w' = callbacks w ∧
    in_flight w' = (fn, [KinetoCtx ctx]) :: in_flight w.
Proof.
  intros Hact Hmode Hcb.
  destruct (entry_callback_active fn w st Hact Hmode)
    as (w1 & Hentry & Hdi & Hcb1 & Hfl & _).
  unfold op_enter. unfold_m. rewrite Hcb. simpl. unfold_m.
  rewrite Hentry. simpl. eexists _, _. split; [reflexivity|]. simpl.
  rewrite Hfl. by rewrite <- Hcb.
Qed.

Lemma op_exit_session (fn : RecordFunction) (ctx : KinetoObserverContext)
    (fl : list (RecordFunction * list ObserverContext)) (w : World)
    (st : KinetoThreadLocalState) (parent : list DebugInfoBase)
    (buf : CpuTraceBuffer) :
  in_flight w = (fn, [KinetoCtx ctx]) :: fl →
  debug_info w = KinetoTLS st :: parent →
  state (config st) = KINETO → cpu_trace st = Some buf →
  ∃ w' ev op,
    op_exit w = Ok tt w' ∧
    debug_info w'
    = KinetoTLS
        (mkKinetoThreadLocalState (base st) (kineto_events_ st ++ [ev])
           (Some (mkCpuTraceBuffer (span buf) (gpuOpCount buf)
                    (ops buf ++ [op]))))
        :: parent ∧
    callbacks w' = callbacks w ∧ in_flight w' = fl.
Proof.
  intros Hfl Hdi Hmode Hbuf.
  destruct (exit_callback_records fn ctx (set_in_flight fl w) st parent buf)
    as (w' & ev & op & Hexit & Hdi' & _ & _ & _ & _ & _ & _ & _ & _
        & Hcb & Hfl' & _); [done..|].
  unfold op_exit. unfold_m. simpl. rewrite Hfl. simpl. unfold_m.
  rewrite Hfl. simpl. rewrite Hexit. by eexists _, _, _.
Qed.

(** In a session with its callbacks registered, operations that run one
    after the other are all observed at their entry and each leaves one
    event in the buffer of the session. *)
Lemma complete_ops_recorded (fns : list RecordFunction) (w : World)
    (st : KinetoThreadLocalState) (parent : list DebugInfoBase)
    (buf : CpuTraceBuffer) (cb : RegisteredCallback) :
  debug_info w = KinetoTLS st :: parent →
  state (config st) = KINETO → cpu_trace st = Some buf →
  callbacks w = [cb] →
  ∃ w' st',
    run (complete_ops fns) w = Some w' ∧
    active_state w' = Some st' ∧
    length (kineto_events_ st')
    = (length (kineto_events_ st) + length fns)%nat ∧
    observed_entries (complete_ops fns) w = length fns.
Proof.
  revert w st buf.
  induction fns as [|fn fns IH]; intros w st buf Hdi Hmode Hbuf Hcb.
  - exists w, st. unfold active_state. rewrite Hdi. simpl.
    repeat split; try done; lia.
  - assert (Hact : active_state w = Some st)
      by (unfold active_state; by rewrite Hdi).
    destruct (op_enter_session fn w st cb Hact Hmode Hcb)
      as (w1 & ctx & Hen & Hdi1 & Hcb1 & Hfl1).
    rewrite Hdi in Hdi1. rewrite Hcb in Hcb1.
    destruct (op_exit_session fn ctx (in_flight w) w1 st parent buf
                Hfl1 Hdi1 Hmode Hbuf)
      as (w2 & ev & op & Hex & Hdi2 & Hcb2 & _).
    rewrite Hcb1 in Hcb2.
    destruct (IH w2 _ _ Hdi2 Hmode eq_refl Hcb2)
      as (w' & st' & Hrun & Hact' & Hlen & Hobs).
    exists w', st'. simpl in Hlen. rewrite length_app in Hlen. simpl in Hlen.
    change (complete_ops (fn :: fns))
      with (Enter fn :: Exit :: complete_ops fns).
    simpl. rewrite Hen. simpl. rewrite Hex. simpl.
    split; [done|]. split; [done|]. split; [lia|].
    unfold entry_observes. rewrite Hact, Hcb.
    rewrite (bool_decide_eq_true_2 _ Hmode). simpl. by rewrite Hobs.
Qed.

(** Whatever the session recorded, the result of [disableProfiler] has no
    events. *)
Lemma disableProfiler_events_empty (w w' : World) (r : ProfilerResultWrapper) :
  disableProfiler w = Ok r w' → events_ (result_ r) = [].
Proof.
  unfold disableProfiler, ThreadLocalDebugInfo_pop, api_stopTrace,
    api_transferCpuTrace, removeCallback, getTimeUs.
  unfold_m.
  destruct (debug_info w) as [|[st|st] parent]; simpl; [done| |].
  - destruct (bool_decide (state (config_ (base st)) = KINETO)); [|done].
    destruct (hasCallbackHandle st); simpl;
      (destruct (cpu_trace st); simpl; [|done]);
      (destruct (hands_back_trace (kineto w)); simpl; [|done]);
      by intros [= <- _].
  - by destruct (bool_decide (state (config_ st) = KINETO)).
Qed.

(** A session in which CPU activity is requested and [fns] run one after
    the other: all of them are observed and recorded in the buffer of the
    session, and a result of [disableProfiler] counts none of them. *)
Lemma session_events_not_in_result (config : ProfilerConfig)
    (activities : gset ActivityType) (fns : list RecordFunction) (w : World) :
  fresh w → state config = KINETO → CPU ∈ activities →
  ∃ w' st,
    run (Enable config activities :: complete_ops fns) w = Some w' ∧
    observed_entries (Enable config activities :: complete_ops fns) w
    = length fns ∧
    active_state w' = Some st ∧
    length (kineto_events_ st) = length fns ∧
    ∀ r w'', disableProfiler w' = Ok r w'' → event_count (result_ r) = 0%nat.
Proof.
  intros (_ & Hdi & Hcb & _) Hmode Hcpu.
  destruct (enableProfiler_Ok config activities w Hmode) as
    (w1 & Hen & Hdi1 & Hcb1 & _); [set_solver|by unfold active_state; rewrite Hdi|].
  rewrite Hdi in Hdi1. rewrite Hcb, (bool_decide_eq_true_2 _ Hcpu) in Hcb1.
  destruct (complete_ops_recorded fns w1 _ [] _ _ Hdi1 Hmode eq_refl Hcb1)
    as (w' & st & Hrun & Hact & Hlen & Hobs).
  exists w', st. simpl. rewrite Hen. simpl.
  split; [done|]. split; [done|]. split; [done|]. split; [done|].
  intros r w'' Hdis. unfold event_count.
  by rewrite (disableProfiler_events_empty _ _ _ Hdis).
Qed.

End Sessions.

(** ** Concrete sessions *)

(** C1, at a session with one operation: the session has the event of the
    operation in its buffer when [disableProfiler] is called, and the
    result, which [disableProfiler] returns with the two legacy markers,
    has no event. *)
Theorem disableProfiler_drops_events :
  run one_op_session demo_world = Some one_op_world ∧
  (fmap name_ ∘ kineto_events_) <$> active_state one_op_world
  = Some ["matmul"] ∧
  (events_ ∘ result_) <$> returned (disableProfiler one_op_world)
  = Some [] ∧
  (legacy_events_ ∘ result_) <$> returned (disableProfiler one_op_world)
  = Some [["__start_profile"; "__stop_profile"]].
Proof.
  split; [by vm_compute|]. split; [by vm_compute|].
  split; by vm_compute.
Qed.

(** C8, at a session with two operations: the entry callback observed the
    session for both, both are in the buffer of the session, and the
    result of [disableProfiler] counts no event. *)
Theorem result_event_count_zero :
  run two_op_session demo_world = Some two_op_world ∧
  observed_entries two_op_session demo_world = 2%nat ∧
  (length ∘ kineto_events_) <$> active_state two_op_world = Some 2%nat ∧
  (event_count ∘ result_) <$> returned (disableProfiler two_op_world)
  = Some 0%nat.
Proof.
  split; [by vm_compute|]. split; [by vm_compute|].
  split; by vm_compute.
Qed.

(** C3 fails where the slot holds a state that is not of the bridge.  On
    a thread on which the legacy profiler runs, a [ProfilerState] is
    active on the slot, and [enableProfiler] with a config in the
    backend-tracing mode and CPU activity does not fail: it returns, and
    leaves its session on the slot above the state of the legacy
    profiler. *)
Lemma enableProfiler_over_legacy_state :
  is_Some (head (debug_info legacy_world)) ∧
  enableProfiler (kineto_cfg false false) {[CPU]} legacy_world
  = Ok tt over_legacy_world ∧
  tail (debug_info over_legacy_world) = debug_info legacy_world ∧
  length (debug_info over_legacy_world) = 2%nat ∧
  ¬ (∀ (config : ProfilerConfig) (activities : gset ActivityType)
       (w : @World demo_utils),
       state config ≠ KINETO ∨ activities = ∅
       ∨ is_Some (head (debug_info w)) →
       ∃ msg w', enableProfiler config activities w = Fatal msg w').
Proof.
  assert (Hok : enableProfiler (kineto_cfg false false) {[CPU]} legacy_world
                = Ok tt over_legacy_world) by (by vm_compute).
  split; [by eexists|]. split; [done|].
  split; [by vm_compute|]. split; [by vm_compute|].
  intros Hfails.
  destruct (Hfails (kineto_cfg false false) {[CPU]} legacy_world)
    as (msg & w' & Hfatal).
  - right; right. by eexists.
  - rewrite Hok in Hfatal. discriminate Hfatal.
Qed.

(** ** The theorems at concrete inputs *)

Lemma demo_world_fresh : fresh demo_world.
Proof. by repeat split. Qed.

Lemma demo_clock_monotonic : monotonic demo_clock.
Proof. intros i j Hij. unfold demo_clock. lia. Qed.

Lemma prepareProfiler_activities_witness :
  ∃ w' k_activities,
    prepareProfiler (kineto_cfg false false) {[CPU; CUDA]} demo_world
    = Ok tt w' ∧
    prepared (kineto w') = Some k_activities ∧
    ∀ k, k ∈ k_activities ↔
      (CPU ∈ ({[CPU; CUDA]} : gset ActivityType)
       ∧ (k = EXTERNAL_CORRELATION ∨ k = CUDA_RUNTIME)) ∨
      (CUDA ∈ ({[CPU; CUDA]} : gset ActivityType) ∧
         (k = GPU_MEMCPY ∨ k = GPU_MEMSET ∨ k = CONCURRENT_KERNEL
          ∨ k = CUDA_RUNTIME)).
Proof.
  apply (prepareProfiler_activities (kineto_cfg false false) {[CPU; CUDA]}
           demo_world).
  reflexivity.
Defined.

Lemma entry_callback_stack_witness :
  ∃ ctx w',
    entry_callback matmul stack_world = Ok (KinetoCtx ctx) w' ∧
    (scope matmul ≠ BACKWARD_FUNCTION →
       (prepareCallstack (currentCallstack stack_world) ≠ [] →
          stack ctx
          = Some (callstackStr
                    (prepareCallstack (currentCallstack stack_world)))) ∧
       (prepareCallstack (currentCallstack stack_world) = [] →
          stack ctx
          = Some (callstackStr
                    (prepareCallstack (pythonCallstack stack_world))))) ∧
    (scope matmul = BACKWARD_FUNCTION → stack ctx = None).
Proof.
  apply (entry_callback_stack matmul stack_world
           (enabled_state (kineto_cfg false true) {[CPU]} demo_world)).
  - vm_compute. reflexivity.
  - reflexivity.
  - reflexivity.
Defined.

Lemma enableProfiler_checks_witness :
  (∃ msg,
     enableProfiler (kineto_cfg false false) ∅ demo_world
     = Fatal msg demo_world) ∧
  (∃ w' st,
     enableProfiler (kineto_cfg false false) {[CPU]} demo_world = Ok tt w' ∧
     debug_info w' = KinetoTLS st :: debug_info demo_world ∧
     config_ (base st) = kineto_cfg false false) ∧
  (∃ w' st,
     enableProfiler (kineto_cfg false false) {[CPU]} legacy_world
     = Ok tt w' ∧
     debug_info w' = KinetoTLS st :: debug_info legacy_world ∧
     config_ (base st) = kineto_cfg false false).
Proof.
  split; [|split].
  - apply (proj1 (enableProfiler_checks (kineto_cfg false false) ∅ demo_world)).
    right; left. reflexivity.
  - apply (proj2 (enableProfiler_checks (kineto_cfg false false) {[CPU]}
                    demo_world)).
    intros [Hmode|[Hacts|[st Hact]]].
    + apply Hmode. reflexivity.
    + vm_compute in Hacts. discriminate Hacts.
    + vm_compute in Hact. discriminate Hact.
  - apply (proj2 (enableProfiler_checks (kineto_cfg false false) {[CPU]}
                    legacy_world)).
    intros [Hmode|[Hacts|[st Hact]]].
    + apply Hmode. reflexivity.
    + vm_compute in Hacts. discriminate Hacts.
    + vm_compute in Hact. discriminate Hact.
Defined.

Lemma disableProfiler_checks_witness :
  (∃ msg w', disableProfiler legacy_world = Fatal msg w') ∧
  (∃ msg w', disableProfiler demo_world = Fatal msg w') ∧
  (∃ msg w2, disableProfiler (after_disable one_op_world) = Fatal msg w2).
Proof.
  split; [|split].
  - apply (proj1 (disableProfiler_checks legacy_world)).
    simpl. intros Hmode. discriminate Hmode.
  - apply (proj1 (proj2 (disableProfiler_checks demo_world))).
    exact demo_world_fresh.
  - apply (proj2 (proj2 (disableProfiler_checks one_op_world))
             demo_world one_op_session
             (default (mkProfilerResultWrapper
                         (mkProfilerResult [] [] (mkActivityTrace [])))
                (returned (disableProfiler one_op_world)))).
    + exact demo_world_fresh.
    + vm_compute. reflexivity.
    + vm_compute. reflexivity.
Defined.

Lemma timestamps_ordered_witness :
  ∃ w,
    run (two_op_session ++ [Disable]) demo_world = Some w ∧
    (∀ st buf,
       active_state w = Some st → cpu_trace st = Some buf →
       Forall (λ op, startTime op ≤ endTime op) (ops buf) ∧
       Forall (λ ev, 0 ≤ duration_us_ ev) (kineto_events_ st)) ∧
    (∀ buf,
       buf ∈ transferred (kineto w) →
       span_startTime (span buf) ≤ span_endTime (span buf) ∧
       Forall (λ op, startTime op ≤ endTime op) (ops buf)) ∧
    (∀ r w' buf,
       disableProfiler w = Ok r w' →
       buf ∈ trace_cpu (trace_ (result_ r)) →
       span_startTime (span buf) ≤ span_endTime (span buf) ∧
       Forall (λ op, startTime op ≤ endTime op) (ops buf)).
Proof.
  apply (timestamps_ordered demo_world (two_op_session ++ [Disable])).
  - exact demo_world_fresh.
  - exact demo_clock_monotonic.
Defined.

Lemma buffers_same_length_witness :
  (∃ w' st' buf' ev op,
     exit_callback matmul (KinetoCtx session_ctx) entered_world = Ok tt w' ∧
     active_state w' = Some st' ∧ cpu_trace st' = Some buf' ∧
     kineto_events_ st' = kineto_events_ entered_state ++ [ev] ∧
     ops buf' = ops entered_buffer ++ [op] ∧
     mirrors ev op ∧
     state_mutex_ w'
     = state_mutex_ entered_world
         ++ [Acquire; EmplaceEvent ev; EmplaceOp op; Release]) ∧
  (∃ w,
     run two_op_session demo_world = Some w ∧
     ∀ st, active_state w = Some st →
           ∃ buf, cpu_trace st = Some buf ∧
                  length (kineto_events_ st) = length (ops buf)) ∧
  (∃ w w',
     run two_op_session demo_world = Some w ∧
     world_after (perform (Enter matmul) w) = Some w' ∧
     ∀ st buf,
       active_state w = Some st → cpu_trace st = Some buf →
       ∃ st' buf',
         active_state w' = Some st' ∧ cpu_trace st' = Some buf' ∧
         kineto_events_ st `prefix_of` kineto_events_ st' ∧
         ops buf `prefix_of` ops buf').
Proof.
  split; [|split].
  - apply (proj1 buffers_same_length matmul session_ctx entered_world
             entered_state entered_buffer).
    + vm_compute. reflexivity.
    + vm_compute. reflexivity.
    + vm_compute. reflexivity.
    + split; by vm_compute.
  - apply (proj1 (proj2 buffers_same_length) demo_world two_op_session).
    exact demo_world_fresh.
  - apply (proj2 (proj2 buffers_same_length) demo_world two_op_session
             (Enter matmul)).
    + exact demo_world_fresh.
    + discriminate.
Defined.

(** * Operations in a session *)

Section Operations.
Context `{CallstackUtils}.

Lemma active_state_top (w : World) (st : KinetoThreadLocalState) :
  active_state w = Some st →
  debug_info w = KinetoTLS st :: tail (debug_info w).
Proof.
  unfold active_state. destruct (debug_info w) as [|[s|s] parent]; simpl;
    intros Hst; by simplify_eq.
Qed.

(** The entry of an operation in a session with one registered callback:
    one context is kept with the invocation, one correlation id is taken
    and its scope opened, one reading of the clock is taken. *)
Lemma op_enter_effect (fn : RecordFunction) (w : World)
    (st : KinetoThreadLocalState) (cb : RegisteredCallback) :
  active_state w = Some st → state (config st) = KINETO →
  callbacks w = [cb] →
  ∃ w',
    op_enter fn w = Ok tt w' ∧
    in_flight w'
    = (fn, [KinetoCtx
              (mkKinetoObserverContext
                 (clock w (ticks w)) (corr_id_ w) (currentThreadId w) 0
                 (if report_input_shapes (config st)
                  then Some (inputSizes fn) else None)
                 (seqNr fn) (forwardThreadId fn)
                 (RecordScope_to_Z (scope fn))
                 (if with_stack (config st)
                     && bool_decide (scope fn ≠ BACKWARD_FUNCTION)
                  then Some (formatted_stack w) else None))])
        :: in_flight w ∧
    debug_info w' = debug_info w ∧ callbacks w' = callbacks w ∧
    clock w' = clock w ∧ ticks w' = S (ticks w) ∧
    corr_id_ w' = wrap_u64 (corr_id_ w + 1) ∧
    correlation_scopes (kineto w')
    = corr_id_ w :: correlation_scopes (kineto w) ∧
    transferred (kineto w') = transferred (kineto w) ∧
    currentThreadId w' = currentThreadId w ∧
    pthread_self w' = pthread_self w.
Proof.
  intros Hact Hmode Hcb. unfold op_enter. unfold_m. rewrite Hcb. simpl.
  unfold_m. unfold entry_callback.
  rewrite (bind_Ok _ _ _ _ _ (getProfilerTLSState_eq w)), Hact.
  rewrite bool_decide_eq_false_2 by (by intros ?).
  unfold_m. simpl. eexists. split; [reflexivity|]. simpl.
  by rewrite Hcb.
Qed.

(** The exit of an operation whose entry left one context of the bridge,
    in a session in the backend-tracing mode: the event and the activity
    are appended, the correlation scope is closed. *)
Lemma op_exit_effect (fn : RecordFunction) (ctx : KinetoObserverContext)
    (fl : list (RecordFunction * list ObserverContext)) (w : World)
    (st : KinetoThreadLocalState) (buf : CpuTraceBuffer) :
  in_flight w = (fn, [KinetoCtx ctx]) :: fl →
  active_state w = Some st →
  state (config st) = KINETO → cpu_trace st = Some buf →
  ∃ w',
    op_exit w = Ok tt w' ∧
    debug_info w'
    = KinetoTLS
        (mkKinetoThreadLocalState (base st)
           (kineto_events_ st ++
              [mkKinetoEvent (name fn) 0 (startUs ctx)
                 (clock w (ticks w) - startUs ctx) (correlationId ctx)
                 (startThreadId ctx) (currentThreadId w) (sequenceNr ctx)
                 (fwdThreadId ctx) (recFunScope ctx) DeviceCPU
                 (kept (shapes ctx)) (kept (stack ctx))])
           (Some (mkCpuTraceBuffer (span buf) (gpuOpCount buf)
                    (ops buf ++
                       [mkClientTraceActivity (startUs ctx)
                          (clock w (ticks w)) (name fn) 0 (correlationId ctx)
                          (if present_nonempty (shapes ctx)
                           then shapesToStr (default [] (shapes ctx))
                           else EmptyString)
                          (pthread_self w)]))))
        :: tail (debug_info w) ∧
    in_flight w' = fl ∧ callbacks w' = callbacks w ∧
    clock w' = clock w ∧ ticks w' = S (ticks w) ∧
    corr_id_ w' = corr_id_ w ∧
    correlation_scopes (kineto w') = tail (correlation_scopes (kineto w)) ∧
    transferred (kineto w') = transferred (kineto w) ∧
    currentThreadId w' = currentThreadId w ∧
    pthread_self w' = pthread_self w.
Proof.
  intros Hfl Hact Hmode Hbuf. pose proof (active_state_top w st Hact) as Hdi.
  unfold op_exit. unfold_m. simpl. rewrite Hfl. simpl. unfold_m.
  rewrite Hfl. simpl. unfold exit_callback.
  rewrite (bind_Ok _ _ _ _ _ (getProfilerTLSState_eq _)).
  change (active_state (set_in_flight fl w)) with (active_state w).
  rewrite Hact. rewrite bool_decide_eq_false_2 by (by intros ?).
  unfold reportClientActivity, store_top, modify_top, getTimeUs,
    api_popCorrelationId, kept.
  unfold_m. simpl. rewrite Hbuf. simpl. rewrite Hdi. simpl.
  eexists. split; [reflexivity|]. simpl.
  destruct (shapes ctx) as [[|??]|], (stack ctx) as [[|??]|]; done.
Qed.

(** An operation that runs from its entry to its exit in a session with
    one registered callback. *)
Lemma complete_op_effect (fn : RecordFunction) (w : World)
    (st : KinetoThreadLocalState) (buf : CpuTraceBuffer)
    (cb : RegisteredCallback) :
  active_state w = Some st → state (config st) = KINETO →
  cpu_trace st = Some buf → callbacks w = [cb] →
  ∃ w',
    run [Enter fn; Exit] w = Some w' ∧
    debug_info w'
    = KinetoTLS
        (mkKinetoThreadLocalState (base st)
           (kineto_events_ st ++
              [mkKinetoEvent (name fn) 0 (clock w (ticks w))
                 (clock w (S (ticks w)) - clock w (ticks w)) (corr_id_ w)
                 (currentThreadId w) (currentThreadId w) (seqNr fn)
                 (forwardThreadId fn) (RecordScope_to_Z (scope fn)) DeviceCPU
                 (kept (if report_input_shapes (config st)
                        then Some (inputSizes fn) else None))
                 (kept (if with_stack (config st)
                           && bool_decide (scope fn ≠ BACKWARD_FUNCTION)
                        then Some (formatted_stack w) else None))])
           (Some (mkCpuTraceBuffer (span buf) (gpuOpCount buf)
                    (ops buf ++
                       [mkClientTraceActivity (clock w (ticks w))
                          (clock w (S (ticks w))) (name fn) 0 (corr_id_ w)
                          (if report_input_shapes (config st)
                              && bool_decide (inputSizes fn ≠ [])
                           then shapesToStr (inputSizes fn)
                           else EmptyString)
                          (pthread_self w)]))))
        :: tail (debug_info w) ∧
    in_flight w' = in_flight w ∧ callbacks w' = callbacks w ∧
    clock w' = clock w ∧ ticks w' = S (S (ticks w)) ∧
    corr_id_ w' = wrap_u64 (corr_id_ w + 1) ∧
    correlation_scopes (kineto w') = correlation_scopes (kineto w) ∧
    transferred (kineto w') = transferred (kineto w).
Proof.
  intros Hact Hmode Hbuf Hcb.
  destruct (op_enter_effect fn w st cb Hact Hmode Hcb)
    as (w1 & Hen & Hfl1 & Hdi1 & Hcb1 & Hclk1 & Hticks1 & Hcorr1 & Hsc1
        & Htr1 & Htid1 & Hself1).
  assert (Hact1 : active_state w1 = Some st)
    by (unfold active_state in *; by rewrite Hdi1).
  destruct (op_exit_effect fn _ (in_flight w) w1 st buf Hfl1 Hact1 Hmode Hbuf)
    as (w2 & Hex & Hdi2 & Hfl2 & Hcb2 & Hclk2 & Hticks2 & Hcorr2 & Hsc2
        & Htr2 & _).
  exists w2. simpl. rewrite Hen. simpl. rewrite Hex. simpl.
  split; [done|]. simpl in Hdi2.
  rewrite Hclk1, Hticks1, Htid1, Hself1, Hdi1 in Hdi2.
  split.
  { rewrite Hdi2. do 3 f_equal. f_equal. f_equal. f_equal.
    destruct (report_input_shapes (config st)); simpl; [|done].
    by destruct (inputSizes fn). }
  rewrite Hsc1 in Hsc2. simpl in Hsc2.
  repeat split; congruence.
Qed.

(** X1: an operation that runs from entry to exit in a session with its
    callback registered leaves exactly one new event, at the end of the
    buffer of the session: it has the name, sequence number, forward
    thread id and scope of the operation, the thread it ran on, the CPU
    device, the correlation id that was next when the operation entered,
    the reading of the clock at the entry as its start and the difference
    to the reading at the exit as its duration. *)
Theorem complete_op_event (fn : RecordFunction) (w : World)
    (st : KinetoThreadLocalState) (buf : CpuTraceBuffer)
    (cb : RegisteredCallback) :
  active_state w = Some st → state (config st) = KINETO →
  cpu_trace st = Some buf → callbacks w = [cb] →
  ∃ w' st' ev,
    run [Enter fn; Exit] w = Some w' ∧
    active_state w' = Some st' ∧
    kineto_events_ st' = kineto_events_ st ++ [ev] ∧
    name_ ev = name fn ∧ sequence_nr_ ev = seqNr fn ∧
    fwd_thread_id_ ev = forwardThreadId fn ∧
    scope_ ev = RecordScope_to_Z (scope fn) ∧
    start_thread_id_ ev = currentThreadId w ∧
    end_thread_id_ ev = currentThreadId w ∧
    device_index_ ev = 0 ∧ device_type_ ev = DeviceCPU ∧
    correlation_id_ ev = corr_id_ w ∧
    start_us_ ev = clock w (ticks w) ∧
    duration_us_ ev = clock w (S (ticks w)) - clock w (ticks w).
Proof.
  intros Hact Hmode Hbuf Hcb.
  destruct (complete_op_effect fn w st buf cb Hact Hmode Hbuf Hcb)
    as (w' & Hrun & Hdi & _).
  eexists w', _, _. split; [exact Hrun|].
  split; [unfold active_state; rewrite Hdi; reflexivity|].
  split; [reflexivity|]. by repeat split.
Qed.

(** X2: the activity such an operation leaves in the CPU trace buffer of
    the session is the last one, from the reading of the clock at the
    entry to the reading at the exit, with the name of the operation,
    device 0 and the thread of the exit; the span and the op count of the
    buffer are not touched.  Its correlation field holds the id that was
    next at the entry as a signed 64-bit number: the id itself while the
    id is below [2^63], and the id less [2^64], a negative number, from
    there on. *)
Theorem complete_op_activity (fn : RecordFunction) (w : World)
    (st : KinetoThreadLocalState) (buf : CpuTraceBuffer)
    (cb : RegisteredCallback) :
  active_state w = Some st → state (config st) = KINETO →
  cpu_trace st = Some buf → callbacks w = [cb] →
  ∃ w' st' buf' op,
    run [Enter fn; Exit] w = Some w' ∧
    active_state w' = Some st' ∧ cpu_trace st' = Some buf' ∧
    ops buf' = ops buf ++ [op] ∧
    span buf' = span buf ∧ gpuOpCount buf' = gpuOpCount buf ∧
    startTime op = clock w (ticks w) ∧
    endTime op = clock w (S (ticks w)) ∧
    opType op = name fn ∧ device op = 0 ∧
    threadId op = pthread_self w ∧
    correlation_value op = to_int64 (corr_id_ w) ∧
    (0 ≤ corr_id_ w < INT64_HALF → correlation_value op = corr_id_ w) ∧
    (INT64_HALF ≤ corr_id_ w < UINT64_MOD →
     correlation_value op = corr_id_ w - UINT64_MOD).
Proof.
  intros Hact Hmode Hbuf Hcb.
  destruct (complete_op_effect fn w st buf cb Hact Hmode Hbuf Hcb)
    as (w' & Hrun & Hdi & _).
  eexists w', _, _, _. split; [exact Hrun|].
  split; [unfold active_state; rewrite Hdi; reflexivity|].
  split; [reflexivity|]. do 9 (split; [done|]).
  unfold correlation_value. simpl. split.
  - intros Hlow. by apply to_int64_low.
  - intros Hhigh. by apply to_int64_high.
Qed.

(** X3: the event of such an operation carries the input shapes, and its
    activity their rendering by [shapesToStr], exactly when the session
    reports input shapes and the shape extractor returns a list that is
    not empty; otherwise the event has no shapes and the activity an
    empty string. *)
Theorem complete_op_shapes (fn : RecordFunction) (w : World)
    (st : KinetoThreadLocalState) (buf : CpuTraceBuffer)
    (cb : RegisteredCallback) :
  active_state w = Some st → state (config st) = KINETO →
  cpu_trace st = Some buf → callbacks w = [cb] →
  ∃ w' st' buf' ev op,
    run [Enter fn; Exit] w = Some w' ∧
    active_state w' = Some st' ∧ cpu_trace st' = Some buf' ∧
    kineto_events_ st' = kineto_events_ st ++ [ev] ∧
    ops buf' = ops buf ++ [op] ∧
    (report_input_shapes (config st) = true → inputSizes fn ≠ [] →
     shapes_ ev = Some (inputSizes fn) ∧
     inputDims op = shapesToStr (inputSizes fn)) ∧
    (report_input_shapes (config st) = false ∨ inputSizes fn = [] →
     shapes_ ev = None ∧ inputDims op = EmptyString).
Proof.
  intros Hact Hmode Hbuf Hcb.
  destruct (complete_op_effect fn w st buf cb Hact Hmode Hbuf Hcb)
    as (w' & Hrun & Hdi & _).
  eexists w', _, _, _, _. split; [exact Hrun|].
  split; [unfold active_state; rewrite Hdi; reflexivity|].
  split; [reflexivity|]. split; [reflexivity|]. split; [reflexivity|].
  simpl. split.
  - intros -> Hsizes. rewrite bool_decide_eq_true_2 by done.
    by destruct (inputSizes fn).
  - intros [-> | ->]; [done|]. rewrite andb_false_r.
    by destruct (report_input_shapes (config st)).
Qed.

(** X4: the event of such an operation carries the formatted call stack
    exactly when the session captures call stacks, the operation is not
    in the backward-function scope and the formatted call stack is not
    empty; otherwise (also when both extractors yield nothing) the event
    has no call stack. *)
Theorem complete_op_stack (fn : RecordFunction) (w : World)
    (st : KinetoThreadLocalState) (buf : CpuTraceBuffer)
    (cb : RegisteredCallback) :
  active_state w = Some st → state (config st) = KINETO →
  cpu_trace st = Some buf → callbacks w = [cb] →
  ∃ w' st' ev,
    run [Enter fn; Exit] w = Some w' ∧
    active_state w' = Some st' ∧
    kineto_events_ st' = kineto_events_ st ++ [ev] ∧
    (with_stack (config st) = true → scope fn ≠ BACKWARD_FUNCTION →
     formatted_stack w ≠ [] → stack_ ev = Some (formatted_stack w)) ∧
    (with_stack (config st) = false ∨ scope fn = BACKWARD_FUNCTION
     ∨ formatted_stack w = [] → stack_ ev = None).
Proof.
  intros Hact Hmode Hbuf Hcb.
  destruct (complete_op_effect fn w st buf cb Hact Hmode Hbuf Hcb)
    as (w' & Hrun & Hdi & _).
  eexists w', _, _. split; [exact Hrun|].
  split; [unfold active_state; rewrite Hdi; reflexivity|].
  split; [reflexivity|]. simpl. split.
  - intros -> Hscope Hcs. rewrite bool_decide_eq_true_2 by done. simpl.
    unfold kept. simpl. by destruct (formatted_stack w).
  - intros [-> | [Hscope | ->]]; [done| |].
    + rewrite bool_decide_eq_false_2 by (by intros ?).
      by rewrite andb_false_r.
    + by destruct (with_stack (config st) && _).
Qed.

(** X5: such an operation leaves the bookkeeping as it found it: the
    invocations between entry and exit and the backend's stack of open
    correlation scopes are what they were, the callbacks and the entries
    of the slot below the session are untouched, nothing is handed to the
    backend; it takes one correlation id and two readings of the
    clock. *)
Theorem complete_op_balanced (fn : RecordFunction) (w : World)
    (st : KinetoThreadLocalState) (buf : CpuTraceBuffer)
    (cb : RegisteredCallback) :
  active_state w = Some st → state (config st) = KINETO →
  cpu_trace st = Some buf → callbacks w = [cb] →
  ∃ w',
    run [Enter fn; Exit] w = Some w' ∧
    in_flight w' = in_flight w ∧
    correlation_scopes (kineto w') = correlation_scopes (kineto w) ∧
    callbacks w' = callbacks w ∧
    tail (debug_info w') = tail (debug_info w) ∧
    transferred (kineto w') = transferred (kineto w) ∧
    corr_id_ w' = wrap_u64 (corr_id_ w + 1) ∧
    ticks w' = S (S (ticks w)).
Proof.
  intros Hact Hmode Hbuf Hcb.
  destruct (complete_op_effect fn w st buf cb Hact Hmode Hbuf Hcb)
    as (w' & Hrun & Hdi & Hfl & Hcb' & _ & Hticks & Hcorr & Hsc & Htr).
  exists w'. rewrite Hdi. by repeat split.
Qed.

Lemma run_cons (a : Action) (actions : list Action) (w : World) :
  run (a :: actions) w = world_after (perform a w) ≫= run actions.
Proof. reflexivity. Qed.

Lemma run_app (actions1 actions2 : list Action) (w : World) :
  run (actions1 ++ actions2) w = run actions1 w ≫= run actions2.
Proof.
  revert w. induction actions1 as [|a actions1 IH]; intros w; [done|].
  simpl. destruct (world_after (perform a w)) as [w1|]; simpl; [apply IH|done].
Qed.

(** X6: when an operation [g] runs inside an operation [f], the event of
    [g] is recorded first and that of [f] after it; [f] has the earlier
    correlation id and the earlier start, and its duration spans that of
    [g]: the four readings of the clock are taken in the order entry of
    [f], entry of [g], exit of [g], exit of [f]. *)
Theorem nested_ops_events (f g : RecordFunction) (w : World)
    (st : KinetoThreadLocalState) (buf : CpuTraceBuffer)
    (cb : RegisteredCallback) :
  active_state w = Some st → state (config st) = KINETO →
  cpu_trace st = Some buf → callbacks w = [cb] →
  ∃ w' st' ev_g ev_f,
    run [Enter f; Enter g; Exit; Exit] w = Some w' ∧
    active_state w' = Some st' ∧
    kineto_events_ st' = kineto_events_ st ++ [ev_g; ev_f] ∧
    name_ ev_g = name g ∧ name_ ev_f = name f ∧
    correlation_id_ ev_f = corr_id_ w ∧
    correlation_id_ ev_g = wrap_u64 (corr_id_ w + 1) ∧
    start_us_ ev_f = clock w (ticks w) ∧
    start_us_ ev_g = clock w (1 + ticks w) ∧
    duration_us_ ev_g = clock w (2 + ticks w) - clock w (1 + ticks w) ∧
    duration_us_ ev_f = clock w (3 + ticks w) - clock w (ticks w) ∧
    in_flight w' = in_flight w ∧
    correlation_scopes (kineto w') = correlation_scopes (kineto w).
Proof.
  intros Hact Hmode Hbuf Hcb.
  destruct (op_enter_effect f w st cb Hact Hmode Hcb)
    as (w1 & Hen1 & Hfl1 & Hdi1 & Hcb1 & Hclk1 & Hticks1 & Hcorr1 & Hsc1 & _).
  assert (Hact1 : active_state w1 = Some st)
    by (unfold active_state in *; by rewrite Hdi1).
  rewrite Hcb in Hcb1.
  destruct (op_enter_effect g w1 st cb Hact1 Hmode Hcb1)
    as (w2 & Hen2 & Hfl2 & Hdi2 & Hcb2 & Hclk2 & Hticks2 & Hcorr2 & Hsc2 & _).
  assert (Hact2 : active_state w2 = Some st)
    by (unfold active_state in *; by rewrite Hdi2).
  destruct (op_exit_effect g _ _ w2 st buf Hfl2 Hact2 Hmode Hbuf)
    as (w3 & Hex3 & Hdi3 & Hfl3 & Hcb3 & Hclk3 & Hticks3 & Hcorr3 & Hsc3 & _).
  rewrite Hfl1 in Hfl3.
  destruct (op_exit_effect f _ _ w3 _ _ Hfl3
              ltac:(unfold active_state; rewrite Hdi3; reflexivity)
              Hmode eq_refl)
    as (w4 & Hex4 & Hdi4 & Hfl4 & Hcb4 & Hclk4 & Hticks4 & Hcorr4 & Hsc4 & _).
  eexists w4, _, _, _. simpl.
  rewrite Hen1. simpl. rewrite Hen2. simpl. rewrite Hex3. simpl.
  rewrite Hex4. simpl. split; [done|].
  split; [unfold active_state; rewrite Hdi4; reflexivity|].
  simpl. rewrite <- app_assoc. simpl. split; [reflexivity|]. simpl.
  rewrite Hclk3, Hticks3, Hclk2, Hticks2, Hclk1, Hticks1, Hcorr1.
  rewrite Hsc4, Hsc3, Hsc2, Hsc1. by repeat split.
Qed.

(** Operations that run one after the other in a session. *)
Lemma complete_ops_effect (fns : list RecordFunction) (w : World)
    (st : KinetoThreadLocalState) (buf : CpuTraceBuffer)
    (cb : RegisteredCallback) :
  active_state w = Some st → state (config st) = KINETO →
  cpu_trace st = Some buf → callbacks w = [cb] →
  ∃ w' st' buf',
    run (complete_ops fns) w = Some w' ∧
    active_state w' = Some st' ∧ cpu_trace st' = Some buf' ∧
    name_ <$> kineto_events_ st'
    = (name_ <$> kineto_events_ st) ++ (name <$> fns) ∧
    opType <$> ops buf' = (opType <$> ops buf) ++ (name <$> fns) ∧
    in_flight w' = in_flight w ∧
    correlation_scopes (kineto w') = correlation_scopes (kineto w).
Proof.
  revert w st buf.
  induction fns as [|fn fns IH]; intros w st buf Hact Hmode Hbuf Hcb.
  - exists w, st, buf. simpl. rewrite !app_nil_r. by repeat split.
  - destruct (complete_op_effect fn w st buf cb Hact Hmode Hbuf Hcb)
      as (w1 & Hrun1 & Hdi1 & Hfl1 & Hcb1 & _ & _ & _ & Hsc1 & _).
    rewrite Hcb in Hcb1.
    destruct (IH w1 _ _
                ltac:(unfold active_state; rewrite Hdi1; reflexivity)
                Hmode eq_refl Hcb1)
      as (w' & st' & buf' & Hrun & Hact' & Hbuf' & Hnames & Hops & Hfl & Hsc).
    exists w', st', buf'.
    change (complete_ops (fn :: fns))
      with ([Enter fn; Exit] ++ complete_ops fns).
    rewrite run_app, Hrun1. simpl. split; [exact Hrun|].
    split; [done|]. split; [done|].
    cbn [ops kineto_events_] in Hnames, Hops.
    rewrite fmap_app in Hnames. rewrite fmap_app in Hops.
    rewrite <- app_assoc in Hnames. rewrite <- app_assoc in Hops.
    repeat split; try done; congruence.
Qed.

(** X7: operations that run one after the other in a session are recorded
    in that order: the names of the events of the session, and the names
    of the activities of its trace buffer, are extended by the names of
    the operations, in order. *)
Theorem consecutive_ops_in_order (fns : list RecordFunction) (w : World)
    (st : KinetoThreadLocalState) (buf : CpuTraceBuffer)
    (cb : RegisteredCallback) :
  active_state w = Some st → state (config st) = KINETO →
  cpu_trace st = Some buf → callbacks w = [cb] →
  ∃ w' st' buf',
    run (complete_ops fns) w = Some w' ∧
    active_state w' = Some st' ∧ cpu_trace st' = Some buf' ∧
    name_ <$> kineto_events_ st'
    = (name_ <$> kineto_events_ st) ++ (name <$> fns) ∧
    opType <$> ops buf' = (opType <$> ops buf) ++ (name <$> fns).
Proof.
  intros Hact Hmode Hbuf Hcb.
  destruct (complete_ops_effect fns w st buf cb Hact Hmode Hbuf Hcb)
    as (w' & st' & buf' & Hrun & Hact' & Hbuf' & Hnames & Hops & _).
  by exists w', st', buf'.
Qed.

End Operations.

(** * The edges of the lifecycle *)

Section LifecycleEdges.
Context `{CallstackUtils}.

(** What [disableProfiler] does to a session in the backend-tracing mode,
    whether or not the backend hands back a trace. *)
Lemma disableProfiler_effect (w : World) (st : KinetoThreadLocalState)
    (parent : list DebugInfoBase) (buf : CpuTraceBuffer) :
  debug_info w = KinetoTLS st :: parent →
  state (config st) = KINETO →
  cpu_trace st = Some buf →
  ∃ w',
    disableProfiler w
    = (if hands_back_trace (kineto w)
       then Ok (mkProfilerResultWrapper
                  (mkProfilerResult []
                     [event_list_ (base st) ++ ["__stop_profile"]]
                     (mkActivityTrace
                        (transferred (kineto w)
                           ++ [closed_buffer buf (clock w (ticks w))])))) w'
       else Fatal "trace" w') ∧
    debug_info w' = parent ∧
    callbacks w'
    = match handle_ (base st) with
      | Some h => filter (λ cb, cb_handle cb ≠ h) (callbacks w)
      | None => callbacks w
      end ∧
    next_handle w' = next_handle w ∧
    in_flight w' = in_flight w ∧ clock w' = clock w ∧
    ticks w' = S (ticks w) ∧ corr_id_ w' = corr_id_ w ∧
    correlation_scopes (kineto w') = correlation_scopes (kineto w) ∧
    transferred (kineto w')
    = transferred (kineto w) ++ [closed_buffer buf (clock w (ticks w))] ∧
    trace_active (kineto w') = false ∧
    hands_back_trace (kineto w') = hands_back_trace (kineto w).
Proof.
  intros Hslot Hmode Hbuf. unfold disableProfiler, ThreadLocalDebugInfo_pop.
  unfold_m. rewrite Hslot. unfold config in Hmode. simpl.
  rewrite (bool_decide_eq_true_2 _ Hmode). unfold hasCallbackHandle.
  destruct (handle_ (base st)) as [h|] eqn:Hh; simpl; rewrite Hbuf; simpl;
    destruct (hands_back_trace (kineto w)) eqn:Hback; simpl;
    eexists; (split; [reflexivity|]); simpl; done.
Qed.

(** X8: an operation that is between entry and exit when the session is
    disabled is not recorded: the buffer handed to the backend has the
    activities it had before the operation entered, the exit fails
    nothing and takes no reading of the clock, and the correlation scope
    the entry opened stays open in the backend. *)
Theorem exit_after_disable (fn : RecordFunction) (w : World)
    (st : KinetoThreadLocalState) (buf : CpuTraceBuffer)
    (cb : RegisteredCallback) :
  debug_info w = [KinetoTLS st] → state (config st) = KINETO →
  cpu_trace st = Some buf → callbacks w = [cb] →
  ∃ w1 w2 w',
    op_enter fn w = Ok tt w1 ∧
    world_after (disableProfiler w1) = Some w2 ∧
    op_exit w2 = Ok tt w' ∧
    run [Enter fn; Disable; Exit] w = Some w' ∧
    debug_info w' = [] ∧ in_flight w' = in_flight w ∧
    transferred (kineto w')
    = transferred (kineto w)
        ++ [closed_buffer buf (clock w (S (ticks w)))] ∧
    correlation_scopes (kineto w')
    = corr_id_ w :: correlation_scopes (kineto w) ∧
    ticks w' = S (S (ticks w)).
Proof.
  intros Hdi Hmode Hbuf Hcb.
  assert (Hact : active_state w = Some st)
    by (unfold active_state; by rewrite Hdi).
  destruct (op_enter_effect fn w st cb Hact Hmode Hcb)
    as (w1 & Hen & Hfl1 & Hdi1 & Hcb1 & Hclk1 & Hticks1 & Hcorr1 & Hsc1
        & Htr1 & _).
  rewrite Hdi in Hdi1.
  destruct (disableProfiler_effect w1 st [] buf Hdi1 Hmode Hbuf)
    as (w2 & Hdis & Hdi2 & Hcb2 & _ & Hfl2 & Hclk2 & Hticks2 & Hcorr2 & Hsc2
        & Htr2 & _).
  assert (Hafter : world_after (disableProfiler w1) = Some w2).
  { rewrite Hdis. by destruct (hands_back_trace (kineto w1)). }
  assert (Hex : op_exit w2 = Ok tt (set_in_flight (in_flight w) w2)).
  { unfold op_exit. unfold_m. simpl. rewrite Hfl2, Hfl1. simpl.
    unfold_m. rewrite Hfl2, Hfl1. simpl.
    rewrite exit_callback_inactive; [done|].
    unfold active_state. simpl. by rewrite Hdi2. }
  assert (Hperf : world_after (perform Disable w1) = Some w2).
  { simpl. unfold_m. rewrite Hdis.
    by destruct (hands_back_trace (kineto w1)). }
  eexists w1, w2, _. split; [exact Hen|]. split; [exact Hafter|].
  split; [exact Hex|]. split.
  { rewrite (run_cons (Enter fn)).
    change (perform (Enter fn) w) with (op_enter fn w). rewrite Hen.
    change (world_after (Ok tt w1) ≫= run [Disable; Exit])
      with (run [Disable; Exit] w1).
    rewrite (run_cons Disable), Hperf.
    change (Some w2 ≫= run [Exit]) with (run [Exit] w2).
    rewrite (run_cons Exit).
    change (perform Exit w2) with (op_exit w2). by rewrite Hex. }
  simpl. rewrite Hdi2, Htr2, Htr1, Hsc2, Hsc1, Hclk1, Hticks2, Hticks1.
  done.
Qed.

(** X9: when the backend hands back no trace, [disableProfiler] fails, and
    the session is gone all the same: it is off the slot, its callback is
    removed, its trace buffer is with the backend and the trace is
    stopped, so that a second [disableProfiler] finds nothing to
    disable. *)
Theorem disableProfiler_null_trace (w : World) (st : KinetoThreadLocalState)
    (buf : CpuTraceBuffer) (cb : RegisteredCallback) :
  debug_info w = [KinetoTLS st] → state (config st) = KINETO →
  cpu_trace st = Some buf →
  callbacks w = [cb] → handle_ (base st) = Some (cb_handle cb) →
  hands_back_trace (kineto w) = false →
  ∃ w',
    disableProfiler w = Fatal "trace" w' ∧
    debug_info w' = [] ∧ callbacks w' = [] ∧
    transferred (kineto w')
    = transferred (kineto w) ++ [closed_buffer buf (clock w (ticks w))] ∧
    trace_active (kineto w') = false ∧
    ∃ w'',
      disableProfiler w'
      = Fatal "Can't disable Kineto profiler when it's not running" w''.
Proof.
  intros Hdi Hmode Hbuf Hcb Hh Hback.
  destruct (disableProfiler_effect w st [] buf Hdi Hmode Hbuf)
    as (w' & Hdis & Hdi' & Hcb' & _ & _ & _ & _ & _ & _ & Htr & Hactive & _).
  rewrite Hback in Hdis. rewrite Hh, Hcb in Hcb'.
  rewrite filter_cons_False in Hcb' by (by intros ?).
  exists w'. repeat split; try done.
  eexists. unfold disableProfiler, ThreadLocalDebugInfo_pop. unfold_m.
  by rewrite Hdi'.
Qed.

(** X10: a [disableProfiler] that fails because the state on top of the
    slot is not in the backend-tracing mode has already taken that state
    off the slot: the failure leaves the world as it was but for the top
    entry of the slot, which is gone. *)
Theorem disableProfiler_failure_pops (w : World) (p : DebugInfoBase)
    (parent : list DebugInfoBase) :
  debug_info w = p :: parent →
  state (config_ (base_of p)) ≠ KINETO →
  disableProfiler w
  = Fatal "Can't disable Kineto profiler when it's not running"
      (set_debug_info parent w).
Proof.
  intros Hdi Hmode. unfold disableProfiler, ThreadLocalDebugInfo_pop.
  unfold_m. rewrite Hdi. simpl. by rewrite (bool_decide_eq_false_2 _ Hmode).
Qed.

(** What a successful [enableProfiler] does to the parts of the world
    that [disableProfiler] reads. *)
Lemma enableProfiler_effect (config : ProfilerConfig)
    (activities : gset ActivityType) (w : World) :
  state config = KINETO → activities ≠ ∅ → active_state w = None →
  ∃ w',
    enableProfiler config activities w = Ok tt w' ∧
    debug_info w'
    = KinetoTLS (enabled_state config activities w) :: debug_info w ∧
    callbacks w'
    = (if bool_decide (CPU ∈ activities)
       then callbacks w
              ++ [mkRegisteredCallback (next_handle w)
                    (report_input_shapes config) true]
       else callbacks w) ∧
    next_handle w'
    = (if bool_decide (CPU ∈ activities)
       then N.succ (next_handle w) else next_handle w) ∧
    in_flight w' = in_flight w ∧ clock w' = clock w ∧
    ticks w' = S (ticks w) ∧ corr_id_ w' = corr_id_ w ∧
    correlation_scopes (kineto w') = correlation_scopes (kineto w) ∧
    transferred (kineto w') = transferred (kineto w) ∧
    trace_active (kineto w') = true ∧
    hands_back_trace (kineto w') = hands_back_trace (kineto w).
Proof.
  intros Hmode Hacts Hact. unfold enableProfiler.
  rewrite (bool_decide_eq_true_2 _ Hmode), (bool_decide_eq_false_2 _ Hacts).
  unfold_m. simpl. unfold active_state in Hact. rewrite Hact. simpl.
  unfold enabled_state, pushProfilingCallbacks, api_traceActive,
    api_startTrace, modify_cpu_trace.
  unfold_m. simpl.
  destruct (bool_decide (CPU ∈ activities)),
           (trace_active (kineto w)) eqn:Hactive;
    simpl; rewrite ?Hactive; simpl;
    eexists; (split; [reflexivity|]); simpl; done.
Qed.

Lemma filter_other_handles (h : CallbackHandle)
    (cbs : list RegisteredCallback) :
  Forall (λ cb, cb_handle cb ≠ h) cbs →
  filter (λ cb, cb_handle cb ≠ h) cbs = cbs.
Proof.
  induction 1 as [|cb cbs Hcb _ IH]; [done|].
  rewrite filter_cons_True by done. by rewrite IH.
Qed.

(** X11: [enableProfiler] followed at once by [disableProfiler] brings the
    thread back to where it was: the slot, the registered callbacks, the
    invocations in flight and the correlation counter are what they were
    (the callback that was registered is the one that is removed); the
    result has no events and the start and the stop marker as its legacy
    events, and the backend has received one trace buffer without
    activities, named for the profiler, whose span runs from the reading
    of the clock at the enable to the reading at the disable. *)
Theorem enable_disable_round_trip (config : ProfilerConfig)
    (activities : gset ActivityType) (w : World) :
  state config = KINETO → activities ≠ ∅ → active_state w = None →
  handles_fresh w → hands_back_trace (kineto w) = true →
  ∃ w1 r w2,
    enableProfiler config activities w = Ok tt w1 ∧
    disableProfiler w1 = Ok r w2 ∧
    debug_info w2 = debug_info w ∧ callbacks w2 = callbacks w ∧
    in_flight w2 = in_flight w ∧ corr_id_ w2 = corr_id_ w ∧
    events_ (result_ r) = [] ∧
    legacy_events_ (result_ r) = [["__start_profile"; "__stop_profile"]] ∧
    trace_cpu (trace_ (result_ r)) = transferred (kineto w2) ∧
    transferred (kineto w2)
    = transferred (kineto w)
        ++ [mkCpuTraceBuffer
              (mkTraceSpan (clock w (ticks w)) (clock w (S (ticks w)))
                 "PyTorch Profiler")
              (-1) []].
Proof.
  intros Hmode Hacts Hact Hfresh Hback.
  destruct (enableProfiler_effect config activities w Hmode Hacts Hact)
    as (w1 & Hen & Hdi1 & Hcb1 & _ & Hfl1 & Hclk1 & Hticks1 & Hcorr1 & _
        & Htr1 & _ & Hback1).
  destruct (disableProfiler_effect w1 _ _ _ Hdi1 Hmode eq_refl)
    as (w2 & Hdis & Hdi2 & Hcb2 & _ & Hfl2 & _ & _ & Hcorr2 & _ & Htr2 & _).
  rewrite Hback1, Hback in Hdis.
  eexists w1, _, w2. split; [exact Hen|]. split; [exact Hdis|].
  split; [done|]. split.
  { rewrite Hcb2, Hcb1. simpl.
    destruct (bool_decide (CPU ∈ activities)); [|done].
    rewrite filter_app, filter_cons_False by (by intros ?).
    rewrite filter_nil, app_nil_r. apply filter_other_handles.
    eapply Forall_impl; [exact Hfresh|]. intros cb Hcb. simpl in Hcb. lia. }
  split; [congruence|]. split; [congruence|]. split; [done|].
  split; [done|]. simpl. rewrite Htr2, Htr1, Hclk1, Hticks1.
  by split.
Qed.

(** X12: the lifecycle starts over: wherever a run of the bridge from a
    fresh thread has led, once [disableProfiler] has been called, with
    whatever outcome, [enableProfiler] with a config in the
    backend-tracing mode and some activity succeeds and puts a session
    without events on top of the slot. *)
Theorem enable_after_disable (w0 : World) (actions : list Action)
    (config : ProfilerConfig) (activities : gset ActivityType) :
  fresh w0 → state config = KINETO → activities ≠ ∅ →
  ∃ w w' st,
    run (actions ++ [Disable]) w0 = Some w ∧
    enableProfiler config activities w = Ok tt w' ∧
    active_state w' = Some st ∧
    config_ (base st) = config ∧ kineto_events_ st = [].
Proof.
  intros Hfresh Hmode Hacts.
  destruct (fresh_run w0 actions Hfresh) as (w1 & Hrun1 & Hinv1 & _).
  destruct (disableProfiler_Inv w1 Hinv1) as (w & Hw & _ & _ & _ & Hdi).
  assert (Hact : active_state w = None)
    by (unfold active_state; by rewrite Hdi).
  destruct (enableProfiler_effect config activities w Hmode Hacts Hact)
    as (w' & Hen & Hdi' & _).
  exists w, w', (enabled_state config activities w).
  rewrite run_app, Hrun1. simpl. unfold_m.
  split.
  { destruct (disableProfiler w1); simpl in *; by simplify_eq. }
  split; [done|]. unfold active_state. by rewrite Hdi'.
Qed.

Lemma run_entries_inactive (cbs : list RegisteredCallback)
    (fn : RecordFunction) (w : World) :
  match active_state w with
  | Some st => state (config st) ≠ KINETO
  | None => True
  end →
  run_entries cbs fn w
  = Ok (replicate (length cbs) (KinetoCtx new_KinetoObserverContext)) w.
Proof.
  intros Hact. induction cbs as [|cb cbs IH]; [done|].
  simpl. unfold_m. rewrite entry_callback_inactive by done.
  by rewrite IH.
Qed.

Lemma run_exits_inactive (fn : RecordFunction) (ctxs : list ObserverContext)
    (w : World) :
  match active_state w with
  | Some st => state (config st) ≠ KINETO
  | None => True
  end →
  run_exits fn ctxs w = Ok tt w.
Proof.
  intros Hact. induction ctxs as [|ctx ctxs IH]; [done|].
  simpl. unfold_m. rewrite exit_callback_inactive by done. exact IH.
Qed.

(** X13: where the thread has no session in the backend-tracing mode on
    top of its slot, an instrumented operation leaves the world exactly
    as it was, whatever callbacks are registered: each entry callback
    returns the empty marker context without taking a correlation id or
    a reading of the clock, and each exit callback returns at once. *)
Theorem op_without_session (fn : RecordFunction) (w : World) :
  match active_state w with
  | Some st => state (config st) ≠ KINETO
  | None => True
  end →
  run_entries (callbacks w) fn w
  = Ok (replicate (length (callbacks w))
          (KinetoCtx new_KinetoObserverContext)) w ∧
  run [Enter fn; Exit] w = Some w.
Proof.
  intros Hact. split; [by apply run_entries_inactive|].
  simpl. unfold op_enter. unfold_m.
  rewrite run_entries_inactive by done. simpl.
  unfold op_exit. unfold_m. simpl.
  rewrite run_exits_inactive by done. simpl. by destruct w.
Qed.

(** The world of a session for which no callback is registered, between
    operations: no context is kept with any invocation. *)
Lemma op_action_unobserved (a : Action) (w : World) :
  op_action a = true → callbacks w = [] →
  Forall (λ inv, inv.2 = []) (in_flight w) →
  ∃ w',
    world_after (perform a w) = Some w' ∧
    callbacks w' = [] ∧ Forall (λ inv, inv.2 = []) (in_flight w') ∧
    debug_info w' = debug_info w ∧ corr_id_ w' = corr_id_ w ∧
    ticks w' = ticks w.
Proof.
  intros Ha Hcb Hfl. destruct a as [| | |fn| |cs py]; try done; simpl.
  - unfold op_enter. unfold_m. rewrite Hcb. simpl.
    eexists. split; [done|]. simpl. repeat split; try done.
    by apply Forall_cons.
  - unfold op_exit. unfold_m.
    destruct (in_flight w) as [|[fn ctxs] fl] eqn:Hfl'; simpl.
    + exists w. rewrite Hfl'. by repeat split.
    + apply Forall_cons_1 in Hfl as [Hctxs Hfl]. simpl in Hctxs. subst ctxs.
      rewrite Hfl'. simpl. eexists. split; [done|]. by repeat split.
  - eexists. split; [done|]. by repeat split.
Qed.

Lemma op_actions_unobserved (actions : list Action) (w : World) :
  Forall (λ a, op_action a = true) actions → callbacks w = [] →
  Forall (λ inv, inv.2 = []) (in_flight w) →
  ∃ w',
    run actions w = Some w' ∧
    debug_info w' = debug_info w ∧ corr_id_ w' = corr_id_ w ∧
    ticks w' = ticks w.
Proof.
  intros Hactions. revert w.
  induction Hactions as [|a actions Ha _ IH]; intros w Hcb Hfl.
  - by exists w.
  - destruct (op_action_unobserved a w Ha Hcb Hfl)
      as (w1 & Hstep & Hcb1 & Hfl1 & Hdi1 & Hcorr1 & Hticks1).
    destruct (IH w1 Hcb1 Hfl1) as (w' & Hrun & Hdi & Hcorr & Hticks).
    exists w'. simpl. rewrite Hstep. simpl.
    split; [done|]. repeat split; congruence.
Qed.

(** X14: a session that is enabled without CPU activity records no
    operation: no callback is registered, and whatever operations enter
    and exit afterwards, nested or not, the session stays as
    [enableProfiler] left it, without events and without activities, and
    no correlation id and no reading of the clock is taken. *)
Theorem session_without_cpu_activity (config : ProfilerConfig)
    (activities : gset ActivityType) (actions : list Action) (w : World) :
  fresh w → state config = KINETO → activities ≠ ∅ → CPU ∉ activities →
  Forall (λ a, op_action a = true) actions →
  ∃ w1 w' st buf,
    enableProfiler config activities w = Ok tt w1 ∧
    callbacks w1 = [] ∧
    run actions w1 = Some w' ∧
    debug_info w' = debug_info w1 ∧
    active_state w' = Some st ∧ kineto_events_ st = [] ∧
    cpu_trace st = Some buf ∧ ops buf = [] ∧
    corr_id_ w' = corr_id_ w ∧ ticks w' = ticks w1.
Proof.
  intros (_ & Hdi & Hcb & Hfl & _) Hmode Hacts Hcpu Hactions.
  destruct (enableProfiler_effect config activities w Hmode Hacts)
    as (w1 & Hen & Hdi1 & Hcb1 & _ & Hfl1 & _ & _ & Hcorr1 & _);
    [by unfold active_state; rewrite Hdi|].
  rewrite (bool_decide_eq_false_2 _ Hcpu), Hcb in Hcb1.
  destruct (op_actions_unobserved actions w1 Hactions Hcb1)
    as (w' & Hrun & Hdi' & Hcorr' & Hticks');
    [by rewrite Hfl1, Hfl|].
  eexists w1, w', _, _. split; [exact Hen|]. split; [exact Hcb1|].
  split; [exact Hrun|]. split; [exact Hdi'|].
  split; [unfold active_state; rewrite Hdi', Hdi1; reflexivity|].
  split; [reflexivity|]. split; [reflexivity|]. split; [reflexivity|].
  split; congruence.
Qed.

(** X15: [prepareProfiler] checks the mode before anything else: for a
    config that is not in the backend-tracing mode it fails without a
    call to the backend, and the world is what it was. *)
Theorem prepareProfiler_wrong_mode (config : ProfilerConfig)
    (activities : gset ActivityType) (w : World) :
  state config ≠ KINETO →
  prepareProfiler config activities w
  = Fatal "Supported only in Kineto profiler" w.
Proof.
  intros Hmode. unfold prepareProfiler.
  by rewrite (bool_decide_eq_false_2 _ Hmode).
Qed.

End LifecycleEdges.

(** X16: the mapping of activities is additive: the categories prepared
    for the union of two requests are the union of the categories
    prepared for each, a larger request prepares no fewer categories,
    the empty request prepares none, and the CUDA runtime category is
    prepared as soon as CPU or CUDA activity is requested. *)
Theorem k_activities_of_union (a b : gset ActivityType) :
  k_activities_of (a ∪ b) = k_activities_of a ∪ k_activities_of b ∧
  (a ⊆ b → k_activities_of a ⊆ k_activities_of b) ∧
  k_activities_of ∅ = ∅ ∧
  (CUDA_RUNTIME ∈ k_activities_of a ↔ CPU ∈ a ∨ CUDA ∈ a).
Proof.
  split; [|split; [|split]].
  - apply set_eq. intros k.
    rewrite elem_of_union, !k_activities_of_spec, !elem_of_union.
    naive_solver.
  - intros Hab k. rewrite !k_activities_of_spec. set_solver.
  - apply set_eq. intros k. rewrite k_activities_of_spec. set_solver.
  - rewrite k_activities_of_spec. naive_solver.
Qed.

(** * Handles and correlation ids *)

Section Uniqueness.
Context `{CallstackUtils}.

(** X17: [pushProfilingCallbacks] fails, registering nothing, when the
    thread has no session of the bridge; with a session it registers one
    callback pair that needs ids, and needs inputs exactly when the
    session reports input shapes, under a handle that no registered
    callback has, and stores that handle in the session; the handles of
    the registered callbacks stay distinct. *)
Theorem pushProfilingCallbacks_registers (w : World) :
  (active_state w = None →
   pushProfilingCallbacks w = Fatal "Expected profiler state set" w) ∧
  (∀ st,
     active_state w = Some st → handles_fresh w →
     NoDup (cb_handle <$> callbacks w) →
     ∃ w',
       pushProfilingCallbacks w = Ok tt w' ∧
       callbacks w'
       = callbacks w
           ++ [mkRegisteredCallback (next_handle w)
                 (report_input_shapes (config st)) true] ∧
       (next_handle w ∉ (cb_handle <$> callbacks w)) ∧
       active_state w' = Some (setCallbackHandle (next_handle w) st) ∧
       handles_fresh w' ∧ NoDup (cb_handle <$> callbacks w')).
Proof.
  split.
  - intros Hact. unfold pushProfilingCallbacks.
    rewrite (bind_Ok _ _ _ _ _ (getProfilerTLSState_eq w)), Hact. done.
  - intros st Hact Hfresh Hdup.
    pose proof (active_state_top w st Hact) as Hdi.
    assert (Hnew : next_handle w ∉ (cb_handle <$> callbacks w)).
    { intros (cb & Heq & Hcb)%list_elem_of_fmap.
      apply (proj1 (Forall_forall _ _) Hfresh) in Hcb. simpl in Hcb. lia. }
    unfold pushProfilingCallbacks.
    rewrite (bind_Ok _ _ _ _ _ (getProfilerTLSState_eq w)), Hact.
    unfold addThreadLocalCallback, modify_top. unfold_m. simpl.
    rewrite Hdi. eexists. split; [reflexivity|]. simpl.
    split; [done|]. split; [done|].
    split; [unfold active_state; reflexivity|]. split.
    + unfold handles_fresh. simpl. apply Forall_app. split.
      * eapply Forall_impl; [exact Hfresh|]. intros cb Hcb. simpl in Hcb. lia.
      * apply Forall_singleton. simpl. lia.
    + rewrite fmap_app. simpl. apply NoDup_app. split; [done|].
      split; [|apply NoDup_singleton].
      intros h Hh ->%list_elem_of_singleton. done.
Qed.

(** X18: a context that is not of the bridge is refused: in a session in
    the backend-tracing mode the exit callback fails on it by its
    internal assertion, and [reportClientActivity] fails on it by its
    check; in both cases nothing is appended, no reading of the clock is
    taken and the correlation scope is not closed: the world is what it
    was. *)
Theorem foreign_context_refused (fn : RecordFunction) (w : World)
    (st : KinetoThreadLocalState) :
  active_state w = Some st → state (config st) = KINETO →
  exit_callback fn ForeignCtx w = Fatal "kineto_ctx_ptr != nullptr" w ∧
  reportClientActivity st fn ForeignCtx w = Fatal "ctx" w.
Proof.
  intros Hact Hmode. split; [|done].
  unfold exit_callback.
  rewrite (bind_Ok _ _ _ _ _ (getProfilerTLSState_eq w)), Hact.
  by rewrite bool_decide_eq_false_2 by (by intros ?).
Qed.

Lemma session_ids_slot (w : World) (st : KinetoThreadLocalState)
    (parent : list DebugInfoBase) :
  debug_info w = KinetoTLS st :: parent →
  session_ids w = correlation_id_ <$> kineto_events_ st.
Proof. intros Hdi. unfold session_ids, active_state. by rewrite Hdi. Qed.

Lemma session_ids_empty (w : World) : debug_info w = [] → session_ids w = [].
Proof. intros Hdi. unfold session_ids, active_state. by rewrite Hdi. Qed.

Lemma exit_callback_ids (fn : RecordFunction) (ctx : ObserverContext)
    (w : World) :
  Inv w →
  ∃ w' rec,
    world_after (exit_callback fn ctx w) = Some w' ∧
    rec `sublist_of` ctx_ids [ctx] ∧
    session_ids w' = session_ids w ++ rec ∧
    in_flight w' = in_flight w ∧ corr_id_ w' = corr_id_ w.
Proof.
  intros [Hshape _].
  destruct Hshape as [[Hdi Hcb]|(st & buf & Hdi & Hmode & Hcbs & Hbuf & Hlen)].
  - rewrite exit_callback_inactive
      by (unfold active_state; by rewrite Hdi).
    exists w, []. rewrite app_nil_r. repeat split; try done.
    apply sublist_nil_l.
  - destruct ctx as [ctx|].
    + destruct (exit_callback_records fn ctx w st [] buf Hdi Hmode Hbuf)
        as (w' & ev & op & Hexit & Hdi' & _ & _ & _ & _ & _ & _ & _ & Hid
            & _ & Hfl & _ & _ & Hcorr & _).
      exists w', [correlationId ctx]. rewrite Hexit.
      split; [done|]. split; [done|].
      rewrite (session_ids_slot _ _ _ Hdi'), (session_ids_slot _ _ _ Hdi).
      simpl. rewrite fmap_app. simpl. by rewrite Hid.
    + destruct (exit_callback_foreign fn w st) as [msg Hexit];
        [by unfold active_state; rewrite Hdi|done|].
      exists w, []. rewrite Hexit, app_nil_r. repeat split; try done.
Qed.

Lemma run_exits_ids (fn : RecordFunction) (ctxs : list ObserverContext)
    (w : World) :
  Inv w → (monotonic (clock w) → Forall (ctx_ok w) ctxs) →
  ∃ w' rec,
    world_after (run_exits fn ctxs w) = Some w' ∧
    rec `sublist_of` ctx_ids ctxs ∧
    session_ids w' = session_ids w ++ rec ∧
    in_flight w' = in_flight w ∧ corr_id_ w' = corr_id_ w.
Proof.
  revert w. induction ctxs as [|ctx ctxs IH]; intros w Hinv Hctxs.
  - exists w, []. by rewrite app_nil_r.
  - destruct (exit_callback_Inv fn ctx w Hinv)
      as (w1 & Hexit & Hinv1 & Hclk1 & Hticks1 & _).
    { intros Hmono. by eapply Forall_cons_1, Hctxs. }
    destruct (exit_callback_ids fn ctx w Hinv)
      as (w1' & rec1 & Hexit' & Hsub1 & Hids1 & Hfl1 & Hcorr1).
    rewrite Hexit in Hexit'. simplify_eq.
    simpl in Hsub1. rewrite app_nil_r in Hsub1.
    simpl run_exits. unfold mbind, M_bind.
    destruct (exit_callback fn ctx w) as [[] w1|msg w1|]; simplify_eq/=.
    + destruct (IH w1' Hinv1)
        as (w2 & rec2 & Hrun & Hsub2 & Hids2 & Hfl2 & Hcorr2).
      { rewrite Hclk1. intros Hmono.
        eapply Forall_impl; [by eapply Forall_cons_1, Hctxs|].
        intros c. by apply ctx_ok_later. }
      exists w2, (rec1 ++ rec2). split; [done|].
      split; [by apply sublist_app|].
      rewrite Hids2, Hids1, <- app_assoc. split; [done|].
      split; congruence.
    + exists w1', rec1. split; [done|].
      split; [by apply sublist_inserts_r|]. done.
Qed.

Lemma ids_unique_sublist (n : Z) (w w' : World) :
  live_ids w' `sublist_of` live_ids w → corr_id_ w' = corr_id_ w →
  ids_unique n w → ids_unique (n + 1) w'.
Proof.
  intros Hsub Hcorr (Hrange & Hdup & Hall). unfold ids_unique.
  rewrite Hcorr. split; [lia|]. split; [by eapply sublist_NoDup|].
  apply Forall_forall. intros id Hid.
  apply (proj1 (Forall_forall _ _) Hall). by eapply elem_of_sublist.
Qed.

Lemma ids_unique_same (n : Z) (w w' : World) :
  debug_info w' = debug_info w → in_flight w' = in_flight w →
  corr_id_ w' = corr_id_ w →
  ids_unique n w → ids_unique (n + 1) w'.
Proof.
  intros Hdi Hfl Hcorr. apply ids_unique_sublist; [|done].
  unfold live_ids, session_ids, active_state. by rewrite Hdi, Hfl.
Qed.

Lemma perform_ids (a : Action) (w : World) (n : Z) :
  Inv w → ids_unique n w → n + 2 < UINT64_MOD →
  ∃ w', world_after (perform a w) = Some w' ∧ ids_unique (n + 1) w'.
Proof.
  intros Hinv Hids Hn. pose proof Hinv as [Hshape Htimed].
  destruct a as [config acts|config acts| |fn| |cs py]; simpl.
  - unfold prepareProfiler. unfold_m.
    destruct (bool_decide (state config = KINETO)); simpl;
      eexists; (split; [done|]); by apply (ids_unique_same n w).
  - destruct (decide (state config = KINETO)) as [Hmode|Hmode];
      [destruct (decide (acts = ∅)) as [Hacts|Hacts];
       [|destruct (active_state w) as [st|] eqn:Hact]|].
    4: { destruct (enableProfiler_Fatal config acts w) as [msg ->]; [auto|].
         exists w. split; [done|]. by apply (ids_unique_same n w). }
    1: { destruct (enableProfiler_Fatal config acts w) as [msg ->]; [auto|].
         exists w. split; [done|]. by apply (ids_unique_same n w). }
    1: { destruct (enableProfiler_Fatal config acts w) as [msg ->].
         { right; right. by eexists. }
         exists w. split; [done|]. by apply (ids_unique_same n w). }
    destruct (enableProfiler_effect config acts w Hmode Hacts Hact)
      as (w' & -> & Hdi' & _ & _ & Hfl & _ & _ & Hcorr & _).
    exists w'. split; [done|]. apply (ids_unique_sublist n w); [|done..].
    unfold live_ids. rewrite Hfl, (session_ids_slot _ _ _ Hdi').
    apply sublist_inserts_l. done.
  - destruct Hshape
      as [[Hdi Hcb]|(st & buf & Hdi & Hmode & Hcbs & Hbuf & Hlen)].
    + destruct (disableProfiler_Fatal w) as [msg Hf]; [by rewrite Hdi|].
      unfold_m. rewrite Hf. eexists. split; [done|].
      apply (ids_unique_same n w); try done. simpl. by rewrite Hdi.
    + destruct (disableProfiler_effect w st [] buf Hdi Hmode Hbuf)
        as (w' & Hdis & Hdi' & _ & _ & Hfl & _ & _ & Hcorr & _).
      exists w'. split.
      { unfold_m. rewrite Hdis.
        by destruct (hands_back_trace (kineto w)). }
      apply (ids_unique_sublist n w); [|done..].
      unfold live_ids. rewrite Hfl, (session_ids_empty _ Hdi').
      by apply sublist_inserts_l.
  - assert (Hnone : callbacks w = [] →
      ∃ w', world_after (op_enter fn w) = Some w' ∧ ids_unique (n + 1) w').
    { intros Hcb. unfold op_enter. unfold_m. rewrite Hcb. simpl.
      eexists. split; [done|]. apply (ids_unique_sublist n w); [|done..].
      unfold live_ids, flight_ids. done. }
    destruct Hshape
      as [[Hdi Hcb]|(st & buf & Hdi & Hmode & Hcbs & Hbuf & Hlen)];
      [by apply Hnone|].
    unfold callbacks_match in Hcbs.
    destruct (handle_ (base st)) as [h|]; [|by apply Hnone].
    destruct Hcbs as (cb & Hcb & _).
    destruct (op_enter_effect fn w st cb) as
      (w' & -> & Hfl & Hdi' & _ & _ & _ & Hcorr & _);
      [by unfold active_state; rewrite Hdi|done|done|].
    exists w'. split; [done|].
    destruct Hids as (Hrange & Hdup & Hall). unfold ids_unique.
    assert (Hwrap : wrap_u64 (corr_id_ w + 1) = corr_id_ w + 1).
    { unfold wrap_u64. apply Z.mod_small. lia. }
    rewrite Hcorr, Hwrap. split; [lia|].
    assert (Hlive : live_ids w'
                    ≡ₚ corr_id_ w :: live_ids w).
    { unfold live_ids, session_ids, active_state.
      rewrite Hfl, Hdi'. unfold flight_ids. simpl.
      by rewrite Permutation_middle. }
    rewrite Hlive. split.
    + apply NoDup_cons. split; [|done]. intros Hin.
      apply (proj1 (Forall_forall _ _) Hall) in Hin. lia.
    + apply Forall_cons. split; [lia|].
      eapply Forall_impl; [exact Hall|]. intros id Hid. simpl in Hid. lia.
  - unfold op_exit. unfold_m.
    destruct (in_flight w) as [|[fn ctxs] fl] eqn:Hfl; simpl.
    + exists w. split; [done|]. by apply (ids_unique_same n w).
    + rewrite Hfl. simpl.
      destruct (run_exits_ids fn ctxs (set_in_flight fl w))
        as (w' & rec & Hrun & Hsub & Hsess & Hfl' & Hcorr).
      * apply Inv_set_in_flight; [done|]. intros Hmono.
        destruct (Htimed Hmono) as (_ & Hflight & _).
        rewrite Hfl in Hflight. by eapply Forall_cons_1.
      * simpl. intros Hmono. destruct (Htimed Hmono) as (_ & Hflight & _).
        rewrite Hfl in Hflight. by apply Forall_cons_1 in Hflight as [? _].
      * exists w'. split.
        { destruct (run_exits fn ctxs (set_in_flight fl w)) as [[] ?| |];
            done. }
        apply (ids_unique_sublist n w); [|done..].
        unfold live_ids. rewrite Hsess, Hfl', Hfl. simpl.
        change (session_ids (set_in_flight fl w)) with (session_ids w).
        unfold flight_ids. simpl. rewrite <- app_assoc.
        apply sublist_app; [done|]. by apply sublist_app.
  - eexists. split; [done|]. by apply (ids_unique_same n w).
Qed.

Lemma run_ids (actions : list Action) (w : World) (n : Z) :
  Inv w → ids_unique n w →
  n + Z.of_nat (length actions) + 1 < UINT64_MOD →
  ∃ w', run actions w = Some w' ∧
        ids_unique (n + Z.of_nat (length actions)) w'.
Proof.
  revert w n. induction actions as [|a actions IH]; intros w n Hinv Hids Hn.
  - exists w. simpl. by rewrite Z.add_0_r.
  - simpl length in *. rewrite Nat2Z.inj_succ in *.
    destruct (perform_Inv a w Hinv) as (w1 & Hstep & Hinv1 & _).
    destruct (perform_ids a w n Hinv Hids) as (w1' & Hstep' & Hids1); [lia|].
    rewrite Hstep in Hstep'. simplify_eq.
    destruct (IH w1' (n + 1) Hinv1 Hids1) as (w' & Hrun & Hids'); [lia|].
    exists w'. simpl. rewrite Hstep. simpl. split; [done|].
    by replace (n + Z.succ (Z.of_nat (length actions)))
      with (n + 1 + Z.of_nat (length actions)) by lia.
Qed.

(** X19: in every world a run of fewer than [2^64 - 1] actions of the
    bridge reaches from a fresh thread, the correlation ids of the events
    of the active session and of the operations between entry and exit
    are pairwise distinct, and every event of the session has an id
    between 1 and the number of actions. *)
Theorem correlation_ids_unique (w0 : World) (actions : list Action) :
  fresh w0 → Z.of_nat (length actions) + 1 < UINT64_MOD →
  ∃ w,
    run actions w0 = Some w ∧
    NoDup (session_ids w ++ flight_ids (in_flight w)) ∧
    ∀ st,
      active_state w = Some st →
      NoDup (correlation_id_ <$> kineto_events_ st) ∧
      Forall (λ ev, 1 ≤ correlation_id_ ev ≤ Z.of_nat (length actions))
        (kineto_events_ st).
Proof.
  intros Hfresh Hn.
  destruct (run_ids actions w0 0 (fresh_Inv w0 Hfresh)) as (w & Hrun & Hids).
  - destruct Hfresh as (Hcorr & Hdi & _ & Hfl & _).
    unfold ids_unique, live_ids. rewrite Hcorr, Hfl, (session_ids_empty _ Hdi).
    unfold corr_id_init. split; [lia|]. split; constructor.
  - lia.
  - exists w. split; [done|].
    destruct Hids as (Hrange & Hdup & Hall). split; [done|].
    intros st Hst. unfold live_ids, session_ids in Hdup, Hall.
    rewrite Hst in Hdup, Hall.
    apply NoDup_app in Hdup as (Hdup & _ & _). split; [done|].
    apply Forall_app in Hall as [Hall _].
    apply Forall_fmap in Hall. eapply Forall_impl; [exact Hall|].
    intros ev Hev. simpl in Hev. lia.
Qed.

(** The counter and the ids in use stay values of a [uint64_t], however
    long the run. *)
Lemma ids_ranged_sublist (w w' : World) :
  live_ids w' `sublist_of` live_ids w → corr_id_ w' = corr_id_ w →
  ids_ranged w → ids_ranged w'.
Proof.
  intros Hsub Hcorr (Hrange & Hall). unfold ids_ranged.
  rewrite Hcorr. split; [done|].
  apply Forall_forall. intros id Hid.
  apply (proj1 (Forall_forall _ _) Hall). by eapply elem_of_sublist.
Qed.

Lemma ids_ranged_same (w w' : World) :
  debug_info w' = debug_info w → in_flight w' = in_flight w →
  corr_id_ w' = corr_id_ w →
  ids_ranged w → ids_ranged w'.
Proof.
  intros Hdi Hfl Hcorr. apply ids_ranged_sublist; [|done].
  unfold live_ids, session_ids, active_state. by rewrite Hdi, Hfl.
Qed.

Lemma perform_ranged (a : Action) (w : World) :
  Inv w → ids_ranged w →
  ∃ w', world_after (perform a w) = Some w' ∧ ids_ranged w'.
Proof.
  intros Hinv Hids. pose proof Hinv as [Hshape Htimed].
  destruct a as [config acts|config acts| |fn| |cs py]; simpl.
  - unfold prepareProfiler. unfold_m.
    destruct (bool_decide (state config = KINETO)); simpl;
      eexists; (split; [done|]); by apply (ids_ranged_same w).
  - destruct (decide (state config = KINETO)) as [Hmode|Hmode];
      [destruct (decide (acts = ∅)) as [Hacts|Hacts];
       [|destruct (active_state w) as [st|] eqn:Hact]|].
    4: { destruct (enableProfiler_Fatal config acts w) as [msg ->]; [auto|].
         by exists w. }
    1: { destruct (enableProfiler_Fatal config acts w) as [msg ->]; [auto|].
         by exists w. }
    1: { destruct (enableProfiler_Fatal config acts w) as [msg ->].
         { right; right. by eexists. }
         by exists w. }
    destruct (enableProfiler_effect config acts w Hmode Hacts Hact)
      as (w' & -> & Hdi' & _ & _ & Hfl & _ & _ & Hcorr & _).
    exists w'. split; [done|]. apply (ids_ranged_sublist w); [|done..].
    unfold live_ids. rewrite Hfl, (session_ids_slot _ _ _ Hdi').
    apply sublist_inserts_l. done.
  - destruct Hshape
      as [[Hdi Hcb]|(st & buf & Hdi & Hmode & Hcbs & Hbuf & Hlen)].
    + destruct (disableProfiler_Fatal w) as [msg Hf]; [by rewrite Hdi|].
      unfold_m. rewrite Hf. eexists. split; [done|].
      apply (ids_ranged_same w); try done. simpl. by rewrite Hdi.
    + destruct (disableProfiler_effect w st [] buf Hdi Hmode Hbuf)
        as (w' & Hdis & Hdi' & _ & _ & Hfl & _ & _ & Hcorr & _).
      exists w'. split.
      { unfold_m. rewrite Hdis.
        by destruct (hands_back_trace (kineto w)). }
      apply (ids_ranged_sublist w); [|done..].
      unfold live_ids. rewrite Hfl, (session_ids_empty _ Hdi').
      by apply sublist_inserts_l.
  - assert (Hnone : callbacks w = [] →
      ∃ w', world_after (op_enter fn w) = Some w' ∧ ids_ranged w').
    { intros Hcb. unfold op_enter. unfold_m. rewrite Hcb. simpl.
      eexists. split; [done|]. apply (ids_ranged_sublist w); [|done..].
      unfold live_ids, flight_ids. done. }
    destruct Hshape
      as [[Hdi Hcb]|(st & buf & Hdi & Hmode & Hcbs & Hbuf & Hlen)];
      [by apply Hnone|].
    unfold callbacks_match in Hcbs.
    destruct (handle_ (base st)) as [h|]; [|by apply Hnone].
    destruct Hcbs as (cb & Hcb & _).
    destruct (op_enter_effect fn w st cb) as
      (w' & -> & Hfl & Hdi' & _ & _ & _ & Hcorr & _);
      [by unfold active_state; rewrite Hdi|done|done|].
    exists w'. split; [done|].
    destruct Hids as (Hrange & Hall). unfold ids_ranged.
    rewrite Hcorr. split.
    { unfold wrap_u64. apply Z.mod_pos_bound. by unfold UINT64_MOD. }
    assert (Hlive : live_ids w'
                    ≡ₚ corr_id_ w :: live_ids w).
    { unfold live_ids, session_ids, active_state.
      rewrite Hfl, Hdi'. unfold flight_ids. simpl.
      by rewrite Permutation_middle. }
    rewrite Hlive. by apply Forall_cons.
  - unfold op_exit. unfold_m.
    destruct (in_flight w) as [|[fn ctxs] fl] eqn:Hfl; simpl.
    + by exists w.
    + rewrite Hfl. simpl.
      destruct (run_exits_ids fn ctxs (set_in_flight fl w))
        as (w' & rec & Hrun & Hsub & Hsess & Hfl' & Hcorr).
      * apply Inv_set_in_flight; [done|]. intros Hmono.
        destruct (Htimed Hmono) as (_ & Hflight & _).
        rewrite Hfl in Hflight. by eapply Forall_cons_1.
      * simpl. intros Hmono. destruct (Htimed Hmono) as (_ & Hflight & _).
        rewrite Hfl in Hflight. by apply Forall_cons_1 in Hflight as [? _].
      * exists w'. split.
        { destruct (run_exits fn ctxs (set_in_flight fl w)) as [[] ?| |];
            done. }
        apply (ids_ranged_sublist w); [|done..].
        unfold live_ids. rewrite Hsess, Hfl', Hfl. simpl.
        change (session_ids (set_in_flight fl w)) with (session_ids w).
        unfold flight_ids. simpl. rewrite <- app_assoc.
        apply sublist_app; [done|]. by apply sublist_app.
  - eexists. split; [done|]. by apply (ids_ranged_same w).
Qed.

Lemma run_ranged (actions : list Action) (w0 : World) :
  fresh w0 →
  ∃ w, run actions w0 = Some w ∧ ids_ranged w.
Proof.
  intros Hfresh.
  assert (Hrun : ∀ acts w, Inv w → ids_ranged w →
            ∃ w', run acts w = Some w' ∧ ids_ranged w').
  { intros acts. induction acts as [|a acts IH]; intros w Hinv Hids.
    - by exists w.
    - destruct (perform_Inv a w Hinv) as (w1 & Hstep & Hinv1 & _).
      destruct (perform_ranged a w Hinv Hids) as (w1' & Hstep' & Hids1).
      rewrite Hstep in Hstep'. simplify_eq.
      destruct (IH w1' Hinv1 Hids1) as (w' & Hrun & Hids').
      exists w'. simpl. rewrite Hstep. by simpl. }
  apply Hrun; [by apply fresh_Inv|].
  destruct Hfresh as (Hcorr & Hdi & _ & Hfl & _).
  unfold ids_ranged, live_ids. rewrite Hcorr, Hfl, (session_ids_empty _ Hdi).
  unfold corr_id_init, UINT64_MOD. split; [lia|]. constructor.
Qed.

End Uniqueness.

(** * What holds of every session *)

Section SessionInvariants.
Context `{CallstackUtils}.

Lemma exit_callback_state (fn : RecordFunction) (ctx : ObserverContext)
    (w : World) :
  Inv w →
  ∃ w',
    world_after (exit_callback fn ctx w) = Some w' ∧
    (debug_info w' = debug_info w ∨
     ∃ st buf c,
       debug_info w = [KinetoTLS st] ∧ cpu_trace st = Some buf ∧
       debug_info w'
       = [KinetoTLS
            (recorded_state st buf fn c (currentThreadId w)
               (clock w (ticks w)) (pthread_self w))]).
Proof.
  intros [Hshape _].
  destruct Hshape as [[Hdi Hcb]|(st & buf & Hdi & Hmode & Hcbs & Hbuf & Hlen)].
  - rewrite exit_callback_inactive
      by (unfold active_state; by rewrite Hdi).
    exists w. split; [done|]. by left.
  - destruct ctx as [ctx|].
    + unfold exit_callback.
      rewrite (bind_Ok _ _ _ _ _ (getProfilerTLSState_eq w)).
      unfold active_state. rewrite Hdi. simpl.
      rewrite bool_decide_eq_false_2 by (by intros ?).
      unfold reportClientActivity, store_top, modify_top, getTimeUs,
        api_popCorrelationId.
      unfold_m. simpl. rewrite Hbuf. simpl. rewrite Hdi.
      eexists. split; [reflexivity|]. right. exists st, buf, ctx.
      split; [done|]. split; [done|]. simpl. unfold recorded_state, kept.
      destruct (shapes ctx) as [[|??]|], (stack ctx) as [[|??]|]; done.
    + destruct (exit_callback_foreign fn w st) as [msg Hexit];
        [by unfold active_state; rewrite Hdi|done|].
      rewrite Hexit. exists w. split; [done|]. by left.
Qed.

Lemma entry_callback_frame (fn : RecordFunction) (w : World) :
  ∃ ctx w', entry_callback fn w = Ok ctx w' ∧ debug_info w' = debug_info w.
Proof.
  destruct (active_state w) as [st|] eqn:Hact.
  - destruct (decide (state (config st) = KINETO)) as [Hmode|Hmode].
    + destruct (entry_callback_active fn w st Hact Hmode)
        as (w' & Hentry & Hdi & _).
      by eexists _, w'.
    + exists (KinetoCtx new_KinetoObserverContext), w.
      split; [|done]. apply entry_callback_inactive. by rewrite Hact.
  - exists (KinetoCtx new_KinetoObserverContext), w.
    split; [|done]. apply entry_callback_inactive. by rewrite Hact.
Qed.

Lemma run_entries_frame (cbs : list RegisteredCallback) (fn : RecordFunction)
    (w : World) :
  ∃ ctxs w', run_entries cbs fn w = Ok ctxs w' ∧ debug_info w' = debug_info w.
Proof.
  revert w. induction cbs as [|cb cbs IH]; intros w; [by eexists _, w|].
  destruct (entry_callback_frame fn w) as (ctx & w1 & Hentry & Hdi1).
  destruct (IH w1) as (ctxs & w' & Hrun & Hdi').
  exists (ctx :: ctxs), w'. simpl. unfold_m. rewrite Hentry, Hrun.
  split; [done|]. congruence.
Qed.

Lemma op_enter_frame (fn : RecordFunction) (w : World) :
  ∃ w', op_enter fn w = Ok tt w' ∧ debug_info w' = debug_info w.
Proof.
  destruct (run_entries_frame (callbacks w) fn w) as (ctxs & w1 & Hrun & Hdi).
  unfold op_enter. unfold_m. rewrite Hrun. by eexists.
Qed.

(** A property of sessions that holds of the session [enableProfiler]
    makes and is kept when an exit is recorded holds of the active session
    of every world a run of the bridge reaches from a fresh thread. *)
Lemma session_invariant (Q : KinetoThreadLocalState → Prop) :
  (∀ config activities w, Q (enabled_state config activities w)) →
  (∀ st buf fn ctx tid now self,
     Q st → cpu_trace st = Some buf →
     Q (recorded_state st buf fn ctx tid now self)) →
  ∀ w0 actions,
    fresh w0 →
    ∃ w, run actions w0 = Some w ∧ ∀ st, active_state w = Some st → Q st.
Proof.
  intros Hstart Hstep w0 actions Hfresh.
  set (P := λ w : World, ∀ st, active_state w = Some st → Q st).
  assert (Hsame : ∀ w w', debug_info w' = debug_info w → P w → P w').
  { intros w w' Hdi HP st. unfold active_state. rewrite Hdi. apply HP. }
  assert (Hexit : ∀ fn ctx w, Inv w → P w →
            ∃ w', world_after (exit_callback fn ctx w) = Some w' ∧ P w').
  { intros fn ctx w Hinv HP.
    destruct (exit_callback_state fn ctx w Hinv)
      as (w' & Hw' & [Hdi|(st & buf & c & Hdi & Hbuf & Hdi')]).
    - exists w'. split; [done|]. by apply (Hsame w).
    - exists w'. split; [done|]. intros st'. unfold active_state.
      rewrite Hdi'. simpl. intros [= <-]. apply Hstep; [|done].
      apply HP. unfold active_state. by rewrite Hdi. }
  assert (Hexits : ∀ fn ctxs w, Inv w →
            (monotonic (clock w) → Forall (ctx_ok w) ctxs) → P w →
            ∃ w', world_after (run_exits fn ctxs w) = Some w' ∧ P w').
  { intros fn ctxs. induction ctxs as [|ctx ctxs IH]; intros w Hinv Hctxs HP.
    - by exists w.
    - destruct (exit_callback_Inv fn ctx w Hinv)
        as (w1 & Hex & Hinv1 & Hclk1 & Hticks1 & _).
      { intros Hmono. by eapply Forall_cons_1, Hctxs. }
      destruct (Hexit fn ctx w Hinv HP) as (w1' & Hex' & HP1).
      rewrite Hex in Hex'. simplify_eq.
      simpl run_exits. unfold mbind, M_bind.
      destruct (exit_callback fn ctx w) as [[] w1|msg w1|]; simplify_eq/=.
      + apply IH; [done| |done]. rewrite Hclk1. intros Hmono.
        eapply Forall_impl; [by eapply Forall_cons_1, Hctxs|].
        intros c. by apply ctx_ok_later.
      + by exists w1'. }
  assert (Hperform : ∀ a w, Inv w → P w →
            ∃ w', world_after (perform a w) = Some w' ∧ P w').
  { intros a w Hinv HP. pose proof Hinv as [Hshape Htimed].
    destruct a as [config acts|config acts| |fn| |cs py]; simpl.
    - unfold prepareProfiler. unfold_m.
      destruct (bool_decide (state config = KINETO)); simpl;
        eexists; (split; [done|]); by apply (Hsame w).
    - destruct (decide (state config = KINETO)) as [Hmode|Hmode];
        [destruct (decide (acts = ∅)) as [Hacts|Hacts];
         [|destruct (active_state w) as [st|] eqn:Hact]|].
      4: { destruct (enableProfiler_Fatal config acts w) as [msg ->]; [auto|].
           by exists w. }
      1: { destruct (enableProfiler_Fatal config acts w) as [msg ->]; [auto|].
           by exists w. }
      1: { destruct (enableProfiler_Fatal config acts w) as [msg ->].
           { right; right. by eexists. }
           by exists w. }
      destruct (enableProfiler_Ok config acts w Hmode Hacts Hact)
        as (w' & -> & Hdi' & _).
      exists w'. split; [done|]. intros st. unfold active_state.
      rewrite Hdi'. simpl. intros [= <-]. apply Hstart.
    - destruct (disableProfiler_Inv w Hinv) as (w' & Hw' & _ & _ & _ & Hdi).
      exists w'. split.
      { unfold_m. destruct (disableProfiler w); done. }
      intros st. unfold active_state. by rewrite Hdi.
    - destruct (op_enter_frame fn w) as (w' & -> & Hdi).
      exists w'. split; [done|]. by apply (Hsame w).
    - unfold op_exit. unfold_m.
      destruct (in_flight w) as [|[fn ctxs] fl] eqn:Hfl; simpl.
      + by exists w.
      + rewrite Hfl. simpl.
        destruct (Hexits fn ctxs (set_in_flight fl w))
          as (w' & Hrun & HP').
        * apply Inv_set_in_flight; [done|]. intros Hmono.
          destruct (Htimed Hmono) as (_ & Hflight & _).
          rewrite Hfl in Hflight. by eapply Forall_cons_1.
        * simpl. intros Hmono. destruct (Htimed Hmono) as (_ & Hflight & _).
          rewrite Hfl in Hflight.
          by apply Forall_cons_1 in Hflight as [? _].
        * by apply (Hsame w).
        * exists w'. split; [|done].
          destruct (run_exits fn ctxs (set_in_flight fl w)) as [[] ?| |];
            done.
    - eexists. split; [done|]. by apply (Hsame w). }
  assert (Hrun : ∀ actions w, Inv w → P w →
            ∃ w', run actions w = Some w' ∧ P w').
  { intros acts. induction acts as [|a acts IH]; intros w Hinv HP.
    - by exists w.
    - destruct (perform_Inv a w Hinv) as (w1 & Hstep1 & Hinv1 & _).
      destruct (Hperform a w Hinv HP) as (w1' & Hstep1' & HP1).
      rewrite Hstep1 in Hstep1'. simplify_eq.
      destruct (IH w1' Hinv1 HP1) as (w' & Hrun & HP').
      exists w'. simpl. rewrite Hstep1. by simpl. }
  apply Hrun; [by apply fresh_Inv|].
  intros st. unfold active_state.
  destruct Hfresh as (_ & Hdi & _). by rewrite Hdi.
Qed.

Lemma session_copied (w0 : World) (actions : list Action) :
  fresh w0 →
  ∃ w,
    run actions w0 = Some w ∧
    ∀ st,
      active_state w = Some st →
      ∃ buf,
        cpu_trace st = Some buf ∧
        Forall2 copied (kineto_events_ st) (ops buf).
Proof.
  apply (session_invariant
           (λ st, ∃ buf, cpu_trace st = Some buf ∧
                         Forall2 copied (kineto_events_ st) (ops buf))).
  - intros config activities w. eexists. split; [reflexivity|]. constructor.
  - intros st buf fn ctx tid now self (buf' & Hbuf' & Hall) Hbuf.
    simplify_eq. eexists. split; [reflexivity|]. simpl.
    apply Forall2_app; [done|]. by repeat constructor.
Qed.

(** X20: in every world a run of the bridge reaches from a fresh thread,
    the events of the active session and the activities of its trace
    buffer go in pairs, in order: an event has the name, the device and
    the start time of its activity, as duration the end time of the
    activity less its start time, and as correlation id the signed
    number the activity holds, converted to [uint64_t], as
    [KinetoEvent::activity] reads them; the ids of the events are values
    of a [uint64_t]. *)
Theorem events_mirror_activities (w0 : World) (actions : list Action) :
  fresh w0 →
  ∃ w,
    run actions w0 = Some w ∧
    ∀ st,
      active_state w = Some st →
      ∃ buf,
        cpu_trace st = Some buf ∧
        Forall2 mirrors (kineto_events_ st) (ops buf) ∧
        Forall (λ ev, 0 ≤ correlation_id_ ev < UINT64_MOD)
          (kineto_events_ st).
Proof.
  intros Hfresh.
  destruct (session_copied w0 actions Hfresh) as (w & Hrun & Hcopied).
  destruct (run_ranged actions w0 Hfresh) as (w1 & Hrun1 & _ & Hall).
  assert (w1 = w) as -> by congruence.
  exists w. split; [done|]. intros st Hst.
  destruct (Hcopied st Hst) as (buf & Hbuf & Hpairs).
  exists buf. split; [done|].
  unfold live_ids, session_ids in Hall. rewrite Hst in Hall.
  apply Forall_app in Hall as [Hall _]. apply Forall_fmap in Hall.
  split; [|done].
  clear Hbuf. induction Hpairs as [|ev op evs ops' Hev Hrest IH];
    [constructor|].
  apply Forall_cons in Hall as [Hid Hall].
  constructor; [by apply copied_mirrors|by apply IH].
Qed.

(** X21: in every world a run of the bridge reaches from a fresh thread,
    every event of the active session is an event of the CPU device with
    device index 0, and the shapes and the call stack of an event are
    either absent or not empty: an empty list is never recorded. *)
Theorem events_well_formed (w0 : World) (actions : list Action) :
  fresh w0 →
  ∃ w,
    run actions w0 = Some w ∧
    ∀ st,
      active_state w = Some st →
      Forall (λ ev, device_type_ ev = DeviceCPU ∧ device_index_ ev = 0 ∧
                    shapes_ ev ≠ Some [] ∧ stack_ ev ≠ Some [])
        (kineto_events_ st).
Proof.
  apply (session_invariant
           (λ st, Forall (λ ev, device_type_ ev = DeviceCPU ∧
                                device_index_ ev = 0 ∧
                                shapes_ ev ≠ Some [] ∧ stack_ ev ≠ Some [])
                    (kineto_events_ st))).
  - intros config activities w. constructor.
  - intros st buf fn ctx tid now self Hall Hbuf. simpl.
    apply Forall_app. split; [done|]. apply Forall_singleton. simpl.
    unfold kept.
    by destruct (shapes ctx) as [[|??]|], (stack ctx) as [[|??]|].
Qed.

End SessionInvariants.

(** * The rendering of shapes loses nothing *)

(** [show_int64] writes digits and a sign, at least one character, and
    writes different numbers differently. *)
Lemma append_cons (c : ascii) (a b : string) :
  String c a +:+ b = String c (a +:+ b).
Proof. reflexivity. Qed.

Lemma string_of_uint_all_num (d : Decimal.uint) :
  all_num (NilEmpty.string_of_uint d) = true.
Proof. induction d; simpl; auto. Qed.

Lemma show_int64_all_num (n : Z) : all_num (show_int64 n) = true.
Proof.
  unfold show_int64, NilZero.string_of_int, NilZero.string_of_uint.
  destruct (Z.to_int n) as [d|d]; destruct d; simpl;
    rewrite ?string_of_uint_all_num; done.
Qed.

Lemma show_int64_nonempty (n : Z) : show_int64 n ≠ EmptyString.
Proof.
  unfold show_int64, NilZero.string_of_int, NilZero.string_of_uint.
  destruct (Z.to_int n) as [d|d]; destruct d; done.
Qed.

Lemma to_int_not_nil (n : Z) :
  Z.to_int n ≠ Decimal.Pos Decimal.Nil ∧ Z.to_int n ≠ Decimal.Neg Decimal.Nil.
Proof.
  split; intros Hn; pose proof (DecimalZ.of_to n) as Hof;
    rewrite Hn in Hof; simpl in Hof; subst n; discriminate Hn.
Qed.

Lemma show_int64_inj (n m : Z) : show_int64 n = show_int64 m → n = m.
Proof.
  intros Heq. apply DecimalZ.to_int_inj.
  destruct (to_int_not_nil n) as [Hn1 Hn2], (to_int_not_nil m) as [Hm1 Hm2].
  pose proof (NilZero.isi _ Hn1 Hn2) as Hn.
  pose proof (NilZero.isi _ Hm1 Hm2) as Hm.
  unfold show_int64 in Heq. rewrite Heq in Hn. congruence.
Qed.

(** Two numbers, each followed by a string that starts with another
    character, are read off the same string only if they are the same
    number, followed by the same string. *)
Lemma num_split (a b S T : string) :
  all_num a = true → all_num b = true →
  starts_special S → starts_special T →
  a +:+ S = b +:+ T → a = b ∧ S = T.
Proof.
  revert b. induction a as [|c a IH]; intros [|c' b] Ha Hb HS HT Heq.
  - done.
  - change (S = String c' (b +:+ T)) in Heq. subst S. simpl in *.
    apply andb_true_iff in Hb as [Hc _]. congruence.
  - change (String c (a +:+ S) = T) in Heq. subst T. simpl in *.
    apply andb_true_iff in Ha as [Hc _]. congruence.
  - rewrite !append_cons in Heq. injection Heq as -> Heq. simpl in *.
    apply andb_true_iff in Ha as [_ Ha]. apply andb_true_iff in Hb as [_ Hb].
    destruct (IH b Ha Hb HS HT Heq) as [-> ->]. done.
Qed.

(** The same for the dimensions of a shape up to the closing bracket, and
    for the shapes of a sequence. *)
Lemma dims_rest_split (t1 t2 : list Z) (r r' : string) :
  join_rest (map show_int64 t1) +:+ "]" +:+ r
  = join_rest (map show_int64 t2) +:+ "]" +:+ r' →
  t1 = t2 ∧ r = r'.
Proof.
  revert t2. induction t1 as [|d t1 IH]; intros [|d' t2] Heq.
  - simpl in Heq. rewrite !append_cons in Heq. by simplify_eq.
  - simpl map in Heq. simpl join_rest in Heq.
    rewrite !string_app_assoc, !append_cons in Heq. discriminate Heq.
  - simpl map in Heq. simpl join_rest in Heq.
    rewrite !string_app_assoc, !append_cons in Heq. discriminate Heq.
  - simpl map in Heq. simpl join_rest in Heq.
    rewrite !string_app_assoc, !append_cons in Heq.
    injection Heq as Heq. change (EmptyString +:+ ?x) with x in Heq.
    apply num_split in Heq as [Hd Heq]; try apply show_int64_all_num.
    + apply show_int64_inj in Hd as ->.
      destruct (IH t2 Heq) as [-> ->]. done.
    + destruct t1; simpl; rewrite ?append_cons; done.
    + destruct t2; simpl; rewrite ?append_cons; done.
Qed.

Lemma dims_split (t1 t2 : list Z) (r r' : string) :
  bracketed (map show_int64 t1) +:+ r = bracketed (map show_int64 t2) +:+ r' →
  t1 = t2 ∧ r = r'.
Proof.
  unfold bracketed. destruct t1 as [|d t1], t2 as [|d' t2]; intros Heq.
  - simpl in Heq. rewrite ?append_cons in Heq. by simplify_eq.
  - exfalso. simpl map in Heq. rewrite join_comma_cons in Heq.
    simpl join_comma in Heq.
    rewrite !string_app_assoc, !append_cons in Heq. injection Heq as Heq.
    change (EmptyString +:+ ?x) with x in Heq.
    change (String "]" r) with (EmptyString +:+ String "]" r) in Heq.
    apply num_split in Heq as [Hd _];
      [by eapply show_int64_nonempty| done | apply show_int64_all_num | done |].
    destruct t2; simpl; rewrite ?append_cons; done.
  - exfalso. simpl map in Heq. rewrite join_comma_cons in Heq.
    simpl join_comma in Heq.
    rewrite !string_app_assoc, !append_cons in Heq. injection Heq as Heq.
    change (EmptyString +:+ ?x) with x in Heq.
    change (String "]" r') with (EmptyString +:+ String "]" r') in Heq.
    apply num_split in Heq as [Hd _];
      [by eapply show_int64_nonempty| apply show_int64_all_num | done | | done].
    destruct t1; simpl; rewrite ?append_cons; done.
  - simpl map in Heq. rewrite !join_comma_cons in Heq.
    rewrite !string_app_assoc, !append_cons in Heq. injection Heq as Heq.
    change (EmptyString +:+ ?x) with x in Heq.
    apply num_split in Heq as [Hd Heq]; try apply show_int64_all_num.
    + apply show_int64_inj in Hd as ->.
      apply dims_rest_split in Heq as [-> ->]. done.
    + destruct t1; simpl; rewrite ?append_cons; done.
    + destruct t2; simpl; rewrite ?append_cons; done.
Qed.

Lemma dims_split_inner (t1 t2 : list Z) (r r' : string) :
  (join_comma (map show_int64 t1) +:+ "]") +:+ r
  = (join_comma (map show_int64 t2) +:+ "]") +:+ r' →
  t1 = t2 ∧ r = r'.
Proof.
  intros Heq. apply dims_split. exact (f_equal (String "[") Heq).
Qed.

Lemma shapes_rest_inj (s1 s2 : list (list Z)) :
  join_rest (map (λ t, bracketed (map show_int64 t)) s1) +:+ "]"
  = join_rest (map (λ t, bracketed (map show_int64 t)) s2) +:+ "]" →
  s1 = s2.
Proof.
  revert s2. induction s1 as [|t s1 IH]; intros [|t' s2] Heq.
  - done.
  - simpl map in Heq. simpl join_rest in Heq.
    rewrite !string_app_assoc, !append_cons in Heq. discriminate Heq.
  - simpl map in Heq. simpl join_rest in Heq.
    rewrite !string_app_assoc, !append_cons in Heq. discriminate Heq.
  - cbn [map join_rest] in Heq.
    set (b1 := bracketed (map show_int64 t)) in Heq.
    set (b2 := bracketed (map show_int64 t')) in Heq.
    rewrite !string_app_assoc, !append_cons in Heq. injection Heq as Heq.
    change (EmptyString +:+ ?x) with x in Heq. subst b1 b2.
    apply dims_split_inner in Heq as [-> Heq]. by rewrite (IH s2 Heq).
Qed.

Lemma shapesToStr_render (shapes : list (list Z)) :
  shapesToStr shapes
  = "[" +:+ join_comma (map (λ t, bracketed (map show_int64 t)) shapes)
        +:+ "]".
Proof.
  unfold shapesToStr. rewrite shapes_loop_first. simpl.
  by rewrite string_app_assoc.
Qed.

(** X23: [shapesToStr] loses nothing on the sequences its [int] counters
    can count, those of at most [INT_MAX] shapes of at most [INT_MAX]
    dimensions each: two such sequences that are rendered as the same
    string are the same sequence, so that the input dimensions of an
    activity determine the shapes of its event. *)
Theorem shapesToStr_inj (s1 s2 : list (list Z)) :
  counters_fit s1 → counters_fit s2 →
  shapesToStr s1 = shapesToStr s2 → s1 = s2.
Proof.
  intros _ _. rewrite !shapesToStr_render. destruct s1 as [|t s1], s2 as [|t' s2]; intros Heq.
  - done.
  - exfalso. simpl map in Heq. rewrite join_comma_cons in Heq.
    unfold bracketed in Heq. simpl join_comma in Heq.
    rewrite !string_app_assoc, !append_cons in Heq. discriminate Heq.
  - exfalso. simpl map in Heq. rewrite join_comma_cons in Heq.
    unfold bracketed in Heq. simpl join_comma in Heq.
    rewrite !string_app_assoc, !append_cons in Heq. discriminate Heq.
  - cbn [map] in Heq. rewrite !join_comma_cons in Heq.
    set (b1 := bracketed (map show_int64 t)) in Heq.
    set (b2 := bracketed (map show_int64 t')) in Heq.
    rewrite !append_cons in Heq. injection Heq as Heq.
    change (EmptyString +:+ ?x) with x in Heq.
    clear b1 b2. rewrite !(string_app_assoc (_ +:+ _) _ "]") in Heq.
    apply dims_split_inner in Heq as [-> Heq].
    by rewrite (shapes_rest_inj _ _ Heq).
Qed.

(** * The theorems of the operations and sessions at concrete inputs *)

(** [complete_op_event], at a matrix product in a session that reports shapes
    and call stacks. *)
Lemma complete_op_event_witness :
  ∃ w' st' ev,
    run [Enter matmul; Exit] session_world = Some w' ∧
    active_state w' = Some st' ∧
    kineto_events_ st' = kineto_events_ session_state ++ [ev] ∧
    name_ ev = name matmul ∧ sequence_nr_ ev = seqNr matmul ∧
    fwd_thread_id_ ev = forwardThreadId matmul ∧
    scope_ ev = RecordScope_to_Z (scope matmul) ∧
    start_thread_id_ ev = currentThreadId session_world ∧
    end_thread_id_ ev = currentThreadId session_world ∧
    device_index_ ev = 0 ∧ device_type_ ev = DeviceCPU ∧
    correlation_id_ ev = corr_id_ session_world ∧
    start_us_ ev = clock session_world (ticks session_world) ∧
    duration_us_ ev = clock session_world (S (ticks session_world)) - clock
        session_world (ticks session_world).
Proof.
  apply (complete_op_event matmul session_world session_state session_buffer
      session_callback).
  - vm_compute. reflexivity.
  - vm_compute. reflexivity.
  - vm_compute. reflexivity.
  - vm_compute. reflexivity.
Defined.

(** [complete_op_activity], at the same operation, in that session when the
    counter is at [2^64 - 1]: the activity reads -1. *)
Lemma complete_op_activity_witness :
  ∃ w' st' buf' op,
    run [Enter matmul; Exit] late_session_world = Some w' ∧
    active_state w' = Some st' ∧ cpu_trace st' = Some buf' ∧
    ops buf' = ops session_buffer ++ [op] ∧
    span buf' = span session_buffer ∧ gpuOpCount buf' = gpuOpCount
        session_buffer ∧
    startTime op = clock late_session_world (ticks late_session_world) ∧
    endTime op = clock late_session_world (S (ticks late_session_world)) ∧
    opType op = name matmul ∧ device op = 0 ∧
    threadId op = pthread_self late_session_world ∧
    correlation_value op = to_int64 (corr_id_ late_session_world) ∧
    (0 ≤ corr_id_ late_session_world < INT64_HALF → correlation_value op =
        corr_id_ late_session_world) ∧
    (INT64_HALF ≤ corr_id_ late_session_world < UINT64_MOD →
     correlation_value op = corr_id_ late_session_world - UINT64_MOD).
Proof.
  apply (complete_op_activity matmul late_session_world session_state
      session_buffer session_callback).
  - vm_compute. reflexivity.
  - vm_compute. reflexivity.
  - vm_compute. reflexivity.
  - vm_compute. reflexivity.
Defined.

(** [complete_op_shapes], at the same operation and session. *)
Lemma complete_op_shapes_witness :
  ∃ w' st' buf' ev op,
    run [Enter matmul; Exit] session_world = Some w' ∧
    active_state w' = Some st' ∧ cpu_trace st' = Some buf' ∧
    kineto_events_ st' = kineto_events_ session_state ++ [ev] ∧
    ops buf' = ops session_buffer ++ [op] ∧
    (report_input_shapes (config session_state) = true → inputSizes matmul ≠
        [] →
     shapes_ ev = Some (inputSizes matmul) ∧
     inputDims op = shapesToStr (inputSizes matmul)) ∧
    (report_input_shapes (config session_state) = false ∨ inputSizes matmul =
        [] →
     shapes_ ev = None ∧ inputDims op = EmptyString).
Proof.
  apply (complete_op_shapes matmul session_world session_state session_buffer
      session_callback).
  - vm_compute. reflexivity.
  - vm_compute. reflexivity.
  - vm_compute. reflexivity.
  - vm_compute. reflexivity.
Defined.

(** [complete_op_stack], at the same operation and session. *)
Lemma complete_op_stack_witness :
  ∃ w' st' ev,
    run [Enter matmul; Exit] session_world = Some w' ∧
    active_state w' = Some st' ∧
    kineto_events_ st' = kineto_events_ session_state ++ [ev] ∧
    (with_stack (config session_state) = true → scope matmul ≠
        BACKWARD_FUNCTION →
     formatted_stack session_world ≠ [] → stack_ ev = Some (formatted_stack
         session_world)) ∧
    (with_stack (config session_state) = false ∨ scope matmul =
        BACKWARD_FUNCTION
     ∨ formatted_stack session_world = [] → stack_ ev = None).
Proof.
  apply (complete_op_stack matmul session_world session_state session_buffer
      session_callback).
  - vm_compute. reflexivity.
  - vm_compute. reflexivity.
  - vm_compute. reflexivity.
  - vm_compute. reflexivity.
Defined.

(** [complete_op_balanced], at the same operation and session. *)
Lemma complete_op_balanced_witness :
  ∃ w',
    run [Enter matmul; Exit] session_world = Some w' ∧
    in_flight w' = in_flight session_world ∧
    correlation_scopes (kineto w') = correlation_scopes (kineto session_world)
        ∧
    callbacks w' = callbacks session_world ∧
    tail (debug_info w') = tail (debug_info session_world) ∧
    transferred (kineto w') = transferred (kineto session_world) ∧
    corr_id_ w' = wrap_u64 (corr_id_ session_world + 1) ∧
    ticks w' = S (S (ticks session_world)).
Proof.
  apply (complete_op_balanced matmul session_world session_state
      session_buffer session_callback).
  - vm_compute. reflexivity.
  - vm_compute. reflexivity.
  - vm_compute. reflexivity.
  - vm_compute. reflexivity.
Defined.

(** [nested_ops_events], at a backward function inside a matrix product. *)
Lemma nested_ops_events_witness :
  ∃ w' st' ev_g ev_f,
    run [Enter matmul; Enter add_backward; Exit; Exit] session_world = Some w'
        ∧
    active_state w' = Some st' ∧
    kineto_events_ st' = kineto_events_ session_state ++ [ev_g; ev_f] ∧
    name_ ev_g = name add_backward ∧ name_ ev_f = name matmul ∧
    correlation_id_ ev_f = corr_id_ session_world ∧
    correlation_id_ ev_g = wrap_u64 (corr_id_ session_world + 1) ∧
    start_us_ ev_f = clock session_world (ticks session_world) ∧
    start_us_ ev_g = clock session_world (1 + ticks session_world) ∧
    duration_us_ ev_g = clock session_world (2 + ticks session_world) - clock
        session_world (1 + ticks session_world) ∧
    duration_us_ ev_f = clock session_world (3 + ticks session_world) - clock
        session_world (ticks session_world) ∧
    in_flight w' = in_flight session_world ∧
    correlation_scopes (kineto w') = correlation_scopes (kineto
        session_world).
Proof.
  apply (nested_ops_events matmul add_backward session_world session_state
      session_buffer session_callback).
  - vm_compute. reflexivity.
  - vm_compute. reflexivity.
  - vm_compute. reflexivity.
  - vm_compute. reflexivity.
Defined.

(** [consecutive_ops_in_order], at three operations. *)
Lemma consecutive_ops_in_order_witness :
  ∃ w' st' buf',
    run (complete_ops [matmul; add_backward; matmul]) session_world = Some w'
        ∧
    active_state w' = Some st' ∧ cpu_trace st' = Some buf' ∧
    name_ <$> kineto_events_ st'
    = (name_ <$> kineto_events_ session_state) ++ (name <$> [matmul;
        add_backward; matmul]) ∧
    opType <$> ops buf' = (opType <$> ops session_buffer) ++ (name <$>
        [matmul; add_backward; matmul]).
Proof.
  apply (consecutive_ops_in_order ([matmul; add_backward; matmul])
      session_world session_state session_buffer session_callback).
  - vm_compute. reflexivity.
  - vm_compute. reflexivity.
  - vm_compute. reflexivity.
  - vm_compute. reflexivity.
Defined.

(** [exit_after_disable], at a matrix product in that session. *)
Lemma exit_after_disable_witness :
  ∃ w1 w2 w',
    op_enter matmul session_world = Ok tt w1 ∧
    world_after (disableProfiler w1) = Some w2 ∧
    op_exit w2 = Ok tt w' ∧
    run [Enter matmul; Disable; Exit] session_world = Some w' ∧
    debug_info w' = [] ∧ in_flight w' = in_flight session_world ∧
    transferred (kineto w')
    = transferred (kineto session_world)
        ++ [closed_buffer session_buffer (clock session_world (S (ticks
            session_world)))] ∧
    correlation_scopes (kineto w')
    = corr_id_ session_world :: correlation_scopes (kineto session_world) ∧
    ticks w' = S (S (ticks session_world)).
Proof.
  apply (exit_after_disable matmul session_world session_state session_buffer
      session_callback).
  - vm_compute. reflexivity.
  - vm_compute. reflexivity.
  - vm_compute. reflexivity.
  - vm_compute. reflexivity.
Defined.

(** [disableProfiler_null_trace], at the session over a backend that hands
    back no trace. *)
Lemma disableProfiler_null_trace_witness :
  ∃ w',
    disableProfiler broken_backend_world = Fatal "trace" w' ∧
    debug_info w' = [] ∧ callbacks w' = [] ∧
    transferred (kineto w')
    = transferred (kineto broken_backend_world) ++ [closed_buffer
        session_buffer (clock broken_backend_world (ticks
        broken_backend_world))] ∧
    trace_active (kineto w') = false ∧
    ∃ w'',
      disableProfiler w'
      = Fatal "Can't disable Kineto profiler when it's not running" w''.
Proof.
  apply (disableProfiler_null_trace broken_backend_world session_state
      session_buffer session_callback).
  - vm_compute. reflexivity.
  - vm_compute. reflexivity.
  - vm_compute. reflexivity.
  - vm_compute. reflexivity.
  - vm_compute. reflexivity.
  - vm_compute. reflexivity.
Defined.

(** [disableProfiler_failure_pops], at a thread on which the legacy profiler
    runs. *)
Lemma disableProfiler_failure_pops_witness :
  disableProfiler legacy_world
  = Fatal "Can't disable Kineto profiler when it's not running"
      (set_debug_info [] legacy_world).
Proof.
  apply (disableProfiler_failure_pops legacy_world (LegacyTLS
      (mkProfilerThreadLocalState (mkProfilerConfig CPU_MODE false false) None
      [])) []).
  - vm_compute. reflexivity.
  - simpl. discriminate.
Defined.

(** [enable_disable_round_trip], at a fresh thread. *)
Lemma enable_disable_round_trip_witness :
  ∃ w1 r w2,
    enableProfiler (kineto_cfg false false) {[CPU]} demo_world = Ok tt w1 ∧
    disableProfiler w1 = Ok r w2 ∧
    debug_info w2 = debug_info demo_world ∧ callbacks w2 = callbacks
        demo_world ∧
    in_flight w2 = in_flight demo_world ∧ corr_id_ w2 = corr_id_ demo_world ∧
    events_ (result_ r) = [] ∧
    legacy_events_ (result_ r) = [["__start_profile"; "__stop_profile"]] ∧
    trace_cpu (trace_ (result_ r)) = transferred (kineto w2) ∧
    transferred (kineto w2)
    = transferred (kineto demo_world)
        ++ [mkCpuTraceBuffer
              (mkTraceSpan (clock demo_world (ticks demo_world)) (clock
                  demo_world (S (ticks demo_world)))
                 "PyTorch Profiler")
              (-1) []].
Proof.
  apply (enable_disable_round_trip (kineto_cfg false false) ({[CPU]})
      demo_world).
  - reflexivity.
  - intros Hacts. vm_compute in Hacts. discriminate Hacts.
  - reflexivity.
  - apply Forall_nil_2.
  - reflexivity.
Defined.

(** [enable_after_disable], after a session with one operation. *)
Lemma enable_after_disable_witness :
  ∃ w w' st,
    run (one_op_session ++ [Disable]) demo_world = Some w ∧
    enableProfiler (kineto_cfg true false) {[CPU; CUDA]} w = Ok tt w' ∧
    active_state w' = Some st ∧
    config_ (base st) = (kineto_cfg true false) ∧ kineto_events_ st = [].
Proof.
  apply (enable_after_disable demo_world one_op_session (kineto_cfg true
      false) ({[CPU; CUDA]})).
  - exact demo_world_fresh.
  - reflexivity.
  - intros Hacts. vm_compute in Hacts. discriminate Hacts.
Defined.

(** [op_without_session], at a thread on which the state of the legacy
    profiler is on top of the slot while the callback of the bridge is
    registered: its entry and its exit callback run. *)
Lemma op_without_session_witness :
  run_entries (callbacks legacy_over_session_world) matmul
      legacy_over_session_world
  = Ok (replicate (length (callbacks legacy_over_session_world))
          (KinetoCtx new_KinetoObserverContext)) legacy_over_session_world ∧
  run [Enter matmul; Exit] legacy_over_session_world = Some
      legacy_over_session_world.
Proof.
  apply (op_without_session matmul legacy_over_session_world).
  - vm_compute. done.
Defined.

(** [session_without_cpu_activity], at two nested operations in a session
    enabled for CUDA activity alone. *)
Lemma session_without_cpu_activity_witness :
  ∃ w1 w' st buf,
    enableProfiler (kineto_cfg false false) {[CUDA]} demo_world = Ok tt w1 ∧
    callbacks w1 = [] ∧
    run [Enter matmul; Enter add_backward; Exit; Exit] w1 = Some w' ∧
    debug_info w' = debug_info w1 ∧
    active_state w' = Some st ∧ kineto_events_ st = [] ∧
    cpu_trace st = Some buf ∧ ops buf = [] ∧
    corr_id_ w' = corr_id_ demo_world ∧ ticks w' = ticks w1.
Proof.
  apply (session_without_cpu_activity (kineto_cfg false false) ({[CUDA]})
      ([Enter matmul; Enter add_backward; Exit; Exit]) demo_world).
  - exact demo_world_fresh.
  - reflexivity.
  - intros Hacts. vm_compute in Hacts. discriminate Hacts.
  - intros Hcpu. vm_compute in Hcpu. discriminate Hcpu.
  - repeat constructor.
Defined.

(** [prepareProfiler_wrong_mode], at a config in the CPU mode of the legacy
    profiler. *)
Lemma prepareProfiler_wrong_mode_witness :
  prepareProfiler (mkProfilerConfig CPU_MODE false false) {[CPU]} demo_world
  = Fatal "Supported only in Kineto profiler" demo_world.
Proof.
  apply (prepareProfiler_wrong_mode (mkProfilerConfig CPU_MODE false false)
      ({[CPU]}) demo_world).
  - simpl. discriminate.
Defined.

(** [foreign_context_refused], at that session. *)
Lemma foreign_context_refused_witness :
  exit_callback matmul ForeignCtx session_world = Fatal
      "kineto_ctx_ptr != nullptr" session_world ∧
  reportClientActivity session_state matmul ForeignCtx session_world = Fatal
      "ctx" session_world.
Proof.
  apply (foreign_context_refused matmul session_world session_state).
  - vm_compute. reflexivity.
  - vm_compute. reflexivity.
Defined.

(** [correlation_ids_unique], at a session with two nested operations. *)
Lemma correlation_ids_unique_witness :
  ∃ w,
    run two_op_session demo_world = Some w ∧
    NoDup (session_ids w ++ flight_ids (in_flight w)) ∧
    ∀ st,
      active_state w = Some st →
      NoDup (correlation_id_ <$> kineto_events_ st) ∧
      Forall (λ ev, 1 ≤ correlation_id_ ev ≤ Z.of_nat (length two_op_session))
        (kineto_events_ st).
Proof.
  apply (correlation_ids_unique demo_world two_op_session).
  - exact demo_world_fresh.
  - vm_compute. reflexivity.
Defined.

(** [events_mirror_activities], at the same session. *)
Lemma events_mirror_activities_witness :
  ∃ w,
    run two_op_session demo_world = Some w ∧
    ∀ st,
      active_state w = Some st →
      ∃ buf,
        cpu_trace st = Some buf ∧
        Forall2 mirrors (kineto_events_ st) (ops buf) ∧
        Forall (λ ev, 0 ≤ correlation_id_ ev < UINT64_MOD)
          (kineto_events_ st).
Proof.
  apply (events_mirror_activities demo_world two_op_session).
  - exact demo_world_fresh.
Defined.

(** [events_well_formed], at the same session. *)
Lemma events_well_formed_witness :
  ∃ w,
    run two_op_session demo_world = Some w ∧
    ∀ st,
      active_state w = Some st →
      Forall (λ ev, device_type_ ev = DeviceCPU ∧ device_index_ ev = 0 ∧
                    shapes_ ev ≠ Some [] ∧ stack_ ev ≠ Some [])
        (kineto_events_ st).
Proof.
  apply (events_well_formed demo_world two_op_session).
  - exact demo_world_fresh.
Defined.

(** [k_activities_of_union], at the request of CPU activity within that of
    CPU and CUDA activity. *)
Lemma k_activities_of_union_witness :
  k_activities_of {[CPU]} ⊆ k_activities_of {[CPU; CUDA]}.
Proof.
  apply (proj1 (proj2 (k_activities_of_union {[CPU]} {[CPU; CUDA]}))).
  set_solver.
Defined.

(** [pushProfilingCallbacks_registers], at a fresh thread and at a session
    that has no callback yet. *)
Lemma pushProfilingCallbacks_registers_witness :
  pushProfilingCallbacks demo_world
  = Fatal "Expected profiler state set" demo_world ∧
  ∃ w',
    pushProfilingCallbacks cuda_session_world = Ok tt w' ∧
    callbacks w'
    = callbacks cuda_session_world
        ++ [mkRegisteredCallback (next_handle cuda_session_world)
              (report_input_shapes (config cuda_session_state)) true] ∧
    (next_handle cuda_session_world
       ∉ (cb_handle <$> callbacks cuda_session_world)) ∧
    active_state w'
    = Some (setCallbackHandle (next_handle cuda_session_world)
              cuda_session_state) ∧
    handles_fresh w' ∧ NoDup (cb_handle <$> callbacks w').
Proof.
  split.
  - apply (proj1 (pushProfilingCallbacks_registers demo_world)).
    reflexivity.
  - apply (proj2 (pushProfilingCallbacks_registers cuda_session_world)
             cuda_session_state).
    + vm_compute. reflexivity.
    + apply Forall_nil_2.
    + apply NoDup_nil_2.
Defined.

(** [shapesToStr_inj], at the input shapes of a matrix product. *)
Lemma shapesToStr_inj_witness : inputSizes matmul = [[2; 3]; [3; 4]].
Proof.
  apply (shapesToStr_inj (inputSizes matmul) [[2; 3]; [3; 4]]).
  - split; [by vm_compute|]. repeat constructor; by vm_compute.
  - split; [by vm_compute|]. repeat constructor; by vm_compute.
  - reflexivity.
Defined.
